(** * Scalping dashboard: signal synthesis, history buffer and persistence

    A shallow embedding of [app.py], [database.py] and [models.py].

    Conventions of the embedding.
    - Python [int] is [Z].  Python [float] is modelled by exact rationals
      ([Q]): every arithmetic operation is the exact one, [int(x)] truncates
      toward zero and [round(x, n)] rounds half-to-even at [n] decimals.
      Where a float is cut to an integer or to one decimal (probability,
      duration, pip target, risk/reward) the rational value is proved equal
      to the IEEE 754 binary64 one on every input that reaches it; prices
      stay rationals.
    - A Python [dict] whose keys are fixed by the program is a record; a
      [dict] built at run time ([strategies], a JSON body) is an
      insertion-ordered association list, as CPython keeps it.
    - A Python function is a computation [Py S A]: it reads and writes a
      state [S] and either returns a value or raises; what it wrote before
      raising stays written.
    - The process-global [random] module is a state [G] with the three
      operations the program calls ([RandomSource]).
    - The wall clock, the quote source and the database engine are inputs:
      they are part of the state a computation runs on.
    - Requests and rounds of the background updater run one at a time. *)

From Stdlib Require Import ZArith QArith Qround Qabs Lia Lqa List String Ascii Bool.
From Stdlib Require Import Permutation Floats Uint63.
Import ListNotations.

Open Scope string_scope.
Open Scope list_scope.
Open Scope Z_scope.

(** ** Python values and operations *)

(** [int(x)] on a float: truncation toward zero. *)
Definition py_int (x : Q) : Z := Z.quot (Qnum x) (Zpos (Qden x)).

(** Nearest integer, ties to the even one. *)
Definition round_half_even (x : Q) : Z :=
  let f := Qfloor x in
  match (x - inject_Z f ?= 1 # 2)%Q with
  | Lt => f
  | Gt => f + 1
  | Eq => if Z.even f then f else f + 1
  end.

(** [round(x, ndigits)]. *)
Definition py_round (x : Q) (ndigits : nat) : Q :=
  let scale := inject_Z (10 ^ Z.of_nat ndigits) in
  Qred (inject_Z (round_half_even (x * scale)) / scale)%Q.

Definition Qlt_bool (x y : Q) : bool := negb (Qle_bool y x).

Definition sum_list (l : list Z) : Z := fold_right Z.add 0 l.

(** An insertion-ordered dictionary with string keys. *)
Definition dict (V : Type) : Type := list (string * V).

Fixpoint dict_get {V : Type} (k : string) (d : dict V) : option V :=
  match d with
  | [] => None
  | (k', v) :: rest => if String.eqb k k' then Some v else dict_get k rest
  end.

(** [d[k] = v]: an existing key keeps its place, a new one goes last. *)
Fixpoint dict_set {V : Type} (k : string) (v : V) (d : dict V) : dict V :=
  match d with
  | [] => [(k, v)]
  | (k', v') :: rest =>
      if String.eqb k k' then (k, v) :: rest else (k', v') :: dict_set k v rest
  end.

Definition dict_values {V : Type} (d : dict V) : list V := map snd d.

Definition dict_keys {V : Type} (d : dict V) : list string := map fst d.

Definition dict_mem {V : Type} (k : string) (d : dict V) : bool :=
  match dict_get k d with Some _ => true | None => false end.

(** ** Computations that may raise *)

Inductive exn : Type :=
| KeyError (key : string)
| TypeError
| ValueError
| IntegrityError
| OperationalError
| BadRequest.

Inductive result (A : Type) : Type :=
| Ok (a : A)
| Raise (e : exn).
Arguments Ok {A} a.
Arguments Raise {A} e.

Definition Py (S A : Type) : Type := S -> result A * S.

Definition ret {S A : Type} (a : A) : Py S A := fun s => (Ok a, s).

Definition raise {S A : Type} (e : exn) : Py S A := fun s => (Raise e, s).

Definition bind {S A B : Type} (c : Py S A) (k : A -> Py S B) : Py S B :=
  fun s =>
    match c s with
    | (Ok a, s') => k a s'
    | (Raise e, s') => (Raise e, s')
    end.

(** [try: c  except Exception as e: h e]. *)
Definition try_except {S A : Type} (c : Py S A) (h : exn -> Py S A) : Py S A :=
  fun s =>
    match c s with
    | (Ok a, s') => (Ok a, s')
    | (Raise e, s') => h e s'
    end.

(** [try: c  finally: f]; [f] itself does not raise or return. *)
Definition try_finally {S A : Type} (c : Py S A) (f : S -> S) : Py S A :=
  fun s => let (r, s') := c s in (r, f s').

Definition gets {S A : Type} (f : S -> A) : Py S A := fun s => (Ok (f s), s).

Definition modify {S : Type} (f : S -> S) : Py S unit := fun s => (Ok tt, f s).

(** Runs a computation on a component of the state. *)
Definition zoom {S T A : Type} (get : S -> T) (set : T -> S -> S)
    (c : Py T A) : Py S A :=
  fun s => let (r, t') := c (get s) in (r, set t' s).

Declare Scope py_scope.
Delimit Scope py_scope with py.
Notation "x <- c ;; k" := (bind c (fun x => k))
  (at level 61, c at next level, right associativity) : py_scope.
Notation "c ;; k" := (bind c (fun _ => k))
  (at level 61, right associativity) : py_scope.
Open Scope py_scope.

(** [d[k]] raises [KeyError] on a missing key. *)
Definition dict_getitem {S V : Type} (k : string) (d : dict V) : Py S V :=
  match dict_get k d with
  | Some v => ret v
  | None => raise (KeyError k)
  end.

(** ** The random source *)

(** The state of Python's [random] module with the calls the program
    makes; the laws are the documented ranges of those calls. *)
Class RandomSource (G : Type) : Type := {
  rand_choice01 : G -> Z * G;
  rand_random : G -> Q * G;
  rand_randint : Z -> Z -> G -> Z * G;
  rand_choice01_range :
    forall g, fst (rand_choice01 g) = 0 \/ fst (rand_choice01 g) = 1;
  rand_random_range :
    forall g, (0 <= fst (rand_random g))%Q /\ (fst (rand_random g) < 1)%Q;
  rand_randint_range :
    forall a b g, a <= b ->
      a <= fst (rand_randint a b g) /\ fst (rand_randint a b g) <= b
}.

(** A replayable source: a tape of raw draws, one consumed per call
    (an exhausted tape keeps answering with draw [0]). *)
Definition tape : Type := list Z.

Definition tape_next (t : tape) : Z * tape :=
  match t with
  | [] => (0, [])
  | n :: rest => (n, rest)
  end.

Definition tape_choice01 (t : tape) : Z * tape :=
  let (n, rest) := tape_next t in (n mod 2, rest).

Definition tape_random (t : tape) : Q * tape :=
  let (n, rest) := tape_next t in ((n mod 1000) # 1000, rest)%Q.

Definition tape_randint (a b : Z) (t : tape) : Z * tape :=
  let (n, rest) := tape_next t in (a + n mod (b - a + 1), rest).

#[export] Instance tape_source : RandomSource tape.
Proof.
  refine {| rand_choice01 := tape_choice01;
            rand_random := tape_random;
            rand_randint := tape_randint |}.
  - intros g. unfold tape_choice01. destruct (tape_next g) as [n r]. simpl.
    pose proof (Z.mod_pos_bound n 2). lia.
  - intros g. unfold tape_random. destruct (tape_next g) as [n r]. simpl.
    pose proof (Z.mod_pos_bound n 1000 ltac:(lia)) as Hn.
    unfold Qle, Qlt. simpl. lia.
  - intros a b g Hab. unfold tape_randint. destruct (tape_next g) as [n r].
    simpl. pose proof (Z.mod_pos_bound n (b - a + 1) ltac:(lia)). lia.
Defined.

(** ** models.py: the persisted records

    One record per mapped class; a column is an [option] field, [None]
    being SQL [NULL] (and, on an object not yet flushed, "not set"). *)

Module Signal.
Record t : Type := {
  id : option Z;
  timestamp : option Z;
  direction : option string;
  probability : option Q;
  entry_price : option Q;
  target_price : option Q;
  stop_loss : option Q;
  pips_target : option Z;
  risk_reward : option Q;
  duration : option Z;
  strategies : option (dict Z);
  strength_class : option string;
  trading_allowed : option bool;
  high_impact_news : option bool;
  volume : option Q
}.
End Signal.

Module SignalResult.
Record t : Type := {
  id : option Z;
  signal_id : option Z;
  result : option string;
  pips_gained : option Q;
  exit_price : option Q;
  exit_time : option Z;
  notes : option string
}.
End SignalResult.

Module MarketSnapshot.
Record t : Type := {
  id : option Z;
  timestamp : option Z;
  symbol : option string;
  price : option Q;
  high_24h : option Q;
  low_24h : option Q;
  volume : option Q
}.
End MarketSnapshot.

(** ** database.py: the store and the session

    The engine and the ORM session are not code of the repository; they
    are described as far as [database.py] depends on them.  [add]
    registers an object with the session.  [commit] flushes the pending
    objects in one transaction: either every one of them is written
    (primary keys assigned, column defaults applied) or the call raises
    and nothing is written.  It raises when the engine fails the unit of
    work or when a [nullable=False] column or an enforced foreign key is
    violated.  [rollback] drops what is pending, [close] empties the
    session; neither of them, nor the read of an attribute, raises. *)

(** The three tables, rows in insertion order; [fk_enforced] tells whether
    the engine checks [ForeignKey("signals.id")] (PostgreSQL does, SQLite
    as configured here does not). *)
Record Db : Type := {
  signals : list Signal.t;
  signal_results : list SignalResult.t;
  market_snapshots : list MarketSnapshot.t;
  fk_enforced : bool
}.

Definition empty_db (fk : bool) : Db :=
  {| signals := []; signal_results := []; market_snapshots := [];
     fk_enforced := fk |}.

Inductive orm_object : Type :=
| OSignal (s : Signal.t)
| OSignalResult (r : SignalResult.t)
| OMarketSnapshot (m : MarketSnapshot.t).

Definition object_id (o : orm_object) : option Z :=
  match o with
  | OSignal s => Signal.id s
  | OSignalResult r => SignalResult.id r
  | OMarketSnapshot m => MarketSnapshot.id m
  end.

(** A unit of work: the committed store, the objects added to the session
    (an object without id is pending), and the two things the engine
    decides for it: whether this unit of work fails at the engine
    ([engine_fault]: lost connection, a value the driver refuses) and the
    clock that column defaults read. *)
Record DbSession : Type := {
  committed : Db;
  objects : list orm_object;
  engine_fault : bool;
  session_now : Z
}.

(** [Session()] on a store. *)
Definition open_session (db : Db) (fault : bool) (now : Z) : DbSession :=
  {| committed := db; objects := []; engine_fault := fault; session_now := now |}.

Definition is_some {A : Type} (o : option A) : bool :=
  match o with Some _ => true | None => false end.

Definition or_default {A : Type} (o : option A) (d : A) : option A :=
  match o with Some a => Some a | None => Some d end.

(** The next value of an integer primary key. *)
Definition next_id (ids : list (option Z)) : Z :=
  1 + fold_right (fun o m => match o with Some i => Z.max i m | None => m end) 0 ids.

Definition signal_exists (i : Z) (db : Db) : bool :=
  existsb (fun s => match Signal.id s with Some j => i =? j | None => false end)
          (signals db).

(** INSERT of one pending object: column defaults fill what is not set,
    then the [nullable=False] columns (and the foreign key) are checked. *)
Definition insert_signal (now : Z) (db : Db) (s : Signal.t) : result (Db * orm_object) :=
  let row :=
    {| Signal.id := Some (next_id (map Signal.id (signals db)));
       Signal.timestamp := or_default (Signal.timestamp s) now;
       Signal.direction := Signal.direction s;
       Signal.probability := Signal.probability s;
       Signal.entry_price := Signal.entry_price s;
       Signal.target_price := Signal.target_price s;
       Signal.stop_loss := Signal.stop_loss s;
       Signal.pips_target := Signal.pips_target s;
       Signal.risk_reward := Signal.risk_reward s;
       Signal.duration := Signal.duration s;
       Signal.strategies := Signal.strategies s;
       Signal.strength_class := Signal.strength_class s;
       Signal.trading_allowed := or_default (Signal.trading_allowed s) true;
       Signal.high_impact_news := or_default (Signal.high_impact_news s) false;
       Signal.volume := Signal.volume s |} in
  if is_some (Signal.direction s) && is_some (Signal.probability s)
     && is_some (Signal.entry_price s) && is_some (Signal.target_price s)
     && is_some (Signal.stop_loss s) && is_some (Signal.pips_target s)
     && is_some (Signal.risk_reward s) && is_some (Signal.duration s)
     && is_some (Signal.strategies s) && is_some (Signal.strength_class s)
  then Ok ({| signals := signals db ++ [row];
              signal_results := signal_results db;
              market_snapshots := market_snapshots db;
              fk_enforced := fk_enforced db |}, OSignal row)
  else Raise IntegrityError.

Definition insert_signal_result (db : Db) (r : SignalResult.t) : result (Db * orm_object) :=
  let row :=
    {| SignalResult.id := Some (next_id (map SignalResult.id (signal_results db)));
       SignalResult.signal_id := SignalResult.signal_id r;
       SignalResult.result := SignalResult.result r;
       SignalResult.pips_gained := SignalResult.pips_gained r;
       SignalResult.exit_price := SignalResult.exit_price r;
       SignalResult.exit_time := SignalResult.exit_time r;
       SignalResult.notes := SignalResult.notes r |} in
  let fk_ok :=
    match SignalResult.signal_id r with
    | Some i => negb (fk_enforced db) || signal_exists i db
    | None => true
    end in
  if fk_ok
  then Ok ({| signals := signals db;
              signal_results := signal_results db ++ [row];
              market_snapshots := market_snapshots db;
              fk_enforced := fk_enforced db |}, OSignalResult row)
  else Raise IntegrityError.

Definition insert_market_snapshot (now : Z) (db : Db) (m : MarketSnapshot.t)
    : result (Db * orm_object) :=
  let row :=
    {| MarketSnapshot.id := Some (next_id (map MarketSnapshot.id (market_snapshots db)));
       MarketSnapshot.timestamp := or_default (MarketSnapshot.timestamp m) now;
       MarketSnapshot.symbol := or_default (MarketSnapshot.symbol m) "EURUSD";
       MarketSnapshot.price := MarketSnapshot.price m;
       MarketSnapshot.high_24h := MarketSnapshot.high_24h m;
       MarketSnapshot.low_24h := MarketSnapshot.low_24h m;
       MarketSnapshot.volume := MarketSnapshot.volume m |} in
  if is_some (MarketSnapshot.price m)
  then Ok ({| signals := signals db;
              signal_results := signal_results db;
              market_snapshots := market_snapshots db ++ [row];
              fk_enforced := fk_enforced db |}, OMarketSnapshot row)
  else Raise IntegrityError.

Definition insert_object (now : Z) (db : Db) (o : orm_object) : result (Db * orm_object) :=
  match o with
  | OSignal s => insert_signal now db s
  | OSignalResult r => insert_signal_result db r
  | OMarketSnapshot m => insert_market_snapshot now db m
  end.

(** The flush of a session's objects inside one transaction: pending ones
    are inserted in the order they were added; the first refusal aborts. *)
Fixpoint flush (now : Z) (db : Db) (os : list orm_object)
    : result (Db * list orm_object) :=
  match os with
  | [] => Ok (db, [])
  | o :: rest =>
      if is_some (object_id o) then
        match flush now db rest with
        | Ok (db', rest') => Ok (db', o :: rest')
        | Raise e => Raise e
        end
      else
        match insert_object now db o with
        | Raise e => Raise e
        | Ok (db1, o') =>
            match flush now db1 rest with
            | Ok (db', rest') => Ok (db', o' :: rest')
            | Raise e => Raise e
            end
        end
  end.

(** [session.add(obj)]; the answer is the object's place in the session,
    through which its attributes are read later. *)
Definition session_add (o : orm_object) : Py DbSession nat :=
  fun s =>
    (Ok (List.length (objects s)),
     {| committed := committed s; objects := objects s ++ [o];
        engine_fault := engine_fault s; session_now := session_now s |}).

(** [session.commit()]: all pending objects are written, or none is. *)
Definition session_commit : Py DbSession unit :=
  fun s =>
    if engine_fault s then (Raise OperationalError, s)
    else
      match flush (session_now s) (committed s) (objects s) with
      | Raise e => (Raise e, s)
      | Ok (db', os') =>
          (Ok tt, {| committed := db'; objects := os';
                     engine_fault := engine_fault s; session_now := session_now s |})
      end.

(** [session.rollback()]: pending objects are dropped. *)
Definition session_rollback : Py DbSession unit :=
  modify (fun s =>
    {| committed := committed s;
       objects := filter (fun o => is_some (object_id o)) (objects s);
       engine_fault := engine_fault s; session_now := session_now s |}).

(** [session.close()]. *)
Definition session_close (s : DbSession) : DbSession :=
  {| committed := committed s; objects := [];
     engine_fault := engine_fault s; session_now := session_now s |}.

(** [obj.id] of the object at place [h]. *)
Definition attr_id (h : nat) : Py DbSession (option Z) :=
  gets (fun s => match nth_error (objects s) h with
                 | Some o => object_id o
                 | None => None
                 end).

(** A query reaches the engine, which may refuse it. *)
Definition query {A : Type} (f : Db -> A) : Py DbSession A :=
  fun s => if engine_fault s then (Raise OperationalError, s)
           else (Ok (f (committed s)), s).

(** ** app.py: the process-wide dictionaries *)

Module MarketData.
Record t : Type := {
  current_price : Q;
  volume : Z;
  high_24h : Q;
  low_24h : Q;
  last_update : option Z
}.
End MarketData.

(** The arguments of [save_signal], as [signal_data.get(key)] reads them:
    [None] is a missing key. *)
Module SignalData.
Record t : Type := {
  timestamp : option Z;
  direction : option string;
  probability : option Z;
  entry_price : option Q;
  target_price : option Q;
  stop_loss : option Q;
  pips_target : option Z;
  risk_reward : option Q;
  duration : option Z;
  strategies : option (dict Z);
  strength_class : option string;
  trading_allowed : option bool;
  has_high_impact_news : option bool;
  volume : option Z
}.
End SignalData.

(** The arguments of [save_signal_result]. *)
Module ResultData.
Record t : Type := {
  signal_id : option Z;
  result : option string;
  pips_gained : option Q;
  exit_price : option Q;
  exit_time : option Z;
  notes : option string
}.
End ResultData.

Module Stats.
Record t : Type := {
  total_signals : Z;
  signals_with_results : Z;
  wins : Z;
  losses : Z;
  win_rate : Q;
  avg_pips_gained : Q
}.
End Stats.

(** ** database.py: the operations *)

Definition get_or {A : Type} (o : option A) (d : A) : A :=
  match o with Some a => a | None => d end.

(** The copy loop of [save_signal]: every entry is set again, in order,
    on a new dictionary (the flags are already integers). *)
Definition copy_strategies (d : dict Z) : dict Z :=
  fold_left (fun acc kv => dict_set (fst kv) (snd kv) acc) d [].

Definition save_signal (signal_data : SignalData.t) : Py DbSession (option Z) :=
  try_finally
    (try_except
       (let strategies := copy_strategies (get_or (SignalData.strategies signal_data) []) in
        let signal :=
          {| Signal.id := None;
             Signal.timestamp := SignalData.timestamp signal_data;
             Signal.direction := SignalData.direction signal_data;
             Signal.probability := option_map inject_Z (SignalData.probability signal_data);
             Signal.entry_price := SignalData.entry_price signal_data;
             Signal.target_price := SignalData.target_price signal_data;
             Signal.stop_loss := SignalData.stop_loss signal_data;
             Signal.pips_target := SignalData.pips_target signal_data;
             Signal.risk_reward := SignalData.risk_reward signal_data;
             Signal.duration := SignalData.duration signal_data;
             Signal.strategies := Some strategies;
             Signal.strength_class := SignalData.strength_class signal_data;
             Signal.trading_allowed :=
               Some (get_or (SignalData.trading_allowed signal_data) true);
             Signal.high_impact_news :=
               Some (get_or (SignalData.has_high_impact_news signal_data) false);
             Signal.volume :=
               Some (inject_Z (get_or (SignalData.volume signal_data) 0)) |} in
        h <- session_add (OSignal signal) ;;
        session_commit ;;
        attr_id h)
       (fun _ => session_rollback ;; ret None))
    session_close.

Definition save_signal_result (result_data : ResultData.t) : Py DbSession (option Z) :=
  try_finally
    (try_except
       (let result :=
          {| SignalResult.id := None;
             SignalResult.signal_id := ResultData.signal_id result_data;
             SignalResult.result := ResultData.result result_data;
             SignalResult.pips_gained := ResultData.pips_gained result_data;
             SignalResult.exit_price := ResultData.exit_price result_data;
             SignalResult.exit_time := ResultData.exit_time result_data;
             SignalResult.notes := ResultData.notes result_data |} in
        h <- session_add (OSignalResult result) ;;
        session_commit ;;
        attr_id h)
       (fun _ => session_rollback ;; ret None))
    session_close.

Definition save_market_snapshot (market_data : MarketData.t) : Py DbSession (option Z) :=
  try_finally
    (try_except
       (let snapshot :=
          {| MarketSnapshot.id := None;
             MarketSnapshot.timestamp := None;
             MarketSnapshot.symbol := Some "EURUSD";
             MarketSnapshot.price := Some (MarketData.current_price market_data);
             MarketSnapshot.high_24h := Some (MarketData.high_24h market_data);
             MarketSnapshot.low_24h := Some (MarketData.low_24h market_data);
             MarketSnapshot.volume := Some (inject_Z (MarketData.volume market_data)) |} in
        h <- session_add (OMarketSnapshot snapshot) ;;
        session_commit ;;
        attr_id h)
       (fun _ => session_rollback ;; ret None))
    session_close.

(** The dictionary [Signal.to_dict] returns.  The rendering of a time to
    the second is identified with the time, as in the signal dictionary
    of [app.py]. *)
Module SignalRecord.
Record t : Type := {
  id : option Z;
  timestamp : Z;
  direction : option string;
  probability : option Q;
  entry_price : option Q;
  target_price : option Q;
  stop_loss : option Q;
  pips_target : option Z;
  risk_reward : option Q;
  duration : option Z;
  strategies : option (dict Z);
  strength_class : option string;
  trading_allowed : option bool;
  high_impact_news : option bool;
  volume : option Q
}.
End SignalRecord.

(** What [None.strftime] raises. *)
Inductive attribute_error : Type := AttributeError.

(** [Signal.to_dict] of [models.py]. *)
Definition Signal_to_dict (self : Signal.t) : attribute_error + SignalRecord.t :=
  match Signal.timestamp self with
  | None => inl AttributeError
  | Some timestamp =>
      inr {| SignalRecord.id := Signal.id self;
             SignalRecord.timestamp := timestamp;
             SignalRecord.direction := Signal.direction self;
             SignalRecord.probability := Signal.probability self;
             SignalRecord.entry_price := Signal.entry_price self;
             SignalRecord.target_price := Signal.target_price self;
             SignalRecord.stop_loss := Signal.stop_loss self;
             SignalRecord.pips_target := Signal.pips_target self;
             SignalRecord.risk_reward := Signal.risk_reward self;
             SignalRecord.duration := Signal.duration self;
             SignalRecord.strategies := Signal.strategies self;
             SignalRecord.strength_class := Signal.strength_class self;
             SignalRecord.trading_allowed := Signal.trading_allowed self;
             SignalRecord.high_impact_news := Signal.high_impact_news self;
             SignalRecord.volume := Signal.volume self |}
  end.

(** [Signal.id == signal_id]. *)
Definition has_id (signal_id : Z) (s : Signal.t) : bool :=
  match Signal.id s with
  | Some i => i =? signal_id
  | None => false
  end.

(** The [AttributeError] of [to_dict] is an [Exception]: it takes the
    [except] branch, as an error of the engine does. *)
Definition get_signal_by_id (signal_id : Z) : Py DbSession (option SignalRecord.t) :=
  try_finally
    (try_except
       (signal <- query (fun db => find (has_id signal_id) (signals db)) ;;
        match signal with
        | Some signal =>
            match Signal_to_dict signal with
            | inr d => ret (Some d)
            | inl AttributeError => ret None
            end
        | None => ret None
        end)
       (fun _ => ret None))
    session_close.

(** [query(...).count()]. *)
Definition count {A : Type} (rows : list A) : Z := Z.of_nat (List.length rows).

Definition result_is (tag : string) (r : SignalResult.t) : bool :=
  match SignalResult.result r with
  | Some x => String.eqb x tag
  | None => false
  end.

(** The values that are not [NULL]. *)
Definition not_null {A : Type} (col : list (option A)) : list A :=
  flat_map (fun o => match o with Some a => [a] | None => [] end) col.

Definition Qsum (l : list Q) : Q := fold_right Qplus 0%Q l.

(** SQL [AVG]: [NULL]s are skipped, and the average of nothing is [NULL]. *)
Definition sql_avg (col : list (option Q)) : option Q :=
  match not_null col with
  | [] => None
  | vals => Some (Qsum vals / inject_Z (count vals))%Q
  end.

(** [x or 0] on an optional number. *)
Definition or_zero (x : option Q) : Q :=
  match x with
  | Some q => if Qeq_bool q 0 then 0%Q else q
  | None => 0%Q
  end.

Definition zero_statistics : Stats.t :=
  {| Stats.total_signals := 0; Stats.signals_with_results := 0;
     Stats.wins := 0; Stats.losses := 0;
     Stats.win_rate := 0%Q; Stats.avg_pips_gained := 0%Q |}.

Definition get_signal_statistics : Py DbSession Stats.t :=
  try_finally
    (try_except
       (total_signals <- query (fun db => count (signals db)) ;;
        signals_with_results <- query (fun db => count (signal_results db)) ;;
        wins <- query (fun db => count (filter (result_is "WIN") (signal_results db))) ;;
        losses <- query (fun db => count (filter (result_is "LOSS") (signal_results db))) ;;
        let win_rate :=
          if 0 <? signals_with_results
          then (inject_Z wins / inject_Z signals_with_results * 100)%Q
          else 0%Q in
        avg <- query (fun db => sql_avg (map SignalResult.pips_gained (signal_results db))) ;;
        let avg_pips := or_zero avg in
        ret {| Stats.total_signals := total_signals;
               Stats.signals_with_results := signals_with_results;
               Stats.wins := wins;
               Stats.losses := losses;
               Stats.win_rate := py_round win_rate 2;
               Stats.avg_pips_gained := py_round avg_pips 2 |})
       (fun _ => ret zero_statistics))
    session_close.

Inductive impact : Type := low | medium | high.

Definition impact_eqb (a b : impact) : bool :=
  match a, b with
  | low, low | medium, medium | high, high => true
  | _, _ => false
  end.

Module NewsItem.
Record t : Type := {
  title : string;
  time : Z;
  impact_level : impact;
  currency : string
}.
End NewsItem.

Module EconomicNews.
Record t : Type := {
  latest : list NewsItem.t;
  high_impact : bool;
  last_update : option Z
}.
End EconomicNews.

(** [trading_hours]; the key ["end"] is spelled [end_]. *)
Module TradingHours.
Record t : Type := {
  start : Z;
  end_ : Z;
  enabled : bool
}.
End TradingHours.

Inductive direction : Type := LONG | SHORT.

Definition direction_str (d : direction) : string :=
  match d with LONG => "LONG" | SHORT => "SHORT" end.

(** The dictionary [analyze_signal] returns; [id] is the key that
    [new_signal] adds once the signal is saved. *)
Module SignalDict.
Record t : Type := {
  timestamp : Z;
  strategies : dict Z;
  probability : Z;
  direction : direction;
  duration : Z;
  risk_reward : Q;
  current_price : Q;
  entry_price : Q;
  target_price : Q;
  stop_loss : Q;
  pips_target : Z;
  strength_class : string;
  strength_color : string;
  trading_allowed : bool;
  volume : Z;
  high_24h : Q;
  low_24h : Q;
  has_high_impact_news : bool;
  id : option Z
}.

Definition with_id (i : Z) (s : t) : t :=
  {| timestamp := timestamp s; strategies := strategies s;
     probability := probability s; direction := direction s;
     duration := duration s; risk_reward := risk_reward s;
     current_price := current_price s; entry_price := entry_price s;
     target_price := target_price s; stop_loss := stop_loss s;
     pips_target := pips_target s; strength_class := strength_class s;
     strength_color := strength_color s; trading_allowed := trading_allowed s;
     volume := volume s; high_24h := high_24h s; low_24h := low_24h s;
     has_high_impact_news := has_high_impact_news s; id := Some i |}.
End SignalDict.

(** What [signal_data.get] reads from a signal dictionary. *)
Definition signal_data_of (s : SignalDict.t) : SignalData.t :=
  {| SignalData.timestamp := Some (SignalDict.timestamp s);
     SignalData.direction := Some (direction_str (SignalDict.direction s));
     SignalData.probability := Some (SignalDict.probability s);
     SignalData.entry_price := Some (SignalDict.entry_price s);
     SignalData.target_price := Some (SignalDict.target_price s);
     SignalData.stop_loss := Some (SignalDict.stop_loss s);
     SignalData.pips_target := Some (SignalDict.pips_target s);
     SignalData.risk_reward := Some (SignalDict.risk_reward s);
     SignalData.duration := Some (SignalDict.duration s);
     SignalData.strategies := Some (SignalDict.strategies s);
     SignalData.strength_class := Some (SignalDict.strength_class s);
     SignalData.trading_allowed := Some (SignalDict.trading_allowed s);
     SignalData.has_high_impact_news := Some (SignalDict.has_high_impact_news s);
     SignalData.volume := Some (SignalDict.volume s) |}.

(** The wall clock, in seconds: [datetime.now()] and [datetime.utcnow()]. *)
Record Clock : Type := {
  now : Z;
  utcnow : Z
}.

Definition hour (t : Z) : Z := (t / 3600) mod 24.

(** One answer of the quote source to [ticker.history(period="1d")]: the
    last close, the last volume when the column exists, the day's high and
    low; an empty frame; or an exception. *)
Inductive quote : Type :=
| QuoteRows (close : Q) (volume : option Z) (high_max low_min : Q)
| QuoteEmpty
| QuoteUnreachable.

Definition INDICATORS : dict string :=
  [ ("EMA Crossover", "Exponential Moving Average crossover between 9 and 21 periods");
    ("MACD", "Moving Average Convergence Divergence showing bullish/bearish momentum");
    ("RSI Divergence", "Relative Strength Index divergence from price action");
    ("Liquidity Sweep", "Price sweeping liquidity levels before reversing");
    ("VWAP Bounce", "Price bouncing off the Volume Weighted Average Price");
    ("Breakout", "Price breaking through significant resistance/support level");
    ("Order Block", "Institutional order block identified on the chart");
    ("Volume Confirmation", "Trading volume supports the price direction");
    ("Fibonacci Retracement", "Price retracing to key Fibonacci levels");
    ("Bollinger Bands", "Price touching or breaking through Bollinger Bands") ].

Definition calculate_signal_strength (probability : Z) : string * string :=
  if 75 <=? probability then ("strong", "success")
  else if 50 <=? probability then ("moderate", "warning")
  else ("weak", "danger").

(** Lines 202-210: the weighted tally and the probability it gives. *)
Definition weighted_probability {S : Type} (strategies : dict Z) : Py S Z :=
  ema <- dict_getitem "EMA Crossover" strategies ;;
  macd <- dict_getitem "MACD" strategies ;;
  vol <- dict_getitem "Volume Confirmation" strategies ;;
  let weighted_strategies :=
    dict_values strategies ++ [ema; ema] ++ [macd; macd] ++ [vol; vol] in
  let active_signals := sum_list weighted_strategies in
  let total_signals := count weighted_strategies in
  ret (py_int (inject_Z active_signals / inject_Z total_signals * 100)%Q).

(** Lines 213-214. *)
Definition gate_probability (trading_allowed : bool) (probability : Z) : Z :=
  if negb trading_allowed then Z.max 10 (probability / 2) else probability.

(** Lines 238-245. *)
Definition signal_duration (base_duration probability : Z) (high_impact : bool) : Z :=
  let modifier := (inject_Z probability / 50)%Q in
  let modifier := if high_impact then (modifier * (1 # 2))%Q else modifier in
  let duration := py_int (inject_Z base_duration * modifier)%Q in
  Z.max 5 (Z.min 45 duration).

(** Line 248. *)
Definition signal_risk_reward (probability : Z) : Q :=
  py_round (1 + inject_Z probability / 100 * 2)%Q 1.

Definition pip_value : Q := 1 # 10000.

(** Lines 260-267: entry, target and stop. *)
Definition price_levels (d : direction) (current_price : Q) (pips_movement : Z)
    (risk_reward : Q) : Q * Q * Q :=
  match d with
  | LONG =>
      (current_price,
       py_round (current_price + pip_value * inject_Z pips_movement)%Q 5,
       py_round (current_price - pip_value * (inject_Z pips_movement / risk_reward))%Q 5)
  | SHORT =>
      (current_price,
       py_round (current_price - pip_value * inject_Z pips_movement)%Q 5,
       py_round (current_price + pip_value * (inject_Z pips_movement / risk_reward))%Q 5)
  end.

(** [history.append(signal)], then [history.pop(0)] past ten entries. *)
Definition append_history {A : Type} (history : list A) (signal : A) : list A :=
  let history := history ++ [signal] in
  if 10 <? count history then tl history else history.

(** The last [n] entries of a list. *)
Definition lastn {A : Type} (n : nat) (l : list A) : list A :=
  skipn (List.length l - n) l.

(** [f] applied to the object that was appended last. *)
Definition update_last {A : Type} (f : A -> A) (l : list A) : list A :=
  match rev l with
  | [] => []
  | x :: before => rev (f x :: before)
  end.

(** ** Request bodies: the value [request.get_json(force=True)] returns *)

#[warnings="-register-all"]
Inductive json : Type :=
| JNull
| JBool (b : bool)
| JInt (n : Z)
| JFloat (x : Q)
| JString (s : string)
| JList (items : list json)
| JDict (members : list (string * json)).

(** [isinstance(v, dict)], with the members when it holds. *)
Definition as_dict (v : json) : option (dict json) :=
  match v with
  | JDict members => Some members
  | _ => None
  end.

(** [bool(v)]: the truth value of a Python object. *)
Definition py_bool (v : json) : bool :=
  match v with
  | JNull => false
  | JBool b => b
  | JInt n => negb (n =? 0)
  | JFloat x => negb (Qeq_bool x 0)
  | JString s => negb (String.eqb s "")
  | JList items => negb (Nat.eqb (List.length items) 0)
  | JDict members => negb (Nat.eqb (List.length members) 0)
  end.

Definition is_space (c : ascii) : bool :=
  let n := nat_of_ascii c in
  ((9 <=? n) && (n <=? 13) || (28 <=? n) && (n <=? 32))%nat.

Definition is_digit (c : ascii) : bool :=
  let n := nat_of_ascii c in ((48 <=? n) && (n <=? 57))%nat.

Definition digit_value (c : ascii) : Z := Z.of_nat (nat_of_ascii c) - 48.

Fixpoint lstrip (cs : list ascii) : list ascii :=
  match cs with
  | c :: rest => if is_space c then lstrip rest else cs
  | [] => []
  end.

Definition strip (cs : list ascii) : list ascii := rev (lstrip (rev (lstrip cs))).

(** Decimal digits, single underscores allowed between two digits. *)
Fixpoint parse_digits (cs : list ascii) (acc : Z) (after_digit : bool) : option Z :=
  match cs with
  | [] => if after_digit then Some acc else None
  | c :: rest =>
      if is_digit c then parse_digits rest (10 * acc + digit_value c) true
      else if Ascii.eqb c "_" && after_digit then parse_digits rest acc false
      else None
  end.

(** [int(s)] on a string of ASCII characters. *)
Definition int_of_string (s : string) : option Z :=
  match strip (list_ascii_of_string s) with
  | "+"%char :: digits => parse_digits digits 0 false
  | "-"%char :: digits => option_map Z.opp (parse_digits digits 0 false)
  | digits => parse_digits digits 0 false
  end.

(** [int(v)]. *)
Definition py_int_of {S : Type} (v : json) : Py S Z :=
  match v with
  | JNull => raise TypeError
  | JBool b => ret (if b then 1 else 0)
  | JInt n => ret n
  | JFloat x => ret (py_int x)
  | JString s =>
      match int_of_string s with
      | Some n => ret n
      | None => raise ValueError
      end
  | JList _ => raise TypeError
  | JDict _ => raise TypeError
  end.

(** What a handler answers. *)
Inductive response : Type :=
| Dashboard (signal : SignalDict.t) (history : list SignalDict.t)
    (market : MarketData.t) (news : EconomicNews.t) (hours : TradingHours.t)
    (stats : Stats.t)
| SignalJson (signal : SignalDict.t)
| MarketJson (market : MarketData.t)
| NewsJson (news : EconomicNews.t)
| SettingsJson (hours : TradingHours.t)
| FailureJson (error : exn)
| ServerError (error : exn)
| NoResponse.

(** ** database.py: connecting and retrying

    The module body and [init_db] run before any request.  What they meet
    is the host: each call that reaches the database server works or
    raises, and [time.sleep] lets the time pass. *)

(** [attempts]: the outcomes of the calls to come that reach the server,
    in order ([None] works, [Some e] raises [e]; past the list every call
    works).  [slept]: the sleeps so far, in seconds. *)
Record Host : Type := {
  attempts : list (option exn);
  slept : list Z
}.

Definition time_sleep (seconds : Z) : Py Host unit :=
  modify (fun h => {| attempts := attempts h; slept := slept h ++ [seconds] |}).

(** A call that reaches the server and, when it works, gives [a]. *)
Definition server_call {A : Type} (a : A) : Py Host A :=
  fun h =>
    match attempts h with
    | [] => (Ok a, h)
    | None :: rest => (Ok a, {| attempts := rest; slept := slept h |})
    | Some e :: rest => (Raise e, {| attempts := rest; slept := slept h |})
    end.

(** The arguments an engine was created with; [None] is an argument that
    was not given. *)
Record engine : Type := {
  engine_url : string;
  pool_pre_ping : option bool;
  pool_recycle : option Z;
  pool_size : option Z;
  max_overflow : option Z;
  connect_args : option (dict json)
}.

(** [create_engine(url)], with no other argument. *)
Definition create_engine (url : string) : engine :=
  {| engine_url := url; pool_pre_ping := None; pool_recycle := None;
     pool_size := None; max_overflow := None; connect_args := None |}.

(** Lines 27-49, the [try] block of [create_db_engine]: the engine is
    created and one query verifies the connection. *)
Definition connect_engine (url : string) : Py Host engine :=
  let connect_args :=
    if String.prefix "postgresql" url then
      [ ("connect_timeout", JInt 10);
        ("application_name", JString "eur_usd_dashboard");
        ("sslmode", JString "require") ]
    else [] in
  server_call
    {| engine_url := url;
       pool_pre_ping := Some true;
       pool_recycle := Some 1800;
       pool_size := Some 5;
       max_overflow := Some 10;
       connect_args := Some connect_args |}.

(** The [while] loop of [create_db_engine]; [fuel] bounds the rounds, and
    [Z.to_nat max_retries] rounds are all the loop can make.  Falling out
    of the loop, the function returns [None]. *)
Fixpoint create_db_engine_loop (fuel : nat) (url : string)
    (max_retries retry_interval retry_count : Z) : Py Host (option engine) :=
  match fuel with
  | O => ret None
  | S fuel =>
      if retry_count <? max_retries then
        try_except
          (engine <- connect_engine url ;; ret (Some engine))
          (fun _ =>
             let retry_count := retry_count + 1 in
             if retry_count <? max_retries then
               time_sleep retry_interval ;;
               create_db_engine_loop fuel url max_retries retry_interval retry_count
             else ret (Some (create_engine "sqlite:///:memory:")))
      else ret None
  end.

Definition create_db_engine (url : string) (max_retries retry_interval : Z)
    : Py Host (option engine) :=
  create_db_engine_loop (Z.to_nat max_retries) url max_retries retry_interval 0.

(** The [while] loop of [db_operation]: only [OperationalError] is caught,
    any other exception leaves the function. *)
Fixpoint db_operation_loop {A : Type} (fuel : nat) (operation_func : Py Host A)
    (max_retries retry_interval retry_count : Z) : Py Host (option A) :=
  match fuel with
  | O => ret None
  | S fuel =>
      if retry_count <? max_retries then
        retried <- try_except
          (a <- operation_func ;; ret (Some a))
          (fun e =>
             match e with
             | OperationalError =>
                 let retry_count := retry_count + 1 in
                 (if retry_count <? max_retries then time_sleep retry_interval
                  else ret tt) ;;
                 ret None
             | _ => raise e
             end) ;;
        match retried with
        | Some a => ret (Some a)
        | None =>
            db_operation_loop fuel operation_func max_retries retry_interval
              (retry_count + 1)
        end
      else ret None
  end.

Definition db_operation {A : Type} (operation_func : Py Host A)
    (max_retries retry_interval : Z) : Py Host (option A) :=
  db_operation_loop (Z.to_nat max_retries) operation_func max_retries retry_interval 0.


(** ** app.py: the endpoints of the persisted signals *)

(** How the driver binds a JSON value to a column of a result, by the
    type of the column.  A value it refuses fails the unit of work, which
    is a fault of the engine. *)
Class Driver : Type := {
  bind_string : json -> option string;
  bind_float : json -> option Q;
  bind_datetime : json -> option Z
}.

(** The body of an answer of these endpoints. *)
Inductive api_body : Type :=
| SignalFound (signal : SignalRecord.t)
| ResultSaved (result_id : Z)
| ApiError (error : string)
| ApiException (error : exn).

(** An answer: the status and the body. *)
Definition api_response : Type := (Z * api_body)%type.

(** The loop over [required_fields]: the first one that is missing. *)
Fixpoint first_missing (required_fields : list string) (data : dict json)
    : option string :=
  match required_fields with
  | [] => None
  | field :: rest =>
      if negb (dict_mem field data) then Some field else first_missing rest data
  end.

(** ** app.py: the process and its handlers *)

Section App.

Context {G : Type} {RS : RandomSource G}.

(** The module-level variables of [app.py], the store behind
    [database.py], and what the process reads from outside: the state of
    [random], the clock, the answers the quote source will give (none left:
    unreachable) and the fate of the coming units of work at the engine
    (none left: no fault). *)
Record Sys : Type := {
  market_data : MarketData.t;
  economic_news : EconomicNews.t;
  trading_hours : TradingHours.t;
  history : list SignalDict.t;
  background_thread_started : bool;
  database : Db;
  random : G;
  clock : Clock;
  quote_feed : list quote;
  db_faults : list bool
}.

Definition set_market_data (m : MarketData.t) (s : Sys) : Sys :=
  {| market_data := m; economic_news := economic_news s;
     trading_hours := trading_hours s; history := history s;
     background_thread_started := background_thread_started s;
     database := database s; random := random s; clock := clock s;
     quote_feed := quote_feed s; db_faults := db_faults s |}.

Definition set_economic_news (n : EconomicNews.t) (s : Sys) : Sys :=
  {| market_data := market_data s; economic_news := n;
     trading_hours := trading_hours s; history := history s;
     background_thread_started := background_thread_started s;
     database := database s; random := random s; clock := clock s;
     quote_feed := quote_feed s; db_faults := db_faults s |}.

Definition set_trading_hours (h : TradingHours.t) (s : Sys) : Sys :=
  {| market_data := market_data s; economic_news := economic_news s;
     trading_hours := h; history := history s;
     background_thread_started := background_thread_started s;
     database := database s; random := random s; clock := clock s;
     quote_feed := quote_feed s; db_faults := db_faults s |}.

Definition set_history (h : list SignalDict.t) (s : Sys) : Sys :=
  {| market_data := market_data s; economic_news := economic_news s;
     trading_hours := trading_hours s; history := h;
     background_thread_started := background_thread_started s;
     database := database s; random := random s; clock := clock s;
     quote_feed := quote_feed s; db_faults := db_faults s |}.

Definition set_background_thread_started (b : bool) (s : Sys) : Sys :=
  {| market_data := market_data s; economic_news := economic_news s;
     trading_hours := trading_hours s; history := history s;
     background_thread_started := b;
     database := database s; random := random s; clock := clock s;
     quote_feed := quote_feed s; db_faults := db_faults s |}.

Definition set_database (d : Db) (s : Sys) : Sys :=
  {| market_data := market_data s; economic_news := economic_news s;
     trading_hours := trading_hours s; history := history s;
     background_thread_started := background_thread_started s;
     database := d; random := random s; clock := clock s;
     quote_feed := quote_feed s; db_faults := db_faults s |}.

Definition set_random (g : G) (s : Sys) : Sys :=
  {| market_data := market_data s; economic_news := economic_news s;
     trading_hours := trading_hours s; history := history s;
     background_thread_started := background_thread_started s;
     database := database s; random := g; clock := clock s;
     quote_feed := quote_feed s; db_faults := db_faults s |}.

Definition set_clock (c : Clock) (s : Sys) : Sys :=
  {| market_data := market_data s; economic_news := economic_news s;
     trading_hours := trading_hours s; history := history s;
     background_thread_started := background_thread_started s;
     database := database s; random := random s; clock := c;
     quote_feed := quote_feed s; db_faults := db_faults s |}.

Definition set_quote_feed (q : list quote) (s : Sys) : Sys :=
  {| market_data := market_data s; economic_news := economic_news s;
     trading_hours := trading_hours s; history := history s;
     background_thread_started := background_thread_started s;
     database := database s; random := random s; clock := clock s;
     quote_feed := q; db_faults := db_faults s |}.

Definition set_db_faults (f : list bool) (s : Sys) : Sys :=
  {| market_data := market_data s; economic_news := economic_news s;
     trading_hours := trading_hours s; history := history s;
     background_thread_started := background_thread_started s;
     database := database s; random := random s; clock := clock s;
     quote_feed := quote_feed s; db_faults := f |}.

(** [random.choice([0, 1])], [random.random()], [random.randint(a, b)]. *)
Definition random_choice01 : Py Sys Z :=
  fun s => let (v, g) := rand_choice01 (random s) in (Ok v, set_random g s).

Definition random_random : Py Sys Q :=
  fun s => let (v, g) := rand_random (random s) in (Ok v, set_random g s).

Definition random_randint (a b : Z) : Py Sys Z :=
  fun s => let (v, g) := rand_randint a b (random s) in (Ok v, set_random g s).

Definition datetime_now : Py Sys Z := gets (fun s => now (clock s)).

Definition datetime_utcnow : Py Sys Z := gets (fun s => utcnow (clock s)).

(** [ticker.history(period="1d")]. *)
Definition ticker_history : Py Sys quote :=
  fun s =>
    match quote_feed s with
    | [] => (Ok QuoteUnreachable, s)
    | q :: rest => (Ok q, set_quote_feed rest s)
    end.

(** A call into [database.py]: one session on the store. *)
Definition db_call {A : Type} (c : Py DbSession A) : Py Sys A :=
  fun s =>
    let fault := hd false (db_faults s) in
    let (r, session) := c (open_session (database s) fault (now (clock s))) in
    (r, set_db_faults (tl (db_faults s)) (set_database (committed session) s)).

Definition fetch_market_data : Py Sys unit :=
  data <- ticker_history ;;
  match data with
  | QuoteRows close volume high_max low_min =>
      t <- datetime_now ;;
      modify (set_market_data
        {| MarketData.current_price := py_round close 5;
           MarketData.volume := get_or volume 0;
           MarketData.high_24h := py_round high_max 5;
           MarketData.low_24h := py_round low_min 5;
           MarketData.last_update := Some t |})
  | QuoteEmpty => ret tt
  | QuoteUnreachable =>
      md <- gets market_data ;;
      if Qeq_bool (MarketData.current_price md) 0 then
        r <- random_random ;;
        modify (fun s => set_market_data
          {| MarketData.current_price := ((107 # 100) + r * (1 # 100))%Q;
             MarketData.volume := MarketData.volume (market_data s);
             MarketData.high_24h := MarketData.high_24h (market_data s);
             MarketData.low_24h := MarketData.low_24h (market_data s);
             MarketData.last_update := MarketData.last_update (market_data s) |} s)
      else ret tt
  end.

Definition fetch_economic_news : Py Sys unit :=
  t <- datetime_now ;;
  h1 <- random_randint 1 8 ;;
  r1 <- random_random ;;
  h2 <- random_randint 2 12 ;;
  r2 <- random_random ;;
  h3 <- random_randint 4 24 ;;
  let news_list :=
    [ {| NewsItem.title := "ECB Interest Rate Decision";
         NewsItem.time := t - h1 * 3600;
         NewsItem.impact_level := if Qlt_bool (7 # 10) r1 then high else medium;
         NewsItem.currency := "EUR" |};
      {| NewsItem.title := "US Non-Farm Payrolls";
         NewsItem.time := t - h2 * 3600;
         NewsItem.impact_level := if Qlt_bool (6 # 10) r2 then high else medium;
         NewsItem.currency := "USD" |};
      {| NewsItem.title := "EU Manufacturing PMI";
         NewsItem.time := t - h3 * 3600;
         NewsItem.impact_level := medium;
         NewsItem.currency := "EUR" |} ] in
  let high_impact :=
    existsb (fun news =>
               impact_eqb (NewsItem.impact_level news) high
               && (t - NewsItem.time news <? 7200)) news_list in
  modify (set_economic_news
    {| EconomicNews.latest := news_list;
       EconomicNews.high_impact := high_impact;
       EconomicNews.last_update := Some t |}).

(** [economic_news["high_impact"]]. *)
Definition news_high_impact (s : Sys) : bool :=
  EconomicNews.high_impact (economic_news s).

Definition is_trading_allowed : Py Sys bool :=
  th <- gets trading_hours ;;
  if negb (TradingHours.enabled th) then ret true
  else
    t <- datetime_utcnow ;;
    let now := hour t in
    if (TradingHours.start th <=? now) && (now <? TradingHours.end_ th) then
      high_impact <- gets news_high_impact ;;
      if high_impact then ret false else ret true
    else ret false.

(** Lines 183-192: one flag per catalog entry, in catalog order. *)
Fixpoint detect_strategies (names : list string) (strategies : dict Z)
    : Py Sys (dict Z) :=
  match names with
  | [] => ret strategies
  | name :: rest =>
      md <- gets market_data ;;
      flag <- (if String.eqb name "Volume Confirmation" && (0 <? MarketData.volume md)
               then ret (if 1000000 <? MarketData.volume md then 1 else 0)
               else random_choice01) ;;
      detect_strategies rest (dict_set name flag strategies)
  end.

(** Lines 195-199. *)
Definition apply_news_impact (high_impact : bool) (strategies : dict Z) : dict Z :=
  if high_impact then
    dict_set "RSI Divergence" 0
      (dict_set "EMA Crossover" 0
         (dict_set "News Spike" 1 strategies))
  else strategies.

(** Lines 217-233. *)
Definition choose_direction (md : MarketData.t) : Py Sys direction :=
  if Qlt_bool 0 (MarketData.current_price md) then
    let daily_range := (MarketData.high_24h md - MarketData.low_24h md)%Q in
    if Qlt_bool 0 daily_range then
      let position_in_range :=
        ((MarketData.current_price md - MarketData.low_24h md) / daily_range)%Q in
      if Qlt_bool position_in_range (33 # 100) then
        r <- random_random ;; ret (if Qlt_bool (3 # 10) r then LONG else SHORT)
      else if Qlt_bool (66 # 100) position_in_range then
        r <- random_random ;; ret (if Qlt_bool (3 # 10) r then SHORT else LONG)
      else
        r <- random_random ;; ret (if Qlt_bool (5 # 10) r then LONG else SHORT)
    else
      r <- random_random ;; ret (if Qlt_bool (5 # 10) r then LONG else SHORT)
  else
    r <- random_random ;; ret (if Qlt_bool (5 # 10) r then LONG else SHORT).

(** Lines 251-253. *)
Definition entry_reference (md : MarketData.t) : Py Sys Q :=
  let current_price := MarketData.current_price md in
  if Qeq_bool current_price 0 then
    r <- random_random ;; ret (py_round ((107 # 100) + r * (1 # 100))%Q 5)
  else ret current_price.

Definition analyze_signal : Py Sys SignalDict.t :=
  md0 <- gets market_data ;;
  (if Qeq_bool (MarketData.current_price md0) 0
      || negb (is_some (MarketData.last_update md0))
   then fetch_market_data else ret tt) ;;
  trading_allowed <- is_trading_allowed ;;
  strategies <- detect_strategies (dict_keys INDICATORS) [] ;;
  high_impact <- gets news_high_impact ;;
  let strategies := apply_news_impact high_impact strategies in
  probability <- weighted_probability strategies ;;
  let probability := gate_probability trading_allowed probability in
  md <- gets market_data ;;
  direction <- choose_direction md ;;
  base_duration <- random_randint 5 15 ;;
  let duration := signal_duration base_duration probability high_impact in
  let risk_reward := signal_risk_reward probability in
  current_price <- entry_reference md ;;
  extra <- random_randint 5 15 ;;
  let pips_movement := py_int (inject_Z probability / 10)%Q + extra in
  let '(entry_price, target_price, stop_loss) :=
    price_levels direction current_price pips_movement risk_reward in
  let '(strength_class, strength_color) := calculate_signal_strength probability in
  t <- datetime_now ;;
  ret {| SignalDict.timestamp := t;
         SignalDict.strategies := strategies;
         SignalDict.probability := probability;
         SignalDict.direction := direction;
         SignalDict.duration := duration;
         SignalDict.risk_reward := risk_reward;
         SignalDict.current_price := current_price;
         SignalDict.entry_price := entry_price;
         SignalDict.target_price := target_price;
         SignalDict.stop_loss := stop_loss;
         SignalDict.pips_target := pips_movement;
         SignalDict.strength_class := strength_class;
         SignalDict.strength_color := strength_color;
         SignalDict.trading_allowed := trading_allowed;
         SignalDict.volume := MarketData.volume md;
         SignalDict.high_24h := MarketData.high_24h md;
         SignalDict.low_24h := MarketData.low_24h md;
         SignalDict.has_high_impact_news := high_impact;
         SignalDict.id := None |}.

Definition start_background_thread : Py Sys unit :=
  fetch_market_data ;;
  fetch_economic_news.

(** One round of [background_data_updater]. *)
Definition background_data_updater : Py Sys unit :=
  fetch_market_data ;;
  fetch_economic_news.

Definition push_history (signal : SignalDict.t) : Py Sys unit :=
  modify (fun s => set_history (append_history (history s) signal) s).

Definition index : Py Sys response :=
  started <- gets background_thread_started ;;
  (if negb started
   then start_background_thread ;; modify (set_background_thread_started true)
   else ret tt) ;;
  md <- gets market_data ;;
  (if is_some (MarketData.last_update md) then ret tt else fetch_market_data) ;;
  news <- gets economic_news ;;
  (if is_some (EconomicNews.last_update news) then ret tt else fetch_economic_news) ;;
  signal <- analyze_signal ;;
  push_history signal ;;
  stats <- try_except (db_call get_signal_statistics) (fun _ => ret zero_statistics) ;;
  history <- gets history ;;
  market_data <- gets market_data ;;
  news <- gets economic_news ;;
  hours <- gets trading_hours ;;
  ret (Dashboard signal history market_data news hours stats).

(** Lines 357-363 of [new_signal]: the signal is saved and, with an id,
    [signal["id"]] is set.  The dictionary is the object appended to
    [history] just before, so the entry in [history] changes with it. *)
Definition persist_signal (signal : SignalDict.t) : Py Sys SignalDict.t :=
  try_except
    (signal_id <- db_call (save_signal (signal_data_of signal)) ;;
     match signal_id with
     | Some i =>
         modify (fun s => set_history (update_last (SignalDict.with_id i) (history s)) s) ;;
         ret (SignalDict.with_id i signal)
     | None => ret signal
     end)
    (fun _ => ret signal).

Definition new_signal : Py Sys response :=
  fetch_market_data ;;
  fetch_economic_news ;;
  signal <- analyze_signal ;;
  push_history signal ;;
  signal <- persist_signal signal ;;
  md <- gets market_data ;;
  try_except (db_call (save_market_snapshot md) ;; ret tt) (fun _ => ret tt) ;;
  ret (SignalJson signal).

Definition get_market_data : Py Sys response :=
  fetch_market_data ;;
  md <- gets market_data ;;
  ret (MarketJson md).

Definition get_economic_news : Py Sys response :=
  fetch_economic_news ;;
  news <- gets economic_news ;;
  ret (NewsJson news).

Definition set_enabled (b : bool) (s : Sys) : Sys :=
  set_trading_hours
    {| TradingHours.start := TradingHours.start (trading_hours s);
       TradingHours.end_ := TradingHours.end_ (trading_hours s);
       TradingHours.enabled := b |} s.

Definition set_start (n : Z) (s : Sys) : Sys :=
  set_trading_hours
    {| TradingHours.start := n;
       TradingHours.end_ := TradingHours.end_ (trading_hours s);
       TradingHours.enabled := TradingHours.enabled (trading_hours s) |} s.

Definition set_end (n : Z) (s : Sys) : Sys :=
  set_trading_hours
    {| TradingHours.start := TradingHours.start (trading_hours s);
       TradingHours.end_ := n;
       TradingHours.enabled := TradingHours.enabled (trading_hours s) |} s.

(** [request.get_json(force=True)]: [None] is a body that does not parse. *)
Definition get_json (body : option json) : Py Sys json :=
  match body with
  | Some v => ret v
  | None => raise BadRequest
  end.

(** Lines 389-399, the [try] block of [update_settings]. *)
Definition merge_settings (body : option json) : Py Sys unit :=
  data <- get_json body ;;
  match as_dict data with
  | Some members =>
      match dict_get "trading_hours" members with
      | Some hours =>
          match as_dict hours with
          | Some hours =>
              (match dict_get "enabled" hours with
               | Some v => modify (set_enabled (py_bool v))
               | None => ret tt
               end) ;;
              (match dict_get "start" hours with
               | Some v => n <- py_int_of v ;; modify (set_start n)
               | None => ret tt
               end) ;;
              (match dict_get "end" hours with
               | Some v => n <- py_int_of v ;; modify (set_end n)
               | None => ret tt
               end)
          | None => ret tt
          end
      | None => ret tt
      end
  | None => ret tt
  end.

Definition update_settings (body : option json) : Py Sys response :=
  failure <- try_except
    (merge_settings body ;; ret None)
    (fun e => ret (Some (FailureJson e))) ;;
  match failure with
  | Some answer => ret answer
  | None => hours <- gets trading_hours ;; ret (SettingsJson hours)
  end.

(** What happens to the process: a request, a round of the background
    updater, or the outside moving on (the clock, the quote source, the
    engine). *)
Inductive event : Type :=
| GetIndex
| GetNewSignal
| GetMarketData
| GetEconomicNews
| PostSettings (body : option json)
| BackgroundUpdate
| Outside (c : Clock) (quotes : list quote) (faults : list bool).

Definition handler (e : event) : Py Sys response :=
  match e with
  | GetIndex => index
  | GetNewSignal => new_signal
  | GetMarketData => get_market_data
  | GetEconomicNews => get_economic_news
  | PostSettings body => update_settings body
  | BackgroundUpdate => background_data_updater ;; ret NoResponse
  | Outside c quotes faults =>
      modify (fun s => set_db_faults faults (set_quote_feed quotes (set_clock c s))) ;;
      ret NoResponse
  end.

(** An exception that leaves a handler is answered with a server error. *)
Definition serve (e : event) (s : Sys) : response * Sys :=
  match handler e s with
  | (Ok answer, s') => (answer, s')
  | (Raise err, s') => (ServerError err, s')
  end.

Fixpoint run (events : list event) (s : Sys) : list response * Sys :=
  match events with
  | [] => ([], s)
  | e :: rest =>
      let (answer, s1) := serve e s in
      let (answers, s2) := run rest s1 in
      (answer :: answers, s2)
  end.

(** The process as the module body leaves it. *)
Definition startup (db : Db) (g : G) (c : Clock) (quotes : list quote)
    (faults : list bool) : Sys :=
  {| market_data :=
       {| MarketData.current_price := 0; MarketData.volume := 0;
          MarketData.high_24h := 0; MarketData.low_24h := 0;
          MarketData.last_update := None |};
     economic_news :=
       {| EconomicNews.latest := []; EconomicNews.high_impact := false;
          EconomicNews.last_update := None |};
     trading_hours :=
       {| TradingHours.start := 0; TradingHours.end_ := 24;
          TradingHours.enabled := false |};
     history := [];
     background_thread_started := false;
     database := db;
     random := g;
     clock := c;
     quote_feed := quotes;
     db_faults := faults |}.

Definition get_signal_api (signal_id : Z) : Py Sys api_response :=
  try_except
    (signal <- db_call (get_signal_by_id signal_id) ;;
     match signal with
     | Some signal => ret (200, SignalFound signal)
     | None => ret (404, ApiError "Signal not found")
     end)
    (fun e => ret (200, ApiException e)).

Context {D : Driver}.

(** What [save_signal_result] reads from the dictionary of the request;
    [signal_id] is the one [add_signal_result] has set, [exit_time] the
    time it has set when the key was missing. *)
Definition result_data_of (signal_id now : Z) (data : dict json) : ResultData.t :=
  {| ResultData.signal_id := Some signal_id;
     ResultData.result :=
       match dict_get "result" data with Some v => bind_string v | None => None end;
     ResultData.pips_gained :=
       match dict_get "pips_gained" data with Some v => bind_float v | None => None end;
     ResultData.exit_price :=
       match dict_get "exit_price" data with Some v => bind_float v | None => None end;
     ResultData.exit_time :=
       match dict_get "exit_time" data with Some v => bind_datetime v | None => Some now end;
     ResultData.notes :=
       match dict_get "notes" data with Some v => bind_string v | None => None end |}.

Definition add_signal_result (signal_id : Z) (body : option json) : Py Sys api_response :=
  try_except
    (data <- get_json body ;;
     match as_dict data with
     | None => ret (400, ApiError "Invalid data format")
     | Some data =>
         match first_missing ["result"; "exit_price"] data with
         | Some field =>
             ret (400, ApiError (String.append "Missing required field: " field))
         | None =>
             now <- datetime_now ;;
             result_id <- db_call (save_signal_result (result_data_of signal_id now data)) ;;
             match result_id with
             | Some i => ret (200, ResultSaved i)
             | None => ret (500, ApiError "Failed to save result")
             end
         end
     end)
    (fun e => ret (200, ApiException e)).

End App.

Arguments Sys G : clear implicits.

(** The signals the answers carry, in order. *)
Definition answered_signals (answers : list response) : list SignalDict.t :=
  flat_map (fun a => match a with
                     | Dashboard signal _ _ _ _ _ => [signal]
                     | SignalJson signal => [signal]
                     | _ => []
                     end) answers.

(** ** The arithmetic of the synthesizer in binary64

    The expressions of [analyze_signal] whose value is cut to an integer
    or to one decimal, evaluated as CPython does, on IEEE 754 doubles; the
    rational model above is compared with them on every input that can
    reach them. *)

Definition float_of_Z (z : Z) : float :=
  match z with
  | Z0 => 0%float
  | Zpos p => PrimFloat.of_uint63 (Uint63.of_Z (Zpos p))
  | Zneg p => PrimFloat.opp (PrimFloat.of_uint63 (Uint63.of_Z (Zpos p)))
  end.

(** The exact value of a finite double. *)
Definition Q_of_float (f : float) : option Q :=
  match Prim2SF f with
  | S754_zero _ => Some 0%Q
  | S754_finite s m e =>
      let n := if s then Zneg m else Zpos m in
      Some (if 0 <=? e then inject_Z (n * 2 ^ e)
            else (n # Pos.pow 2 (Z.to_pos (- e))))%Q
  | _ => None
  end.

(** [int(x)] on a double. *)
Definition float_int (f : float) : option Z := option_map py_int (Q_of_float f).

(** [int((active_signals / total_signals) * 100)]. *)
Definition probability_binary64 (active_signals total_signals : Z) : option Z :=
  float_int (PrimFloat.mul
               (PrimFloat.div (float_of_Z active_signals) (float_of_Z total_signals))
               (float_of_Z 100)).

(** Lines 238-245 on doubles. *)
Definition signal_duration_binary64 (base_duration probability : Z)
    (high_impact : bool) : option Z :=
  let modifier := PrimFloat.div (float_of_Z probability) (float_of_Z 50) in
  let modifier := if high_impact then PrimFloat.mul modifier 0.5%float else modifier in
  option_map (fun duration => Z.max 5 (Z.min 45 duration))
    (float_int (PrimFloat.mul (float_of_Z base_duration) modifier)).

(** [int(probability / 10)]. *)
Definition pips_base_binary64 (probability : Z) : option Z :=
  float_int (PrimFloat.div (float_of_Z probability) (float_of_Z 10)).

(** The tenths [round(1 + (probability / 100) * 2, 1)] rounds to: the
    decimal nearest to the exact value of the double, ties to even. *)
Definition risk_reward_tenths_binary64 (probability : Z) : option Z :=
  option_map (fun x => round_half_even (x * 10)%Q)
    (Q_of_float
       (PrimFloat.add 1%float
          (PrimFloat.mul
             (PrimFloat.div (float_of_Z probability) (float_of_Z 100)) 2%float))).

(** The integers from [lo] to [hi]. *)
Definition Zrange (lo hi : Z) : list Z :=
  map (fun k => lo + Z.of_nat k) (seq 0 (Z.to_nat (hi - lo + 1))).

(** ** Specification vocabulary *)

(** The gate in the words of the design: the window is disabled, or the
    hour lies in [start, end) and there is no high-impact news. *)
Definition window_allows (th : TradingHours.t) (h : Z) (high_impact : bool) : bool :=
  negb (TradingHours.enabled th)
  || ((TradingHours.start th <=? h) && (h <? TradingHours.end_ th)
      && negb high_impact).

(** The catalog flags when [vol] is the market volume and the other nine
    (all ten, without volume data) are the coin flips [draws]. *)
Definition catalog_flags (vol : Z) (draws : list Z) : list Z :=
  if 0 <? vol
  then firstn 7 draws ++ [if 1000000 <? vol then 1 else 0] ++ skipn 7 draws
  else draws.

Definition flag (v : Z) : Prop := v = 0 \/ v = 1.

Section Specification.

Context {G : Type} {RS : RandomSource G}.

(** [n] successive calls of [random.choice([0, 1])]. *)
Fixpoint coin_flips (n : nat) (g : G) : list Z * G :=
  match n with
  | O => ([], g)
  | S n' =>
      let (v, g1) := rand_choice01 g in
      let (vs, g2) := coin_flips n' g1 in
      (v :: vs, g2)
  end.

(** What a call leaves as it found it, whatever it does to the market
    data, the random state and the quote feed. *)
Definition keeps_rest (s s' : Sys G) : Prop :=
  economic_news s' = economic_news s /\
  trading_hours s' = trading_hours s /\
  history s' = history s /\
  background_thread_started s' = background_thread_started s /\
  database s' = database s /\
  clock s' = clock s /\
  db_faults s' = db_faults s.

(** What [analyze_signal] is specified to produce from state [s], ending
    in state [s']: every entry of the dictionary, in terms of the state,
    the catalog flags and the draws. *)
Definition synthesis (s : Sys G) (sig : SignalDict.t) (s' : Sys G) : Prop :=
  let hi := EconomicNews.high_impact (economic_news s) in
  let vol := MarketData.volume (market_data s') in
  SignalDict.trading_allowed sig
    = window_allows (trading_hours s) (hour (utcnow (clock s))) hi /\
  SignalDict.has_high_impact_news sig = hi /\
  SignalDict.volume sig = vol /\
  SignalDict.high_24h sig = MarketData.high_24h (market_data s') /\
  SignalDict.low_24h sig = MarketData.low_24h (market_data s') /\
  SignalDict.timestamp sig = now (clock s) /\
  SignalDict.id sig = None /\
  (exists flags,
     dict_keys flags = dict_keys INDICATORS /\
     Forall flag (dict_values flags) /\
     (0 < vol -> dict_get "Volume Confirmation" flags
                 = Some (if 1000000 <? vol then 1 else 0)) /\
     SignalDict.strategies sig = apply_news_impact hi flags) /\
  (exists p,
     weighted_probability (SignalDict.strategies sig) tt = (Ok p, tt) /\
     0 <= p <= 100 /\
     SignalDict.probability sig = gate_probability (SignalDict.trading_allowed sig) p) /\
  (exists base_duration,
     5 <= base_duration <= 15 /\
     SignalDict.duration sig
       = signal_duration base_duration (SignalDict.probability sig) hi) /\
  SignalDict.risk_reward sig = signal_risk_reward (SignalDict.probability sig) /\
  (exists extra,
     5 <= extra <= 15 /\
     SignalDict.pips_target sig
       = py_int (inject_Z (SignalDict.probability sig) / 10)%Q + extra) /\
  (SignalDict.entry_price sig, SignalDict.target_price sig, SignalDict.stop_loss sig)
    = price_levels (SignalDict.direction sig) (SignalDict.current_price sig)
        (SignalDict.pips_target sig) (SignalDict.risk_reward sig) /\
  (SignalDict.strength_class sig, SignalDict.strength_color sig)
    = calculate_signal_strength (SignalDict.probability sig).

(** What a call leaves as it found it, the random state apart. *)
Definition keeps_but_random (s s' : Sys G) : Prop :=
  keeps_rest s s' /\
  market_data s' = market_data s /\
  quote_feed s' = quote_feed s.

(** Two states that agree on everything synthesis reads. *)
Definition same_inputs (s1 s2 : Sys G) : Prop :=
  market_data s1 = market_data s2 /\
  news_high_impact s1 = news_high_impact s2 /\
  trading_hours s1 = trading_hours s2 /\
  random s1 = random s2 /\
  clock s1 = clock s2 /\
  quote_feed s1 = quote_feed s2.

(** A computation that reads nothing else: from such states it gives the
    same outcome and ends in such states. *)
Definition reads_only_inputs {A : Type} (c : Py (Sys G) A) : Prop :=
  forall s1 s2, same_inputs s1 s2 ->
    fst (c s1) = fst (c s2) /\ same_inputs (snd (c s1)) (snd (c s2)).

(** A computation that returns, whatever the state, and leaves [history]
    as it found it. *)
Definition steady {A : Type} (c : Py (Sys G) A) : Prop :=
  forall s, exists a s', c s = (Ok a, s') /\ history s' = history s.

(** A computation that, returning or raising, leaves [history] as it
    found it. *)
Definition keeps_history {A : Type} (c : Py (Sys G) A) : Prop :=
  forall s, history (snd (c s)) = history s.

End Specification.

(** A computation that returns, whatever the state, and leaves the store,
    the faults to come, the clock and the trading hours as it found
    them. *)
Definition leaves_store {G A : Type} (c : Py (Sys G) A) : Prop :=
  forall s, exists a s',
    c s = (Ok a, s') /\
    database s' = database s /\
    db_faults s' = db_faults s /\
    clock s' = clock s /\
    trading_hours s' = trading_hours s.

Definition is_new_signal (e : event) : bool :=
  match e with GetNewSignal => true | _ => false end.

Definition is_settings (e : event) : bool :=
  match e with PostSettings _ => true | _ => false end.

(** ** Specification vocabulary of the persistence gateway *)

(** The shape the three writers share: one object added, one commit, the
    object's id returned; on any exception a rollback and [None]. *)
Definition save_object (o : orm_object) : Py DbSession (option Z) :=
  try_finally
    (try_except
       (h <- session_add o ;;
        session_commit ;;
        attr_id h)
       (fun _ => session_rollback ;; ret None))
    session_close.

(** [db'] is [db] with one more signal, whose id [i] is new. *)
Definition signal_added (db db' : Db) (i : Z) : Prop :=
  exists row,
    Signal.id row = Some i /\
    ~ In (Some i) (map Signal.id (signals db)) /\
    db' = {| signals := signals db ++ [row];
             signal_results := signal_results db;
             market_snapshots := market_snapshots db;
             fk_enforced := fk_enforced db |}.

Definition signal_result_added (db db' : Db) (i : Z) : Prop :=
  exists row,
    SignalResult.id row = Some i /\
    ~ In (Some i) (map SignalResult.id (signal_results db)) /\
    db' = {| signals := signals db;
             signal_results := signal_results db ++ [row];
             market_snapshots := market_snapshots db;
             fk_enforced := fk_enforced db |}.

Definition market_snapshot_added (db db' : Db) (i : Z) : Prop :=
  exists row,
    MarketSnapshot.id row = Some i /\
    ~ In (Some i) (map MarketSnapshot.id (market_snapshots db)) /\
    db' = {| signals := signals db;
             signal_results := signal_results db;
             market_snapshots := market_snapshots db ++ [row];
             fk_enforced := fk_enforced db |}.

(** An atomic write: run as one session on any store, whatever the engine
    does, it returns; with an id the store has gained exactly the record
    of that id, with [None] the store is as it was. *)
Definition atomic_write (write : Py DbSession (option Z))
    (added : Db -> Db -> Z -> Prop) : Prop :=
  forall (db : Db) (fault : bool) (now : Z),
    match write (open_session db fault now) with
    | (Ok (Some i), s') => fault = false /\ added db (committed s') i
    | (Ok None, s') => committed s' = db
    | (Raise _, _) => False
    end.

(** The statistics in the words of the design; [signals_with_results] is
    the number of result rows, as the code counts it. *)
Definition recorded_pips (db : Db) : list Q :=
  not_null (map SignalResult.pips_gained (signal_results db)).

Definition statistics_of (db : Db) : Stats.t :=
  let with_results := count (signal_results db) in
  let wins := count (filter (result_is "WIN") (signal_results db)) in
  let losses := count (filter (result_is "LOSS") (signal_results db)) in
  {| Stats.total_signals := count (signals db);
     Stats.signals_with_results := with_results;
     Stats.wins := wins;
     Stats.losses := losses;
     Stats.win_rate :=
       if with_results =? 0 then 0%Q
       else py_round (inject_Z wins / inject_Z with_results * 100)%Q 2;
     Stats.avg_pips_gained :=
       match recorded_pips db with
       | [] => 0%Q
       | pips => py_round (Qsum pips / inject_Z (count pips))%Q 2
       end |}.



(** The store the data model describes: signals have distinct ids, every
    result references a signal of the store, and no two results reference
    the same signal. *)
Definition results_match_signals (db : Db) : Prop :=
  NoDup (map Signal.id (signals db)) /\
  NoDup (map SignalResult.signal_id (signal_results db)) /\
  (forall o, In o (map SignalResult.signal_id (signal_results db)) ->
     o <> None /\ In o (map Signal.id (signals db))).

(** What [get_signal_by_id] gives for the signal saved from [signal_data]
    under id [i] at time [now]: the columns as [save_signal] fills them,
    the defaults of [models.py] for what is missing. *)
Definition stored_record (i now : Z) (signal_data : SignalData.t) : SignalRecord.t :=
  {| SignalRecord.id := Some i;
     SignalRecord.timestamp := get_or (SignalData.timestamp signal_data) now;
     SignalRecord.direction := SignalData.direction signal_data;
     SignalRecord.probability := option_map inject_Z (SignalData.probability signal_data);
     SignalRecord.entry_price := SignalData.entry_price signal_data;
     SignalRecord.target_price := SignalData.target_price signal_data;
     SignalRecord.stop_loss := SignalData.stop_loss signal_data;
     SignalRecord.pips_target := SignalData.pips_target signal_data;
     SignalRecord.risk_reward := SignalData.risk_reward signal_data;
     SignalRecord.duration := SignalData.duration signal_data;
     SignalRecord.strategies := Some (get_or (SignalData.strategies signal_data) []);
     SignalRecord.strength_class := SignalData.strength_class signal_data;
     SignalRecord.trading_allowed :=
       Some (get_or (SignalData.trading_allowed signal_data) true);
     SignalRecord.high_impact_news :=
       Some (get_or (SignalData.has_high_impact_news signal_data) false);
     SignalRecord.volume := Some (inject_Z (get_or (SignalData.volume signal_data) 0)) |}.

(** The keys [save_signal] cannot do without: the [nullable=False] columns
    it fills from the dictionary without a default. *)
Definition has_required_keys (signal_data : SignalData.t) : bool :=
  is_some (SignalData.direction signal_data)
  && is_some (SignalData.probability signal_data)
  && is_some (SignalData.entry_price signal_data)
  && is_some (SignalData.target_price signal_data)
  && is_some (SignalData.stop_loss signal_data)
  && is_some (SignalData.pips_target signal_data)
  && is_some (SignalData.risk_reward signal_data)
  && is_some (SignalData.duration signal_data)
  && is_some (SignalData.strength_class signal_data).

(** Whether the store accepts a result for the signal it references. *)
Definition reference_accepted (db : Db) (result_data : ResultData.t) : bool :=
  match ResultData.signal_id result_data with
  | Some i => negb (fk_enforced db) || signal_exists i db
  | None => true
  end.

(** The attempts, among the first [n], that fail with an exception the
    loop retries before one that does not. *)
Fixpoint failures_before (retried : exn -> bool) (n : nat) (outcomes : list (option exn))
    : nat :=
  match n, outcomes with
  | S n, Some e :: rest => if retried e then S (failures_before retried n rest) else O
  | _, _ => O
  end.

Definition is_operational (e : exn) : bool :=
  match e with OperationalError => true | _ => false end.

(** The host after [used] attempts and [naps] sleeps of [seconds]. *)
Definition host_after (used naps : nat) (seconds : Z) (h : Host) : Host :=
  {| attempts := skipn used (attempts h);
     slept := slept h ++ repeat seconds naps |}.

(** ** Scenarios *)

(** A quote is known, without volume data. *)
Definition quiet_market : MarketData.t :=
  {| MarketData.current_price := 1085 # 1000;
     MarketData.volume := 0;
     MarketData.high_24h := 109 # 100;
     MarketData.low_24h := 108 # 100;
     MarketData.last_update := Some 0 |}.

(** No quote was ever received. *)
Definition no_market : MarketData.t :=
  {| MarketData.current_price := 0;
     MarketData.volume := 0;
     MarketData.high_24h := 0;
     MarketData.low_24h := 0;
     MarketData.last_update := None |}.

Definition office_hours : TradingHours.t :=
  {| TradingHours.start := 9; TradingHours.end_ := 17; TradingHours.enabled := true |}.

(** The clock at [h] o'clock UTC on the first day. *)
Definition clock_at (h : Z) : Clock := {| now := h * 3600; utcnow := h * 3600 |}.

(** A running process on the replayable random source. *)
Definition scenario (md : MarketData.t) (high_impact : bool) (th : TradingHours.t)
    (c : Clock) (quotes : list quote) (draws : tape) : Sys tape :=
  {| market_data := md;
     economic_news :=
       {| EconomicNews.latest := []; EconomicNews.high_impact := high_impact;
          EconomicNews.last_update := Some 0 |};
     trading_hours := th;
     history := [];
     background_thread_started := true;
     database := empty_db false;
     random := draws;
     clock := c;
     quote_feed := quotes;
     db_faults := [] |}.

(** A settings body whose [enabled] is [b] and whose [start] is text that
    is no number. *)
Definition half_valid_settings (b : bool) : json :=
  JDict [("trading_hours",
          JDict [("enabled", JBool b); ("start", JString "nine")])].

Definition sample_signal : SignalDict.t :=
  {| SignalDict.timestamp := 0;
     SignalDict.strategies := [("EMA Crossover", 1); ("MACD", 1); ("Volume Confirmation", 0)];
     SignalDict.probability := 55;
     SignalDict.direction := LONG;
     SignalDict.duration := 11;
     SignalDict.risk_reward := 21 # 10;
     SignalDict.current_price := 1085 # 1000;
     SignalDict.entry_price := 1085 # 1000;
     SignalDict.target_price := 1086 # 1000;
     SignalDict.stop_loss := 10845 # 10000;
     SignalDict.pips_target := 10;
     SignalDict.strength_class := "moderate";
     SignalDict.strength_color := "warning";
     SignalDict.trading_allowed := true;
     SignalDict.volume := 0;
     SignalDict.high_24h := 109 # 100;
     SignalDict.low_24h := 108 # 100;
     SignalDict.has_high_impact_news := false;
     SignalDict.id := None |}.

(** The same process with everything synthesis does not read changed: the
    news list and its date, the history, the thread flag, the store and
    the engine's faults. *)
Definition elsewhere (s : Sys tape) : Sys tape :=
  {| market_data := market_data s;
     economic_news :=
       {| EconomicNews.latest :=
            [ {| NewsItem.title := "ECB Interest Rate Decision";
                 NewsItem.time := 0;
                 NewsItem.impact_level := medium;
                 NewsItem.currency := "EUR" |} ];
          EconomicNews.high_impact := EconomicNews.high_impact (economic_news s);
          EconomicNews.last_update := None |};
     trading_hours := trading_hours s;
     history := [sample_signal];
     background_thread_started := negb (background_thread_started s);
     database := empty_db true;
     random := random s;
     clock := clock s;
     quote_feed := quote_feed s;
     db_faults := [true] |}.

Definition winning_result (signal_id : Z) : ResultData.t :=
  {| ResultData.signal_id := Some signal_id;
     ResultData.result := Some "WIN";
     ResultData.pips_gained := Some (12 # 1)%Q;
     ResultData.exit_price := Some (10862 # 10000)%Q;
     ResultData.exit_time := Some 60;
     ResultData.notes := None |}.

(** The store after [op] ran as one session without fault at time 0. *)
Definition after {A : Type} (op : Py DbSession A) (db : Db) : Db :=
  committed (snd (op (open_session db false 0))).

(** A store with one signal, on an engine that enforces the foreign key;
    then with one result for it; then with a second result for it. *)
Definition signal_store : Db :=
  after (save_signal (signal_data_of sample_signal)) (empty_db true).

Definition resulted_store : Db :=
  after (save_signal_result (winning_result 1)) signal_store.

Definition twice_resulted_store : Db :=
  after (save_signal_result (winning_result 1)) resulted_store.

Definition results_of (signal_id : Z) (db : Db) : list SignalResult.t :=
  filter (fun r => match SignalResult.signal_id r with
                   | Some i => i =? signal_id
                   | None => false
                   end) (signal_results db).

(** A window over midnight. *)
Definition overnight_hours : TradingHours.t :=
  {| TradingHours.start := 22; TradingHours.end_ := 6; TradingHours.enabled := true |}.

(** The hours of a request that sets that window. *)
Definition overnight_fields : dict json :=
  [("enabled", JBool true); ("start", JInt 22); ("end", JInt 6)].

Definition overnight_settings : dict json :=
  [("trading_hours", JDict overnight_fields)].

(** A driver that takes text for the text columns, numbers for the float
    columns and the seconds of a time for the time column. *)
#[export] Instance plain_driver : Driver :=
  {| bind_string := fun v => match v with JString text => Some text | _ => None end;
     bind_float := fun v => match v with
                            | JInt n => Some (inject_Z n)
                            | JFloat x => Some x
                            | _ => None
                            end;
     bind_datetime := fun v => match v with JInt seconds => Some seconds | _ => None end |}.

(** The report of a win, with a signal id of its own in the body. *)
Definition win_report : dict json :=
  [("result", JString "WIN"); ("exit_price", JFloat (1086 # 1000));
   ("signal_id", JInt 99)].

(** The process at noon, nothing stored, the engine at work. *)
Definition at_noon : Sys tape :=
  scenario quiet_market false office_hours (clock_at 12) [] [].

(** * Properties *)

(** ** Rounding and truncation *)


Lemma round_half_even_between (a b : Z) (x : Q) :
  (inject_Z a <= x)%Q -> (x <= inject_Z b)%Q ->
  a <= round_half_even x <= b.
Proof.
  intros Ha Hb.
  assert (Hfa : a <= Qfloor x).
  { rewrite <- (Qfloor_Z a). apply Qfloor_resp_le. exact Ha. }
  assert (Hfb : Qfloor x <= b).
  { rewrite <- (Qfloor_Z b). apply Qfloor_resp_le. exact Hb. }
  unfold round_half_even.
  pose proof (Qfloor_le x) as Hlo.
  destruct (Qcompare_spec (x - inject_Z (Qfloor x)) (1 # 2)) as [He | Hl | Hg].
  - destruct (Z.even (Qfloor x)); [lia |].
    assert (Qfloor x < b); [| lia].
    destruct (Z.eq_dec (Qfloor x) b) as [E | E]; [| lia].
    rewrite E in He. lra.
  - lia.
  - assert (Qfloor x < b); [| lia].
    destruct (Z.eq_dec (Qfloor x) b) as [E | E]; [| lia].
    rewrite E in Hg. lra.
Qed.


Lemma py_int_nonneg (x : Q) : (0 <= x)%Q -> py_int x = Qfloor x.
Proof.
  intros Hx. destruct x as [n d]. unfold py_int, Qfloor. simpl.
  apply Z.quot_div_nonneg; [| lia].
  unfold Qle in Hx. simpl in Hx. lia.
Qed.

(** [int(a / n * 100)] is the integer quotient of [100 * a] by [n]. *)
Lemma py_int_percent (a n : Z) :
  0 <= a -> 0 < n ->
  py_int (inject_Z a / inject_Z n * 100)%Q = (100 * a) / n.
Proof.
  intros Ha Hn. destruct n as [| p | p]; try lia.
  unfold py_int.
  change (Qnum (inject_Z a / inject_Z (Z.pos p) * 100)) with (a * 1 * 100).
  change (Qden (inject_Z a / inject_Z (Z.pos p) * 100)) with (1 * p * 1)%positive.
  rewrite Z.quot_div_nonneg by lia.
  f_equal; lia.
Qed.

(** [int(p / 10)] is the integer quotient. *)
Lemma py_int_tenth (p : Z) : 0 <= p -> py_int (inject_Z p / 10)%Q = p / 10.
Proof.
  intros Hp. unfold py_int.
  change (Qnum (inject_Z p / 10)) with (p * 1).
  change (Qden (inject_Z p / 10)) with 10%positive.
  rewrite Z.quot_div_nonneg by lia.
  f_equal; lia.
Qed.

Lemma inject_Z_le (a b : Z) : a <= b -> (inject_Z a <= inject_Z b)%Q.
Proof. intros H. rewrite <- Zle_Qle. exact H. Qed.

Lemma signal_duration_range (base_duration probability : Z) (high_impact : bool) :
  5 <= signal_duration base_duration probability high_impact <= 45.
Proof. unfold signal_duration. lia. Qed.

Lemma py_round1_tenths (x : Q) :
  (py_round x 1 == inject_Z (round_half_even (x * 10)) / 10)%Q.
Proof. unfold py_round. rewrite Qred_correct. reflexivity. Qed.

Lemma signal_risk_reward_range (probability : Z) :
  0 <= probability <= 100 ->
  (1 <= signal_risk_reward probability /\ signal_risk_reward probability <= 3)%Q.
Proof.
  intros [Hlo Hhi]. unfold signal_risk_reward. rewrite py_round1_tenths.
  set (x := (1 + inject_Z probability / 100 * 2)%Q).
  assert (Hp0 : (0 <= inject_Z probability)%Q) by (apply (inject_Z_le 0 probability); exact Hlo).
  assert (Hp1 : (inject_Z probability <= 100)%Q) by (apply (inject_Z_le probability 100); exact Hhi).
  assert (Hx : (inject_Z 10 <= x * 10 /\ x * 10 <= inject_Z 30)%Q).
  { unfold x, Qdiv. change (/ 100)%Q with (1 # 100)%Q.
    change (inject_Z 10) with 10%Q. change (inject_Z 30) with 30%Q. split; lra. }
  destruct Hx as [Hx1 Hx2].
  destruct (round_half_even_between 10 30 (x * 10) Hx1 Hx2) as [Hr1 Hr2].
  apply inject_Z_le in Hr1. apply inject_Z_le in Hr2.
  change (inject_Z 10) with 10%Q in Hr1. change (inject_Z 30) with 30%Q in Hr2.
  unfold Qdiv. change (/ 10)%Q with (1 # 10)%Q. split; lra.
Qed.

Lemma pips_movement_lower (probability extra : Z) :
  0 <= probability -> 5 <= extra ->
  5 <= py_int (inject_Z probability / 10)%Q + extra.
Proof.
  intros Hp He. rewrite py_int_tenth by exact Hp.
  assert (0 <= probability / 10) by (apply Z.div_pos; lia). lia.
Qed.


Lemma count_nonneg {A : Type} (l : list A) : 0 <= count l.
Proof. unfold count. lia. Qed.

(** ** The persistence gateway *)

Lemma next_id_above (ids : list (option Z)) (i : Z) :
  In (Some i) ids -> i < next_id ids.
Proof.
  unfold next_id.
  set (top := fold_right
                (fun o m => match o with Some j => Z.max j m | None => m end) 0).
  intros Hin. assert (i <= top ids); [| lia].
  induction ids as [| o ids IH]; [contradiction |].
  cbn [top fold_right]. fold top. destruct Hin as [E | Hin].
  - subst o. lia.
  - specialize (IH Hin). destruct o; lia.
Qed.

Lemma next_id_fresh (ids : list (option Z)) : ~ In (Some (next_id ids)) ids.
Proof. intros Hin. apply next_id_above in Hin. lia. Qed.

(** One pending object saved on a fresh session. *)
Lemma save_object_runs (o : orm_object) (db : Db) (fault : bool) (now : Z) :
  object_id o = None ->
  save_object o (open_session db fault now) =
    if fault then (Ok None, open_session db fault now)
    else match insert_object now db o with
         | Ok (db1, o') => (Ok (object_id o'), open_session db1 fault now)
         | Raise _ => (Ok None, open_session db fault now)
         end.
Proof.
  intros Hid.
  unfold save_object, try_finally, try_except, bind, session_add, session_commit,
    session_rollback, modify, ret, attr_id, gets, open_session, session_close.
  cbn [committed objects engine_fault session_now app List.length].
  destruct fault.
  - reflexivity.
  - cbn [flush]. rewrite Hid. cbn [is_some].
    destruct (insert_object now db o) as [[db1 o'] | e]; reflexivity.
Qed.

Lemma insert_signal_adds (now : Z) (db db1 : Db) (s : Signal.t) (o' : orm_object) :
  insert_signal now db s = Ok (db1, o') ->
  exists i, object_id o' = Some i /\ signal_added db db1 i.
Proof.
  unfold insert_signal. destruct (_ && _); [| discriminate].
  intros H. injection H as <- <-.
  eexists. split; [reflexivity |].
  eexists. split; [| split; [| reflexivity]]; [reflexivity | apply next_id_fresh].
Qed.

Lemma insert_signal_result_adds (db db1 : Db) (r : SignalResult.t) (o' : orm_object) :
  insert_signal_result db r = Ok (db1, o') ->
  exists i, object_id o' = Some i /\ signal_result_added db db1 i.
Proof.
  unfold insert_signal_result.
  destruct (match SignalResult.signal_id r with Some _ => _ | None => _ end);
    [| discriminate].
  intros H. injection H as <- <-.
  eexists. split; [reflexivity |].
  eexists. split; [| split; [| reflexivity]]; [reflexivity | apply next_id_fresh].
Qed.

Lemma insert_market_snapshot_adds (now : Z) (db db1 : Db) (m : MarketSnapshot.t)
    (o' : orm_object) :
  insert_market_snapshot now db m = Ok (db1, o') ->
  exists i, object_id o' = Some i /\ market_snapshot_added db db1 i.
Proof.
  unfold insert_market_snapshot. destruct (is_some _); [| discriminate].
  intros H. injection H as <- <-.
  eexists. split; [reflexivity |].
  eexists. split; [| split; [| reflexivity]]; [reflexivity | apply next_id_fresh].
Qed.

Lemma save_object_atomic (o : orm_object) (added : Db -> Db -> Z -> Prop) :
  object_id o = None ->
  (forall now db db1 o', insert_object now db o = Ok (db1, o') ->
     exists i, object_id o' = Some i /\ added db db1 i) ->
  atomic_write (save_object o) added.
Proof.
  intros Hid Hins db fault now. rewrite (save_object_runs o db fault now Hid).
  destruct fault; [reflexivity |].
  destruct (insert_object now db o) as [[db1 o'] | e] eqn:Hrun; [| reflexivity].
  destruct (Hins now db db1 o' Hrun) as (i & Hi & Hadd).
  rewrite Hi. split; [reflexivity | exact Hadd].
Qed.

Lemma save_signal_atomic (signal_data : SignalData.t) :
  atomic_write (save_signal signal_data) signal_added.
Proof.
  apply (save_object_atomic (OSignal _)); [reflexivity |].
  intros now db db1 o'. apply insert_signal_adds.
Qed.


Lemma save_market_snapshot_atomic (market_data : MarketData.t) :
  atomic_write (save_market_snapshot market_data) market_snapshot_added.
Proof.
  apply (save_object_atomic (OMarketSnapshot _)); [reflexivity |].
  intros now db db1 o'. apply insert_market_snapshot_adds.
Qed.


Lemma round_half_even_comp (x y : Q) : (x == y)%Q -> round_half_even x = round_half_even y.
Proof.
  intros E. unfold round_half_even.
  rewrite (Qfloor_comp x y E).
  assert (Hc : (x - inject_Z (Qfloor y) ?= 1 # 2)%Q = (y - inject_Z (Qfloor y) ?= 1 # 2)%Q).
  { apply Qcompare_comp; [rewrite E; reflexivity | reflexivity]. }
  rewrite Hc. reflexivity.
Qed.

Lemma py_round_comp (x y : Q) (n : nat) : (x == y)%Q -> py_round x n = py_round y n.
Proof.
  intros E. unfold py_round. apply Qred_complete.
  set (scale := inject_Z (10 ^ Z.of_nat n)).
  rewrite (round_half_even_comp (x * scale) (y * scale)); [reflexivity |].
  rewrite E. reflexivity.
Qed.

Lemma or_zero_avg (vals : list Q) :
  vals <> [] ->
  py_round (or_zero (Some (Qsum vals / inject_Z (count vals))%Q)) 2
    = py_round (Qsum vals / inject_Z (count vals))%Q 2.
Proof.
  intros _. unfold or_zero.
  destruct (Qeq_bool _ 0) eqn:E; [| reflexivity].
  apply py_round_comp. apply Qeq_bool_iff in E. symmetry. exact E.
Qed.





(** A store where results and signals match, and the statistics on it. *)
Example statistics_of_a_resulted_store :
  results_match_signals resulted_store /\
  statistics_of resulted_store =
    {| Stats.total_signals := 1; Stats.signals_with_results := 1;
       Stats.wins := 1; Stats.losses := 0;
       Stats.win_rate := 100; Stats.avg_pips_gained := 12 |}.
Proof.
  split; [| vm_compute; reflexivity].
  split; [| split].
  - vm_compute. repeat constructor. intros [].
  - vm_compute. repeat constructor. intros [].
  - intros o Ho. vm_compute in Ho. destruct Ho as [<- | []].
    split; [discriminate | vm_compute; left; reflexivity].
Qed.

(** ** Writing and reading back *)

Lemma save_signal_runs (signal_data : SignalData.t) (db : Db) (fault : bool) (now : Z) :
  exists row,
    Signal.id row = None /\
    Signal_to_dict
      {| Signal.id := Some (next_id (map Signal.id (signals db)));
         Signal.timestamp := or_default (Signal.timestamp row) now;
         Signal.direction := Signal.direction row;
         Signal.probability := Signal.probability row;
         Signal.entry_price := Signal.entry_price row;
         Signal.target_price := Signal.target_price row;
         Signal.stop_loss := Signal.stop_loss row;
         Signal.pips_target := Signal.pips_target row;
         Signal.risk_reward := Signal.risk_reward row;
         Signal.duration := Signal.duration row;
         Signal.strategies := Signal.strategies row;
         Signal.strength_class := Signal.strength_class row;
         Signal.trading_allowed := or_default (Signal.trading_allowed row) true;
         Signal.high_impact_news := or_default (Signal.high_impact_news row) false;
         Signal.volume := Signal.volume row |}
      = inr {| SignalRecord.id := Some (next_id (map Signal.id (signals db)));
               SignalRecord.timestamp := get_or (SignalData.timestamp signal_data) now;
               SignalRecord.direction := SignalData.direction signal_data;
               SignalRecord.probability :=
                 option_map inject_Z (SignalData.probability signal_data);
               SignalRecord.entry_price := SignalData.entry_price signal_data;
               SignalRecord.target_price := SignalData.target_price signal_data;
               SignalRecord.stop_loss := SignalData.stop_loss signal_data;
               SignalRecord.pips_target := SignalData.pips_target signal_data;
               SignalRecord.risk_reward := SignalData.risk_reward signal_data;
               SignalRecord.duration := SignalData.duration signal_data;
               SignalRecord.strategies :=
                 Some (copy_strategies (get_or (SignalData.strategies signal_data) []));
               SignalRecord.strength_class := SignalData.strength_class signal_data;
               SignalRecord.trading_allowed :=
                 Some (get_or (SignalData.trading_allowed signal_data) true);
               SignalRecord.high_impact_news :=
                 Some (get_or (SignalData.has_high_impact_news signal_data) false);
               SignalRecord.volume :=
                 Some (inject_Z (get_or (SignalData.volume signal_data) 0)) |} /\
    (is_some (Signal.direction row) && is_some (Signal.probability row)
     && is_some (Signal.entry_price row) && is_some (Signal.target_price row)
     && is_some (Signal.stop_loss row) && is_some (Signal.pips_target row)
     && is_some (Signal.risk_reward row) && is_some (Signal.duration row)
     && is_some (Signal.strategies row) && is_some (Signal.strength_class row)
     = has_required_keys signal_data) /\
    save_signal signal_data (open_session db fault now) =
      if fault then (Ok None, open_session db fault now)
      else match insert_signal now db row with
           | Ok (db1, o') => (Ok (object_id o'), open_session db1 fault now)
           | Raise _ => (Ok None, open_session db fault now)
           end.
Proof.
  let body := eval cbv beta zeta delta [save_signal] in (save_signal signal_data) in
  lazymatch body with context [OSignal ?row] => exists row end.
  split; [| split; [| split]].
  4: { refine (save_object_runs (OSignal _) db fault now _). reflexivity. }
  - reflexivity.
  - unfold Signal_to_dict. cbn [Signal.timestamp Signal.direction Signal.probability
      Signal.entry_price Signal.target_price Signal.stop_loss Signal.pips_target
      Signal.risk_reward Signal.duration Signal.strategies Signal.strength_class
      Signal.trading_allowed Signal.high_impact_news Signal.volume Signal.id or_default].
    destruct (SignalData.timestamp signal_data); reflexivity.
  - unfold has_required_keys.
    cbn [Signal.direction Signal.probability Signal.entry_price Signal.target_price
           Signal.stop_loss Signal.pips_target Signal.risk_reward Signal.duration
           Signal.strategies Signal.strength_class is_some].
    destruct (SignalData.probability signal_data); cbn [option_map is_some];
      rewrite ?andb_true_r; reflexivity.
Qed.

Lemma dict_set_new {V : Type} (k : string) (v : V) (d : dict V) :
  ~ In k (dict_keys d) -> dict_set k v d = d ++ [(k, v)].
Proof.
  induction d as [| [k' v'] d IH]; intros Hk; [reflexivity |].
  cbn [dict_set]. destruct (String.eqb_spec k k') as [-> | Hne].
  - exfalso. apply Hk. left. reflexivity.
  - rewrite IH; [reflexivity |]. intros Hin. apply Hk. right. exact Hin.
Qed.

(** A dictionary has no key twice; the copy loop of [save_signal] then
    gives an equal dictionary. *)
Lemma copy_strategies_same (d : dict Z) : NoDup (dict_keys d) -> copy_strategies d = d.
Proof.
  unfold copy_strategies.
  assert (H : forall acc : dict Z,
            NoDup (dict_keys (acc ++ d)) ->
            fold_left (fun acc kv => dict_set (fst kv) (snd kv) acc) d acc = acc ++ d).
  { induction d as [| [k v] d IH]; intros acc Hnd.
    - rewrite app_nil_r. reflexivity.
    - cbn [fold_left fst snd]. rewrite dict_set_new.
      + rewrite IH; rewrite <- app_assoc; [reflexivity | exact Hnd].
      + unfold dict_keys in *. rewrite map_app in Hnd.
        apply NoDup_remove_2 in Hnd. intros Hin. apply Hnd.
        apply in_or_app. left. exact Hin. }
  intros Hnd. apply (H []). exact Hnd.
Qed.

Lemma find_last_new (signal_id : Z) (rows : list Signal.t) (row : Signal.t) :
  ~ In (Some signal_id) (map Signal.id rows) ->
  Signal.id row = Some signal_id ->
  find (has_id signal_id) (rows ++ [row]) = Some row.
Proof.
  intros Hnew Hrow. induction rows as [| r rows IH].
  - cbn. unfold has_id. rewrite Hrow, Z.eqb_refl. reflexivity.
  - cbn [app find]. unfold has_id at 1.
    destruct (Signal.id r) as [j |] eqn:Hj.
    + destruct (Z.eqb_spec j signal_id) as [-> | Hne].
      * exfalso. apply Hnew. left. exact Hj.
      * apply IH. intros Hin. apply Hnew. right. exact Hin.
    + apply IH. intros Hin. apply Hnew. right. exact Hin.
Qed.

Lemma get_signal_by_id_runs (signal_id : Z) (db : Db) (fault : bool) (now : Z) :
  get_signal_by_id signal_id (open_session db fault now) =
    (Ok (if fault then None
         else match find (has_id signal_id) (signals db) with
              | Some signal =>
                  match Signal_to_dict signal with
                  | inr d => Some d
                  | inl _ => None
                  end
              | None => None
              end),
     open_session db fault now).
Proof.
  unfold get_signal_by_id, try_finally, try_except, bind, query, ret, open_session,
    session_close.
  cbn [committed objects engine_fault session_now].
  destruct fault; [reflexivity |].
  destruct (find (has_id signal_id) (signals db)) as [signal |]; [| reflexivity].
  destruct (Signal_to_dict signal) as [[] | d]; reflexivity.
Qed.

(** X13: a signal that [save_signal] stored under an id is read back by
    [get_signal_by_id] under that id, with the values it was saved from
    and the defaults for the missing keys: the time of the save for the
    timestamp, allowed, no high-impact news, volume 0, no strategies. *)
Theorem saved_signal_is_read_back (signal_data : SignalData.t) (db : Db) (fault : bool)
    (now later : Z) (i : Z) (session : DbSession) :
  NoDup (dict_keys (get_or (SignalData.strategies signal_data) [])) ->
  save_signal signal_data (open_session db fault now) = (Ok (Some i), session) ->
  get_signal_by_id i (open_session (committed session) false later)
    = (Ok (Some (stored_record i now signal_data)),
       open_session (committed session) false later).
Proof.
  intros Hkeys Hsave.
  destruct (save_signal_runs signal_data db fault now) as (row & Hid & Hdict & _ & Hrun).
  rewrite Hrun in Hsave. clear Hrun.
  destruct fault; [discriminate |].
  unfold insert_signal in Hsave.
  destruct (_ && _); [| discriminate].
  cbn [object_id Signal.id] in Hsave.
  injection Hsave as Hi Hsession. subst session i.
  rewrite get_signal_by_id_runs.
  cbn [committed open_session signals].
  rewrite find_last_new; [| apply next_id_fresh | reflexivity].
  rewrite Hdict. unfold stored_record.
  rewrite (copy_strategies_same _ Hkeys). reflexivity.
Qed.

(** X14: [get_signal_by_id] never raises and writes nothing.  It gives
    [None] when the engine fails as when no signal has the id, and what it
    gives otherwise carries the id that was asked for. *)
Theorem get_signal_by_id_hides_failures (signal_id : Z) (db : Db) (fault : bool) (now : Z) :
  exists found,
    get_signal_by_id signal_id (open_session db fault now)
      = (Ok found, open_session db fault now) /\
    (fault = true -> found = None) /\
    (~ In (Some signal_id) (map Signal.id (signals db)) -> found = None) /\
    (forall d, found = Some d -> SignalRecord.id d = Some signal_id).
Proof.
  rewrite get_signal_by_id_runs. eexists. split; [reflexivity |].
  split; [| split].
  - intros ->. reflexivity.
  - intros Hnone. destruct fault; [reflexivity |].
    destruct (find (has_id signal_id) (signals db)) as [signal |] eqn:Hfind;
      [| reflexivity].
    apply find_some in Hfind. destruct Hfind as [Hin Hhas]. unfold has_id in Hhas.
    destruct (Signal.id signal) as [j |] eqn:Hj; [| discriminate].
    apply Z.eqb_eq in Hhas. subst j. exfalso. apply Hnone.
    rewrite <- Hj. apply in_map. exact Hin.
  - intros d. destruct fault; [discriminate |].
    destruct (find (has_id signal_id) (signals db)) as [signal |] eqn:Hfind;
      [| discriminate].
    apply find_some in Hfind. destruct Hfind as [_ Hhas]. unfold has_id in Hhas.
    destruct (Signal.id signal) as [j |] eqn:Hj; [| discriminate].
    apply Z.eqb_eq in Hhas. subst j.
    unfold Signal_to_dict. destruct (Signal.timestamp signal); [| discriminate].
    intros E. injection E as <-. exact Hj.
Qed.

Lemma is_some_object_id (now : Z) (db db1 : Db) (o o' : orm_object) :
  insert_object now db o = Ok (db1, o') -> is_some (object_id o') = true.
Proof.
  destruct o as [s | r | m]; cbn [insert_object].
  - intros H. apply insert_signal_adds in H. destruct H as (i & -> & _). reflexivity.
  - intros H. apply insert_signal_result_adds in H. destruct H as (i & -> & _). reflexivity.
  - intros H. apply insert_market_snapshot_adds in H. destruct H as (i & -> & _).
    reflexivity.
Qed.

(** X15: when the writers succeed.  On any store each of them returns, and
    with an id exactly in these cases: [save_signal] when the engine works
    and the dictionary has its nine required keys (the timestamp, the
    strategies, the two flags and the volume may be missing);
    [save_signal_result] when the engine works and the reference is
    accepted (no key is required, and without an enforced foreign key any
    signal id is taken); [save_market_snapshot] whenever the engine
    works. *)
Theorem writers_succeed_exactly_when (db : Db) (fault : bool) (now : Z) :
  (forall signal_data, exists r session,
      save_signal signal_data (open_session db fault now) = (Ok r, session) /\
      is_some r = negb fault && has_required_keys signal_data) /\
  (forall result_data, exists r session,
      save_signal_result result_data (open_session db fault now) = (Ok r, session) /\
      is_some r = negb fault && reference_accepted db result_data) /\
  (forall market_data, exists r session,
      save_market_snapshot market_data (open_session db fault now) = (Ok r, session) /\
      is_some r = negb fault).
Proof.
  split; [| split].
  - intros signal_data.
    destruct (save_signal_runs signal_data db fault now) as (row & _ & _ & Hreq & Hrun).
    rewrite Hrun. destruct fault; [eexists _, _; split; reflexivity |].
    unfold insert_signal. rewrite Hreq.
    destruct (has_required_keys signal_data); eexists _, _; split; reflexivity.
  - intros result_data.
    let body := eval cbv beta zeta delta [save_signal_result] in (save_signal_result result_data) in
    lazymatch body with
    | context [OSignalResult ?row] =>
        rewrite (save_object_runs (OSignalResult row) db fault now eq_refl
                 : save_signal_result result_data (open_session db fault now) = _)
    end.
    destruct fault; [eexists _, _; split; reflexivity |].
    cbn [insert_object]. unfold insert_signal_result, reference_accepted.
    cbn [SignalResult.signal_id].
    destruct (ResultData.signal_id result_data) as [i |].
    + destruct (negb (fk_enforced db) || signal_exists i db);
        eexists _, _; split; reflexivity.
    + eexists _, _; split; reflexivity.
  - intros market_data.
    let body := eval cbv beta zeta delta [save_market_snapshot] in (save_market_snapshot market_data) in
    lazymatch body with
    | context [OMarketSnapshot ?row] =>
        rewrite (save_object_runs (OMarketSnapshot row) db fault now eq_refl
                 : save_market_snapshot market_data (open_session db fault now) = _)
    end.
    destruct fault; eexists _, _; split; reflexivity.
Qed.

Lemma save_signal_stores (signal_data : SignalData.t) (db : Db) (fault : bool) (now : Z) :
  NoDup (dict_keys (get_or (SignalData.strategies signal_data) [])) ->
  let i := next_id (map Signal.id (signals db)) in
  exists row,
    Signal.id row = Some i /\
    Signal_to_dict row = inr (stored_record i now signal_data) /\
    save_signal signal_data (open_session db fault now) =
      if negb fault && has_required_keys signal_data
      then (Ok (Some i),
            open_session {| signals := signals db ++ [row];
                            signal_results := signal_results db;
                            market_snapshots := market_snapshots db;
                            fk_enforced := fk_enforced db |} fault now)
      else (Ok None, open_session db fault now).
Proof.
  intros Hkeys i.
  destruct (save_signal_runs signal_data db fault now) as (row & Hid & Hdict & Hreq & Hrun).
  exists {| Signal.id := Some (next_id (map Signal.id (signals db)));
            Signal.timestamp := or_default (Signal.timestamp row) now;
            Signal.direction := Signal.direction row;
            Signal.probability := Signal.probability row;
            Signal.entry_price := Signal.entry_price row;
            Signal.target_price := Signal.target_price row;
            Signal.stop_loss := Signal.stop_loss row;
            Signal.pips_target := Signal.pips_target row;
            Signal.risk_reward := Signal.risk_reward row;
            Signal.duration := Signal.duration row;
            Signal.strategies := Signal.strategies row;
            Signal.strength_class := Signal.strength_class row;
            Signal.trading_allowed := or_default (Signal.trading_allowed row) true;
            Signal.high_impact_news := or_default (Signal.high_impact_news row) false;
            Signal.volume := Signal.volume row |}.
  split; [reflexivity |]. split.
  - rewrite Hdict. unfold stored_record. rewrite (copy_strategies_same _ Hkeys).
    reflexivity.
  - rewrite Hrun. destruct fault; [reflexivity |].
    unfold insert_signal. rewrite Hreq.
    destruct (has_required_keys signal_data); reflexivity.
Qed.

Lemma save_signal_result_stores (result_data : ResultData.t) (db : Db) (fault : bool)
    (now : Z) :
  let i := next_id (map SignalResult.id (signal_results db)) in
  exists row,
    SignalResult.id row = Some i /\
    SignalResult.signal_id row = ResultData.signal_id result_data /\
    SignalResult.result row = ResultData.result result_data /\
    save_signal_result result_data (open_session db fault now) =
      if negb fault && reference_accepted db result_data
      then (Ok (Some i),
            open_session {| signals := signals db;
                            signal_results := signal_results db ++ [row];
                            market_snapshots := market_snapshots db;
                            fk_enforced := fk_enforced db |} fault now)
      else (Ok None, open_session db fault now).
Proof.
  intros i.
  exists {| SignalResult.id := Some i;
            SignalResult.signal_id := ResultData.signal_id result_data;
            SignalResult.result := ResultData.result result_data;
            SignalResult.pips_gained := ResultData.pips_gained result_data;
            SignalResult.exit_price := ResultData.exit_price result_data;
            SignalResult.exit_time := ResultData.exit_time result_data;
            SignalResult.notes := ResultData.notes result_data |}.
  split; [reflexivity |]. split; [reflexivity |]. split; [reflexivity |].
  let body := eval cbv beta zeta delta [save_signal_result] in
    (save_signal_result result_data) in
  lazymatch body with
  | context [OSignalResult ?row] =>
      rewrite (save_object_runs (OSignalResult row) db fault now eq_refl
               : save_signal_result result_data (open_session db fault now) = _)
  end.
  destruct fault; [reflexivity |].
  cbn [insert_object negb andb]. unfold insert_signal_result, reference_accepted.
  cbn [SignalResult.signal_id].
  destruct (ResultData.signal_id result_data) as [j |].
  - destruct (negb (fk_enforced db) || signal_exists j db); reflexivity.
  - reflexivity.
Qed.

(** ** The ranges of the statistics *)

Lemma get_signal_statistics_runs (db : Db) (fault : bool) (now : Z) :
  get_signal_statistics (open_session db fault now) =
    (Ok (if fault then zero_statistics else statistics_of db),
     open_session db fault now).
Proof.
  destruct fault; [reflexivity |].
  unfold get_signal_statistics, try_finally, try_except, bind, query, ret, open_session,
    session_close.
  cbn [committed objects engine_fault session_now].
  unfold statistics_of, recorded_pips, sql_avg. f_equal. f_equal. f_equal.
  - destruct (count (signal_results db)) as [| n | n] eqn:Hn.
    + reflexivity.
    + reflexivity.
    + pose proof (count_nonneg (signal_results db)). lia.
  - destruct (not_null (map SignalResult.pips_gained (signal_results db)))
      as [| v vals] eqn:Hvals.
    + reflexivity.
    + apply or_zero_avg. discriminate.
Qed.

Lemma count_filter_disjoint {A : Type} (p q : A -> bool) (l : list A) :
  (forall a, p a && q a = false) ->
  count (filter p l) + count (filter q l) <= count l.
Proof.
  intros Hpq. unfold count. induction l as [| a l IH]; [cbn; lia |].
  cbn [filter]. specialize (Hpq a).
  destruct (p a), (q a); try discriminate; cbn [List.length]; lia.
Qed.

Lemma py_round2_percent (x : Q) :
  (0 <= x)%Q -> (x <= 100)%Q -> (0 <= py_round x 2 /\ py_round x 2 <= 100)%Q.
Proof.
  intros H0 H100. unfold py_round. rewrite Qred_correct.
  change (inject_Z (10 ^ Z.of_nat 2)) with (100 # 1)%Q.
  destruct (round_half_even_between 0 10000 (x * (100 # 1))) as [R1 R2].
  - change (inject_Z 0) with 0%Q. lra.
  - change (inject_Z 10000) with (10000 # 1)%Q. lra.
  - apply inject_Z_le in R1. apply inject_Z_le in R2.
    change (inject_Z 0) with 0%Q in R1.
    change (inject_Z 10000) with (10000 # 1)%Q in R2.
    unfold Qdiv. change (/ (100 # 1))%Q with (1 # 100)%Q. split; lra.
Qed.

Lemma result_is_win_or_loss (r : SignalResult.t) :
  result_is "WIN" r && result_is "LOSS" r = false.
Proof.
  unfold result_is. destruct (SignalResult.result r) as [x |]; [| reflexivity].
  destruct (String.eqb_spec x "WIN") as [-> | _]; reflexivity.
Qed.

(** X16: the statistics are always given and stay in range, on any store
    and whatever the engine does: the counts are not negative, wins and
    losses together do not exceed the results, and the win rate lies
    between 0 and 100.  When the engine fails they are all zero, and the
    store is never written. *)
Theorem statistics_stay_in_range (db : Db) (fault : bool) (now : Z) :
  exists stats session,
    get_signal_statistics (open_session db fault now) = (Ok stats, session) /\
    committed session = db /\
    0 <= Stats.total_signals stats /\
    0 <= Stats.wins stats /\
    0 <= Stats.losses stats /\
    Stats.wins stats + Stats.losses stats <= Stats.signals_with_results stats /\
    (0 <= Stats.win_rate stats /\ Stats.win_rate stats <= 100)%Q /\
    (fault = true -> stats = zero_statistics).
Proof.
  rewrite get_signal_statistics_runs. eexists _, _. split; [reflexivity |].
  split; [reflexivity |].
  destruct fault.
  - cbn. repeat split; try lia; try lra.
  - unfold statistics_of.
    cbn [Stats.total_signals Stats.wins Stats.losses Stats.signals_with_results
           Stats.win_rate].
    pose proof (count_nonneg (signal_results db)) as Hn.
    pose proof (count_nonneg (filter (result_is "WIN") (signal_results db))) as Hw.
    pose proof (count_filter_disjoint (result_is "WIN") (result_is "LOSS")
                  (signal_results db) result_is_win_or_loss) as Hwl.
    pose proof (count_nonneg (filter (result_is "LOSS") (signal_results db))) as Hl.
    split; [apply count_nonneg |]. split; [exact Hw |]. split; [exact Hl |].
    split; [exact Hwl |]. split; [| discriminate].
    destruct (Z.eqb_spec (count (signal_results db)) 0) as [E | Hne]; [split; lra |].
    apply py_round2_percent.
    + apply Qmult_le_0_compat; [| lra].
      apply Qle_shift_div_l.
      * change 0%Q with (inject_Z 0). rewrite <- Zlt_Qlt. lia.
      * rewrite Qmult_0_l. change 0%Q with (inject_Z 0). apply inject_Z_le. exact Hw.
    + assert (Hle : (inject_Z (count (filter (result_is "WIN") (signal_results db)))
                     / inject_Z (count (signal_results db)) <= 1)%Q).
      { apply Qle_shift_div_r.
        - change 0%Q with (inject_Z 0). rewrite <- Zlt_Qlt. lia.
        - rewrite Qmult_1_l. apply inject_Z_le. lia. }
      lra.
Qed.

(** ** Connecting and retrying *)

Lemma host_after_none (seconds : Z) (h : Host) : host_after 0 0 seconds h = h.
Proof. destruct h. unfold host_after. cbn. rewrite app_nil_r. reflexivity. Qed.

Lemma host_after_step (used naps : nat) (seconds : Z) (o : option exn)
    (rest : list (option exn)) (h : Host) :
  attempts h = o :: rest ->
  host_after used naps seconds
    {| attempts := rest; slept := slept h ++ [seconds] |}
  = host_after (S used) (S naps) seconds h.
Proof.
  intros Hh. unfold host_after. cbn [attempts slept]. rewrite Hh.
  cbn [skipn repeat]. rewrite <- app_assoc. reflexivity.
Qed.

Lemma host_after_first (o : option exn) (rest : list (option exn)) (seconds : Z)
    (h : Host) :
  attempts h = o :: rest ->
  {| attempts := rest; slept := slept h |} = host_after 1 0 seconds h.
Proof.
  intros Hh. unfold host_after. rewrite Hh. cbn. rewrite app_nil_r. reflexivity.
Qed.

Lemma host_after_exhausted (used : nat) (seconds : Z) (h : Host) :
  attempts h = [] -> h = host_after used 0 seconds h.
Proof.
  intros Hh. destruct h as [a sl]. cbn in Hh. subst a. unfold host_after. cbn.
  rewrite app_nil_r. destruct used; reflexivity.
Qed.

(** The loop of [create_db_engine] with rounds left. *)
Lemma create_db_engine_loop_runs (e : engine) (url : string)
    (max_retries retry_interval : Z) (m : nat) :
  connect_engine url = server_call e ->
  forall (retry_count : Z) (h : Host),
    Z.to_nat (max_retries - retry_count) = S m ->
    let failed := failures_before (fun _ => true) (S m) (attempts h) in
    create_db_engine_loop (S m) url max_retries retry_interval retry_count h =
      if (failed <? S m)%nat
      then (Ok (Some e), host_after (S failed) failed retry_interval h)
      else (Ok (Some (create_engine "sqlite:///:memory:")),
            host_after (S m) m retry_interval h).
Proof.
  intros Hconnect. induction m as [| m IH]; intros retry_count h Hleft failed;
    subst failed.
  - cbn [create_db_engine_loop].
    assert (Hlt : (retry_count <? max_retries) = true) by (apply Z.ltb_lt; lia).
    assert (Hlast : (retry_count + 1 <? max_retries) = false) by (apply Z.ltb_ge; lia).
    rewrite Hlt, Hlast, Hconnect. unfold try_except, bind, server_call, ret.
    destruct (attempts h) as [| [err |] rest] eqn:Hh; cbn.
    + f_equal. apply host_after_exhausted. exact Hh.
    + f_equal. apply (host_after_first (Some err) rest). exact Hh.
    + f_equal. apply (host_after_first None rest). exact Hh.
  - remember (S m) as k eqn:Hk. cbn [create_db_engine_loop].
    assert (Hlt : (retry_count <? max_retries) = true) by (apply Z.ltb_lt; lia).
    assert (Hnext : (retry_count + 1 <? max_retries) = true) by (apply Z.ltb_lt; lia).
    rewrite Hlt, Hnext, Hconnect. unfold try_except, bind at 1, server_call, ret.
    subst k.
    destruct (attempts h) as [| [err |] rest] eqn:Hh.
    + cbn. f_equal. apply host_after_exhausted. exact Hh.
    + unfold bind, time_sleep, modify. cbv beta iota. cbn [attempts slept].
      rewrite (IH (retry_count + 1)) by lia. cbn [attempts slept].
      change (failures_before (fun _ => true) (S (S m)) (Some err :: rest))
        with (S (failures_before (fun _ => true) (S m) rest)).
      set (f := failures_before (fun _ => true) (S m) rest).
      change (S f <? S (S m))%nat with (f <? S m)%nat.
      destruct (f <? S m)%nat.
      * f_equal. apply (host_after_step _ _ _ (Some err)). exact Hh.
      * f_equal. apply (host_after_step _ _ _ (Some err)). exact Hh.
    + cbn. f_equal. apply (host_after_first None rest). exact Hh.
Qed.

Lemma connect_engine_is_a_call (url : string) :
  exists e, connect_engine url = server_call e /\ engine_url e = url.
Proof. eexists. split; reflexivity. Qed.

(** X17: [create_db_engine] never raises and makes at most [max_retries]
    attempts.  When one of them works it returns the engine of the URL,
    having slept [retry_interval] after each failure before it; when all
    fail it returns the in-memory SQLite engine, without a sleep after the
    last failure; and with [max_retries] at 0 or below it makes no attempt
    and returns [None]. *)
Theorem create_db_engine_tries_then_falls_back (url : string)
    (max_retries retry_interval : Z) (h : Host) :
  let n := Z.to_nat max_retries in
  let failed := failures_before (fun _ => true) n (attempts h) in
  exists r,
    create_db_engine url max_retries retry_interval h
      = (Ok r, if (n =? 0)%nat then h
               else if (failed <? n)%nat
                    then host_after (S failed) failed retry_interval h
                    else host_after n (n - 1) retry_interval h) /\
    option_map engine_url r
      = if (n =? 0)%nat then None
        else if (failed <? n)%nat then Some url
        else Some "sqlite:///:memory:".
Proof.
  intros n failed. subst failed. unfold create_db_engine. fold n.
  destruct n as [| m] eqn:Hn.
  - eexists. split; reflexivity.
  - destruct (connect_engine_is_a_call url) as (e & Hconnect & Hurl).
    rewrite (create_db_engine_loop_runs e url max_retries retry_interval m Hconnect)
      by (subst n; lia).
    cbn [Nat.eqb]. replace (S m - 1)%nat with m by lia.
    destruct (_ <? S m)%nat; eexists; (split; [reflexivity |]).
    + cbn [option_map]. rewrite Hurl. reflexivity.
    + reflexivity.
Qed.

(** The loop of [db_operation] on a call to the server. *)
Lemma db_operation_loop_runs {A : Type} (a : A) (max_retries retry_interval : Z)
    (fuel : nat) :
  forall (retry_count : Z) (h : Host),
    Z.to_nat (max_retries - retry_count) = fuel ->
    let failed := failures_before is_operational fuel (attempts h) in
    db_operation_loop fuel (server_call a) max_retries retry_interval retry_count h =
      if (failed <? fuel)%nat
      then match nth_error (attempts h) failed with
           | Some (Some e) => (Raise e, host_after (S failed) failed retry_interval h)
           | _ => (Ok (Some a), host_after (S failed) failed retry_interval h)
           end
      else (Ok None, host_after fuel (fuel - 1) retry_interval h).
Proof.
  induction fuel as [| m IH]; intros retry_count h Hleft failed; subst failed.
  - cbn. rewrite host_after_none. reflexivity.
  - cbn [db_operation_loop].
    assert (Hlt : (retry_count <? max_retries) = true) by (apply Z.ltb_lt; lia).
    rewrite Hlt. unfold try_except, bind at 1, bind at 1, server_call, ret.
    destruct (attempts h) as [| [err |] rest] eqn:Hh.
    + cbn. f_equal. apply host_after_exhausted. exact Hh.
    + destruct (is_operational err) eqn:Hop.
      * destruct err; try discriminate Hop.
        change (failures_before is_operational (S m) (Some OperationalError :: rest))
          with (S (failures_before is_operational m rest)).
        change (S (failures_before is_operational m rest) <? S m)%nat
          with (failures_before is_operational m rest <? m)%nat.
        cbn [nth_error]. replace (S m - 1)%nat with m by lia.
        destruct m as [| m'].
        -- assert (Hlast : (retry_count + 1 <? max_retries) = false)
             by (apply Z.ltb_ge; lia).
           rewrite Hlast. cbn. unfold ret. f_equal.
           apply (host_after_first (Some OperationalError) rest). exact Hh.
        -- assert (Hnext : (retry_count + 1 <? max_retries) = true)
             by (apply Z.ltb_lt; lia).
           rewrite Hnext. unfold bind, time_sleep, modify, ret. cbv beta iota.
           cbn [attempts slept].
           rewrite (IH (retry_count + 1)) by lia. cbn [attempts slept].
           replace (S m' - 1)%nat with m' by lia.
           set (f := failures_before is_operational (S m') rest).
           destruct (f <? S m')%nat.
           ++ destruct (nth_error rest f) as [[e |] |]; f_equal;
                apply (host_after_step _ _ _ (Some OperationalError)); exact Hh.
           ++ f_equal. apply (host_after_step _ _ _ (Some OperationalError)). exact Hh.
      * change (failures_before is_operational (S m) (Some err :: rest))
          with (if is_operational err
                then S (failures_before is_operational m rest) else 0%nat).
        rewrite Hop. cbn [Nat.ltb Nat.leb nth_error].
        destruct err; try discriminate Hop; cbn; f_equal;
          apply (host_after_first _ rest _ h Hh).
    + cbn. f_equal. apply (host_after_first None rest). exact Hh.
Qed.

Lemma db_operation_runs {A : Type} (a : A) (max_retries retry_interval : Z) (h : Host) :
  let n := Z.to_nat max_retries in
  let failed := failures_before is_operational n (attempts h) in
  db_operation (server_call a) max_retries retry_interval h =
    if (failed <? n)%nat
    then match nth_error (attempts h) failed with
         | Some (Some e) => (Raise e, host_after (S failed) failed retry_interval h)
         | _ => (Ok (Some a), host_after (S failed) failed retry_interval h)
         end
    else (Ok None, host_after n (n - 1) retry_interval h).
Proof.
  intros n failed. unfold db_operation.
  apply db_operation_loop_runs. lia.
Qed.

Lemma failures_before_le (retried : exn -> bool) (n : nat) (outcomes : list (option exn)) :
  (failures_before retried n outcomes <= n)%nat.
Proof.
  revert outcomes. induction n as [| n IH]; intros outcomes; [cbn; lia |].
  destruct outcomes as [| [e |] rest]; cbn; try lia.
  destruct (retried e); [| lia]. specialize (IH rest). lia.
Qed.

Lemma failures_before_stop (retried : exn -> bool) (n : nat)
    (outcomes : list (option exn)) (e : exn) :
  (failures_before retried n outcomes < n)%nat ->
  nth_error outcomes (failures_before retried n outcomes) = Some (Some e) ->
  retried e = false.
Proof.
  revert outcomes. induction n as [| n IH]; intros outcomes Hlt Hnth; [lia |].
  destruct outcomes as [| [e0 |] rest]; cbn in *; try discriminate.
  destruct (retried e0) eqn:He0.
  - cbn in Hnth. apply (IH rest); [lia | exact Hnth].
  - cbn in Hnth. injection Hnth as <-. exact He0.
Qed.

(** X18: [db_operation] retries a call to the server on [OperationalError]
    only.  It makes at most [max_retries] attempts, sleeping
    [retry_interval] between two of them and not after the last; it
    returns what the first working attempt gives, [None] when all raise
    [OperationalError] or when [max_retries] is 0 or below; and the first
    exception of another kind leaves it at once. *)
Theorem db_operation_retries_operational_errors_only {A : Type} (a : A)
    (max_retries retry_interval : Z) (h : Host) :
  let n := Z.to_nat max_retries in
  let failed := failures_before is_operational n (attempts h) in
  (failed <= n)%nat /\
  db_operation (server_call a) max_retries retry_interval h =
    (if (failed <? n)%nat
     then match nth_error (attempts h) failed with
          | Some (Some e) => (Raise e, host_after (S failed) failed retry_interval h)
          | _ => (Ok (Some a), host_after (S failed) failed retry_interval h)
          end
     else (Ok None, host_after n (n - 1) retry_interval h)) /\
  (forall e h', db_operation (server_call a) max_retries retry_interval h = (Raise e, h') ->
     is_operational e = false).
Proof.
  intros n failed. split; [apply failures_before_le |].
  split; [apply db_operation_runs |].
  intros e h'. rewrite db_operation_runs. fold n. fold failed.
  destruct (failed <? n)%nat eqn:Hlt; [| discriminate].
  apply Nat.ltb_lt in Hlt.
  destruct (nth_error (attempts h) failed) as [[e0 |] |] eqn:Hnth; try discriminate.
  intros E. injection E as <- _.
  apply (failures_before_stop is_operational n (attempts h) e0 Hlt Hnth).
Qed.


(** ** The rational model against binary64 *)

Lemma Zrange_In (lo hi x : Z) : lo <= x <= hi -> In x (Zrange lo hi).
Proof.
  intros H. unfold Zrange. apply in_map_iff. exists (Z.to_nat (x - lo)).
  split; [lia | apply in_seq; lia].
Qed.

(** The tally has 16 entries, or 17 with the news flag. *)
Lemma probability_binary64_agrees (active total : Z) :
  total = 16 \/ total = 17 -> 0 <= active <= total ->
  probability_binary64 active total
    = Some (py_int (inject_Z active / inject_Z total * 100)%Q).
Proof.
  intros Htotal Hactive.
  assert (Hall : forallb (fun n =>
            forallb (fun a =>
              match probability_binary64 a n with
              | Some v => v =? py_int (inject_Z a / inject_Z n * 100)%Q
              | None => false
              end) (Zrange 0 n)) [16; 17] = true) by (vm_compute; reflexivity).
  rewrite forallb_forall in Hall.
  assert (Hin : In total [16; 17]) by (simpl; destruct Htotal; subst; tauto).
  specialize (Hall total Hin). rewrite forallb_forall in Hall.
  specialize (Hall active (Zrange_In 0 total active Hactive)).
  destruct (probability_binary64 active total) as [v |]; [| discriminate].
  apply Z.eqb_eq in Hall. congruence.
Qed.

Lemma signal_duration_binary64_agrees (base probability : Z) (high_impact : bool) :
  5 <= base <= 15 -> 0 <= probability <= 100 ->
  signal_duration_binary64 base probability high_impact
    = Some (signal_duration base probability high_impact).
Proof.
  intros Hbase Hprob.
  assert (Hall : forallb (fun b =>
            forallb (fun p =>
              forallb (fun h =>
                match signal_duration_binary64 b p h with
                | Some v => v =? signal_duration b p h
                | None => false
                end) [true; false]) (Zrange 0 100)) (Zrange 5 15) = true)
    by (vm_compute; reflexivity).
  rewrite forallb_forall in Hall.
  specialize (Hall base (Zrange_In 5 15 base Hbase)). rewrite forallb_forall in Hall.
  specialize (Hall probability (Zrange_In 0 100 probability Hprob)).
  rewrite forallb_forall in Hall.
  assert (Hin : In high_impact [true; false]) by (destruct high_impact; simpl; tauto).
  specialize (Hall high_impact Hin).
  destruct (signal_duration_binary64 base probability high_impact) as [v |];
    [| discriminate].
  apply Z.eqb_eq in Hall. congruence.
Qed.

Lemma pips_base_binary64_agrees (probability : Z) :
  0 <= probability <= 100 ->
  pips_base_binary64 probability = Some (py_int (inject_Z probability / 10)%Q).
Proof.
  intros Hprob.
  assert (Hall : forallb (fun p =>
            match pips_base_binary64 p with
            | Some v => v =? py_int (inject_Z p / 10)%Q
            | None => false
            end) (Zrange 0 100) = true) by (vm_compute; reflexivity).
  rewrite forallb_forall in Hall.
  specialize (Hall probability (Zrange_In 0 100 probability Hprob)).
  destruct (pips_base_binary64 probability) as [v |]; [| discriminate].
  apply Z.eqb_eq in Hall. congruence.
Qed.

Lemma risk_reward_binary64_agrees (probability : Z) :
  0 <= probability <= 100 ->
  exists tenths,
    risk_reward_tenths_binary64 probability = Some tenths /\
    (signal_risk_reward probability == inject_Z tenths / 10)%Q.
Proof.
  intros Hprob.
  assert (Hall : forallb (fun p =>
            match risk_reward_tenths_binary64 p with
            | Some v => Qeq_bool (signal_risk_reward p) (inject_Z v / 10)
            | None => false
            end) (Zrange 0 100) = true) by (vm_compute; reflexivity).
  rewrite forallb_forall in Hall.
  specialize (Hall probability (Zrange_In 0 100 probability Hprob)).
  destruct (risk_reward_tenths_binary64 probability) as [v |]; [| discriminate].
  exists v. split; [reflexivity | apply Qeq_bool_iff; exact Hall].
Qed.

(** ** The synthesizer *)

Section AppFacts.

Context {G : Type} {RS : RandomSource G}.

(** In this section the judgments are about the process on [G]. *)
Local Abbreviation reads_only_inputs := (@reads_only_inputs G _).
Local Abbreviation steady := (@steady G _).
Local Abbreviation keeps_history := (@keeps_history G _).

Lemma keeps_rest_refl (s : Sys G) : keeps_rest s s.
Proof. repeat split. Qed.

Lemma keeps_rest_trans (s1 s2 s3 : Sys G) :
  keeps_rest s1 s2 -> keeps_rest s2 s3 -> keeps_rest s1 s3.
Proof.
  unfold keeps_rest. intros H12 H23.
  repeat match goal with H : _ /\ _ |- _ => destruct H end.
  repeat split; congruence.
Qed.

Lemma keeps_rest_set_random (g : G) (s : Sys G) : keeps_rest s (set_random g s).
Proof. repeat split. Qed.

Lemma coin_flips_flags (n : nat) (g : G) : Forall flag (fst (coin_flips n g)).
Proof.
  revert g. induction n as [| n IH]; intros g; simpl.
  - constructor.
  - pose proof (rand_choice01_range g) as Hv.
    destruct (rand_choice01 g) as [v g1].
    specialize (IH g1). destruct (coin_flips n g1) as [vs g2].
    simpl in *. constructor; assumption.
Qed.

Lemma coin_flips_length (n : nat) (g : G) : List.length (fst (coin_flips n g)) = n.
Proof.
  revert g. induction n as [| n IH]; intros g; simpl; [reflexivity |].
  destruct (rand_choice01 g) as [v g1].
  specialize (IH g1). destruct (coin_flips n g1) as [vs g2].
  simpl in *. congruence.
Qed.

Lemma fetch_market_data_returns (s : Sys G) :
  exists s1, fetch_market_data s = (Ok tt, s1) /\ keeps_rest s s1.
Proof.
  unfold fetch_market_data, bind, ticker_history.
  destruct (quote_feed s) as [| q rest] eqn:Hfeed.
  - cbn. destruct (Qeq_bool _ 0).
    + unfold random_random, bind. cbn. destruct (rand_random (random s)) as [r g].
      cbn. eexists; split; [reflexivity | repeat split].
    + eexists; split; [reflexivity | repeat split].
  - destruct q as [close vol hi lo | |]; cbn.
    + eexists; split; [reflexivity | repeat split].
    + eexists; split; [reflexivity | repeat split].
    + destruct (Qeq_bool _ 0).
      * unfold random_random, bind. cbn. destruct (rand_random (random s)) as [r g].
        cbn. eexists; split; [reflexivity | repeat split].
      * eexists; split; [reflexivity | repeat split].
Qed.

Lemma is_trading_allowed_returns (s : Sys G) :
  is_trading_allowed s =
    (Ok (window_allows (trading_hours s) (hour (utcnow (clock s)))
           (EconomicNews.high_impact (economic_news s))), s).
Proof.
  unfold is_trading_allowed, window_allows, bind, gets, datetime_utcnow, gets, ret,
    news_high_impact.
  destruct (TradingHours.enabled (trading_hours s)); cbn; [| reflexivity].
  destruct (_ <=? _); cbn; [| reflexivity].
  destruct (_ <? _); cbn; [| reflexivity].
  destruct (EconomicNews.high_impact _); reflexivity.
Qed.

Ltac step_flips Hvol :=
  repeat match goal with
         | |- context [rand_choice01 ?g] =>
             destruct (rand_choice01 g) as [? ?]; cbn - [Z.ltb]; rewrite ?Hvol; cbn - [Z.ltb]
         end.

Lemma detect_strategies_catalog (s : Sys G) :
  let vol := MarketData.volume (market_data s) in
  let (draws, g) := coin_flips (if 0 <? vol then 9 else 10) (random s) in
  detect_strategies (dict_keys INDICATORS) [] s =
    (Ok (combine (dict_keys INDICATORS) (catalog_flags vol draws)), set_random g s).
Proof.
  cbv zeta. unfold catalog_flags.
  destruct (0 <? MarketData.volume (market_data s)) eqn:Hvol;
    cbn [coin_flips dict_keys INDICATORS map fst detect_strategies];
    unfold bind, gets, random_choice01, ret; cbn - [Z.ltb];
    step_flips Hvol; reflexivity.
Qed.


Lemma keeps_but_random_refl (s : Sys G) : keeps_but_random s s.
Proof. repeat split. Qed.

Lemma keeps_but_random_trans (s1 s2 s3 : Sys G) :
  keeps_but_random s1 s2 -> keeps_but_random s2 s3 -> keeps_but_random s1 s3.
Proof.
  intros (K12 & M12 & Q12) (K23 & M23 & Q23). split; [| split].
  - eapply keeps_rest_trans; eassumption.
  - congruence.
  - congruence.
Qed.

Lemma keeps_but_random_set (g : G) (s : Sys G) : keeps_but_random s (set_random g s).
Proof. repeat split. Qed.

Lemma bind_returns {S A B : Type} (c : Py S A) (k : A -> Py S B) (s s1 : S) (a : A) :
  c s = (Ok a, s1) -> bind c k s = k a s1.
Proof. intros Hc. unfold bind. rewrite Hc. reflexivity. Qed.

Lemma sum_list_app (l1 l2 : list Z) : sum_list (l1 ++ l2) = sum_list l1 + sum_list l2.
Proof. induction l1 as [| x l1 IH]; simpl; [reflexivity | rewrite IH; lia]. Qed.

Lemma count_app {A : Type} (l1 l2 : list A) : count (l1 ++ l2) = count l1 + count l2.
Proof. unfold count. rewrite length_app. lia. Qed.

Lemma sum_list_flags (l : list Z) : Forall flag l -> 0 <= sum_list l <= count l.
Proof.
  induction 1 as [| x l Hx _ IH]; unfold count in *; simpl List.length; simpl sum_list.
  - lia.
  - destruct Hx; subst; lia.
Qed.

Lemma dict_get_In {V : Type} (k : string) (d : dict V) (v : V) :
  dict_get k d = Some v -> In v (dict_values d).
Proof.
  induction d as [| [k' v'] d IH]; simpl; [discriminate |].
  destruct (String.eqb k k'); intros H.
  - left. congruence.
  - right. auto.
Qed.

Lemma dict_get_keys {V : Type} (k : string) (d : dict V) :
  In k (dict_keys d) -> exists v, dict_get k d = Some v.
Proof.
  induction d as [| [k' v'] d IH]; simpl; [tauto |].
  intros [E | Hin].
  - subst. rewrite String.eqb_refl. eauto.
  - destruct (String.eqb k k'); eauto.
Qed.

Lemma dict_get_set {V : Type} (k k' : string) (v : V) (d : dict V) :
  dict_get k (dict_set k' v d) = if String.eqb k k' then Some v else dict_get k d.
Proof.
  induction d as [| [k0 v0] d IH]; simpl.
  - reflexivity.
  - destruct (String.eqb k' k0) eqn:E0; simpl.
    + apply String.eqb_eq in E0. subst k0.
      destruct (String.eqb k k'); reflexivity.
    + rewrite IH. destruct (String.eqb k k') eqn:E.
      * apply String.eqb_eq in E. subst k. rewrite E0. reflexivity.
      * reflexivity.
Qed.

Lemma dict_set_flags (k : string) (v : Z) (d : dict Z) :
  flag v -> Forall flag (dict_values d) -> Forall flag (dict_values (dict_set k v d)).
Proof.
  intros Hv. induction d as [| [k0 v0] d IH]; simpl; intros Hd.
  - constructor; [assumption | constructor].
  - inversion Hd; subst. destruct (String.eqb k k0); simpl; constructor; auto.
Qed.

(** The tally returns, and what it returns, once the three weighted
    entries are there. *)
Lemma weighted_probability_returns {S : Type} (d : dict Z) (s : S) (ema macd vol : Z) :
  dict_get "EMA Crossover" d = Some ema ->
  dict_get "MACD" d = Some macd ->
  dict_get "Volume Confirmation" d = Some vol ->
  Forall flag (dict_values d) ->
  exists p,
    weighted_probability d s = (Ok p, s) /\
    p = 100 * (sum_list (dict_values d) + 2 * ema + 2 * macd + 2 * vol)
        / (count (dict_values d) + 6) /\
    0 <= p <= 100.
Proof.
  intros He Hm Hv Hd.
  assert (Fe : flag ema).
  { eapply Forall_forall; [exact Hd | eapply dict_get_In; exact He]. }
  assert (Fm : flag macd).
  { eapply Forall_forall; [exact Hd | eapply dict_get_In; exact Hm]. }
  assert (Fv : flag vol).
  { eapply Forall_forall; [exact Hd | eapply dict_get_In; exact Hv]. }
  pose proof (sum_list_flags _ Hd) as Hsum.
  unfold weighted_probability, dict_getitem. rewrite He, Hm, Hv.
  unfold bind, ret.
  set (w := dict_values d ++ [ema; ema] ++ [macd; macd] ++ [vol; vol]).
  assert (Hw : sum_list w = sum_list (dict_values d) + 2 * ema + 2 * macd + 2 * vol).
  { unfold w. rewrite sum_list_app. cbn [sum_list fold_right app]. lia. }
  assert (Hc : count w = count (dict_values d) + 6).
  { unfold w. rewrite count_app. unfold count. cbn [List.length app]. lia. }
  pose proof (count_nonneg (dict_values d)) as Hn.
  eexists. split; [reflexivity |].
  rewrite py_int_percent by (unfold flag in *; lia).
  rewrite Hw, Hc. split; [reflexivity |].
  unfold flag in *. split.
  - apply Z.div_pos; lia.
  - apply Z.div_le_upper_bound; lia.
Qed.


Ltac list_of_length l H :=
  repeat (destruct l as [| ? l]; [discriminate H |]);
  destruct l; [| discriminate H].

Lemma detect_strategies_returns (s : Sys G) :
  exists d g,
    detect_strategies (dict_keys INDICATORS) [] s = (Ok d, set_random g s) /\
    dict_keys d = dict_keys INDICATORS /\
    Forall flag (dict_values d) /\
    (0 < MarketData.volume (market_data s) ->
     dict_get "Volume Confirmation" d
       = Some (if 1000000 <? MarketData.volume (market_data s) then 1 else 0)).
Proof.
  pose proof (detect_strategies_catalog s) as Hrun. cbv zeta in Hrun.
  set (vol := MarketData.volume (market_data s)) in *.
  set (n := if 0 <? vol then 9%nat else 10%nat) in *.
  pose proof (coin_flips_length n (random s)) as Hlen.
  pose proof (coin_flips_flags n (random s)) as Hflags.
  destruct (coin_flips n (random s)) as [draws g]. simpl in Hlen, Hflags.
  exists (combine (dict_keys INDICATORS) (catalog_flags vol draws)), g.
  split; [exact Hrun |]. clear Hrun.
  unfold catalog_flags. subst n.
  destruct (0 <? vol) eqn:Hvol.
  - list_of_length draws Hlen.
    repeat match goal with H : Forall flag (_ :: _) |- _ => inversion H; clear H; subst end.
    split; [reflexivity |]. split.
    + cbn [dict_keys INDICATORS map fst firstn skipn app combine dict_values snd].
      repeat (apply Forall_cons;
              [first [assumption
                     | destruct (1000000 <? vol); [right | left]; reflexivity] |]).
      apply Forall_nil.
    + intros _. reflexivity.
  - list_of_length draws Hlen.
    repeat match goal with H : Forall flag (_ :: _) |- _ => inversion H; clear H; subst end.
    split; [reflexivity |]. split.
    + cbn [dict_keys INDICATORS map fst combine dict_values snd].
      repeat (apply Forall_cons; [assumption |]). apply Forall_nil.
    + intros Hpos. apply Z.ltb_ge in Hvol. lia.
Qed.

Lemma random_randint_returns (a b : Z) (s : Sys G) :
  a <= b ->
  exists v g, random_randint a b s = (Ok v, set_random g s) /\ a <= v <= b.
Proof.
  intros Hab. unfold random_randint.
  pose proof (rand_randint_range a b (random s) Hab) as Hr.
  destruct (rand_randint a b (random s)) as [v g]. simpl in Hr.
  exists v, g. split; [reflexivity | exact Hr].
Qed.

Lemma random_random_returns (s : Sys G) :
  exists r g, random_random s = (Ok r, set_random g s) /\ (0 <= r /\ r < 1)%Q.
Proof.
  unfold random_random.
  pose proof (rand_random_range (random s)) as Hr.
  destruct (rand_random (random s)) as [r g]. simpl in Hr.
  exists r, g. split; [reflexivity | exact Hr].
Qed.

Lemma choose_direction_returns (md : MarketData.t) (s : Sys G) :
  exists d g, choose_direction md s = (Ok d, set_random g s).
Proof.
  destruct (random_random_returns s) as (r & g & Hr & _).
  unfold choose_direction.
  repeat match goal with
         | |- context [if ?c then _ else _] => destruct c
         end;
    rewrite (bind_returns _ _ _ _ _ Hr); eexists _, g; reflexivity.
Qed.

Lemma entry_reference_returns (md : MarketData.t) (s : Sys G) :
  exists price s1, entry_reference md s = (Ok price, s1) /\ keeps_but_random s s1.
Proof.
  unfold entry_reference.
  destruct (Qeq_bool (MarketData.current_price md) 0).
  - destruct (random_random_returns s) as (r & g & Hr & _).
    rewrite (bind_returns _ _ _ _ _ Hr). eexists _, _. split; [reflexivity |].
    apply keeps_but_random_set.
  - eexists _, _. split; [reflexivity | apply keeps_but_random_refl].
Qed.


Lemma catalog_has (k : string) (d : dict Z) :
  dict_keys d = dict_keys INDICATORS ->
  In k (dict_keys INDICATORS) ->
  exists v, dict_get k d = Some v.
Proof. intros Hk Hin. apply dict_get_keys. rewrite Hk. exact Hin. Qed.

Lemma apply_news_impact_flags (hi : bool) (d : dict Z) :
  dict_keys d = dict_keys INDICATORS ->
  Forall flag (dict_values d) ->
  Forall flag (dict_values (apply_news_impact hi d)) /\
  (exists v, dict_get "EMA Crossover" (apply_news_impact hi d) = Some v) /\
  (exists v, dict_get "MACD" (apply_news_impact hi d) = Some v) /\
  dict_get "Volume Confirmation" (apply_news_impact hi d)
    = dict_get "Volume Confirmation" d /\
  (exists v, dict_get "Volume Confirmation" d = Some v).
Proof.
  intros Hk Hd.
  assert (Hema : exists v, dict_get "EMA Crossover" d = Some v)
    by (apply catalog_has; [exact Hk | simpl; tauto]).
  assert (Hmacd : exists v, dict_get "MACD" d = Some v)
    by (apply catalog_has; [exact Hk | simpl; tauto]).
  assert (Hvol : exists v, dict_get "Volume Confirmation" d = Some v)
    by (apply catalog_has; [exact Hk | simpl; tauto]).
  unfold apply_news_impact. destruct hi.
  - split; [| split; [| split; [| split]]].
    + repeat apply dict_set_flags; try assumption; [left | left | right]; reflexivity.
    + rewrite !dict_get_set. simpl. eauto.
    + rewrite !dict_get_set. simpl. exact Hmacd.
    + rewrite !dict_get_set. simpl. reflexivity.
    + exact Hvol.
  - auto.
Qed.

(** Every call of [analyze_signal] returns a signal, and the signal is the
    specified one. *)
Lemma analyze_signal_returns (s : Sys G) :
  exists sig s',
    analyze_signal s = (Ok sig, s') /\
    synthesis s sig s' /\
    keeps_rest s s' /\
    (Qeq_bool (MarketData.current_price (market_data s)) 0
     || negb (is_some (MarketData.last_update (market_data s))) = false ->
     keeps_but_random s s').
Proof.
  unfold analyze_signal.
  rewrite (bind_returns _ _ s s (market_data s)) by reflexivity.
  set (stale := Qeq_bool (MarketData.current_price (market_data s)) 0
                || negb (is_some (MarketData.last_update (market_data s)))).
  assert (Hfetch : exists s1,
             (if stale then fetch_market_data else ret tt) s = (Ok tt, s1) /\
             keeps_rest s s1 /\ (stale = false -> s1 = s)).
  { destruct stale.
    - destruct (fetch_market_data_returns s) as (s1 & H1 & K1).
      exists s1. split; [exact H1 | split; [exact K1 | discriminate]].
    - exists s. split; [reflexivity | split; [apply keeps_rest_refl | reflexivity]]. }
  destruct Hfetch as (s1 & H1 & K1 & N1).
  rewrite (bind_returns _ _ _ _ _ H1).
  rewrite (bind_returns _ _ _ _ _ (is_trading_allowed_returns s1)).
  destruct (detect_strategies_returns s1) as (d & g2 & H2 & Hkeys & Hflags & Hvc).
  rewrite (bind_returns _ _ _ _ _ H2).
  rewrite (bind_returns _ _ (set_random g2 s1) (set_random g2 s1)
             (EconomicNews.high_impact (economic_news s1))) by reflexivity.
  set (hi := EconomicNews.high_impact (economic_news s1)).
  destruct (apply_news_impact_flags hi d Hkeys Hflags)
    as (Hfl' & (ema & Hema) & (macd & Hmacd) & Hvol_eq & (vol & Hvol)).
  rewrite <- Hvol_eq in Hvol.
  destruct (weighted_probability_returns _ (set_random g2 s1) _ _ _ Hema Hmacd Hvol Hfl')
    as (p & Hp & Hp_eq & Hp_range).
  destruct (weighted_probability_returns _ tt _ _ _ Hema Hmacd Hvol Hfl')
    as (p' & Hp' & Hp'_eq & _).
  rewrite <- Hp_eq in Hp'_eq. subst p'. clear Hp_eq.
  rewrite (bind_returns _ _ _ _ _ Hp).
  rewrite (bind_returns _ _ (set_random g2 s1) (set_random g2 s1) (market_data s1))
    by reflexivity.
  destruct (choose_direction_returns (market_data s1) (set_random g2 s1))
    as (dir & g3 & H3).
  rewrite (bind_returns _ _ _ _ _ H3).
  destruct (random_randint_returns 5 15 (set_random g3 (set_random g2 s1)) ltac:(lia))
    as (base & g4 & H4 & Hbase).
  rewrite (bind_returns _ _ _ _ _ H4).
  destruct (entry_reference_returns (market_data s1)
              (set_random g4 (set_random g3 (set_random g2 s1))))
    as (price & s5 & H5 & K5).
  rewrite (bind_returns _ _ _ _ _ H5).
  destruct (random_randint_returns 5 15 s5 ltac:(lia)) as (extra & g6 & H6 & Hextra).
  rewrite (bind_returns _ _ _ _ _ H6).
  destruct (price_levels dir price _ _) as [[entry target] stop] eqn:Hlevels.
  destruct (calculate_signal_strength _) as [class color] eqn:Hstrength.
  rewrite (bind_returns _ _ (set_random g6 s5) (set_random g6 s5) (now (clock s5)))
    by reflexivity.
  assert (K15 : keeps_but_random s1 s5).
  { eapply keeps_but_random_trans; [| exact K5]. repeat split. }
  assert (K16 : keeps_but_random s1 (set_random g6 s5)).
  { eapply keeps_but_random_trans; [exact K15 | apply keeps_but_random_set]. }
  destruct K1 as (Kn & Kt & Kh & Kb & Kd & Kc & Kf).
  destruct K16 as ((Kn' & Kt' & Kh' & Kb' & Kd' & Kc' & Kf') & Km' & Kq').
  eexists _, _. split; [reflexivity |]. split; [| split].
  - unfold synthesis. cbn [SignalDict.trading_allowed SignalDict.has_high_impact_news
      SignalDict.volume SignalDict.high_24h SignalDict.low_24h SignalDict.timestamp
      SignalDict.id SignalDict.strategies SignalDict.probability SignalDict.duration
      SignalDict.risk_reward SignalDict.pips_target SignalDict.entry_price
      SignalDict.target_price SignalDict.stop_loss SignalDict.direction
      SignalDict.current_price SignalDict.strength_class SignalDict.strength_color].
    cbv zeta. rewrite Km'. subst hi. rewrite <- Kn, <- Kt, <- Kc.
    repeat split; try reflexivity.
    + destruct K15 as ((_ & _ & _ & _ & _ & Kc5 & _) & _ & _). rewrite Kc5. reflexivity.
    + exists d. repeat split; assumption.
    + exists p. repeat split; try assumption; lia.
    + exists base. repeat split; try lia.
    + exists extra. repeat split; try lia.
    + symmetry. exact Hlevels.
    + symmetry. exact Hstrength.
  - repeat split; congruence.
  - intros Hstale. specialize (N1 Hstale). subst s1.
    repeat split; assumption.
Qed.
(** ** The gate and the halved probability *)

Lemma window_allows_iff (th : TradingHours.t) (h : Z) (high_impact : bool) :
  window_allows th h high_impact = true <->
  TradingHours.enabled th = false \/
  (TradingHours.start th <= h < TradingHours.end_ th /\ high_impact = false).
Proof.
  unfold window_allows.
  rewrite orb_true_iff, !andb_true_iff, !negb_true_iff, Z.leb_le, Z.ltb_lt.
  tauto.
Qed.

Lemma gate_probability_closed (p : Z) :
  gate_probability false p = Z.max 10 (p / 2) /\
  10 <= gate_probability false p /\
  (20 <= p -> gate_probability false p <= p / 2).
Proof.
  unfold gate_probability. simpl. repeat split; try lia.
  intros Hp. assert (10 <= p / 2) by (apply Z.div_le_lower_bound; lia). lia.
Qed.

Lemma gate_probability_range (allowed : bool) (p : Z) :
  0 <= p <= 100 -> 0 <= gate_probability allowed p <= 100.
Proof.
  intros Hp. unfold gate_probability. destruct allowed; simpl; [lia |].
  assert (p / 2 <= 50) by (apply Z.div_le_upper_bound; lia). lia.
Qed.

(** C1 (as amended): for every synthesis call, trading is allowed iff the
    trading window is disabled, or the current UTC hour lies in
    [start, end) and there is no high-impact news; and whenever trading is
    not allowed, with [p] the probability computed from the weighted
    indicator tally, the resulting probability equals [max(10, p // 2)],
    is at least 10, and is at most [floor(p / 2)] provided [p >= 20]. *)
Theorem trading_gate_halves_probability (s : Sys G) :
  exists sig s' p,
    analyze_signal s = (Ok sig, s') /\
    weighted_probability (SignalDict.strategies sig) tt = (Ok p, tt) /\
    (SignalDict.trading_allowed sig = true <->
     TradingHours.enabled (trading_hours s) = false \/
     (TradingHours.start (trading_hours s) <= hour (utcnow (clock s))
        < TradingHours.end_ (trading_hours s) /\
      EconomicNews.high_impact (economic_news s) = false)) /\
    (SignalDict.trading_allowed sig = false ->
     SignalDict.probability sig = Z.max 10 (p / 2) /\
     10 <= SignalDict.probability sig /\
     (20 <= p -> SignalDict.probability sig <= p / 2)).
Proof.
  destruct (analyze_signal_returns s) as (sig & s' & Hrun & Hsyn & _).
  destruct Hsyn as (Hallowed & _ & _ & _ & _ & _ & _ & _ & (p & Hp & _ & Hgate) & _).
  exists sig, s', p. split; [exact Hrun |]. split; [exact Hp |]. split.
  - rewrite Hallowed. apply window_allows_iff.
  - intros Hno. rewrite Hgate, Hno. apply gate_probability_closed.
Qed.

(** ** The bounds of a signal *)

Lemma synthesis_probability_range (s s' : Sys G) (sig : SignalDict.t) :
  synthesis s sig s' -> 0 <= SignalDict.probability sig <= 100.
Proof.
  intros (_ & _ & _ & _ & _ & _ & _ & _ & (p & _ & Hp & Hgate) & _).
  rewrite Hgate. apply gate_probability_range. exact Hp.
Qed.

Lemma synthesis_bounds (s s' : Sys G) (sig : SignalDict.t) :
  synthesis s sig s' ->
  5 <= SignalDict.duration sig <= 45 /\
  (1 <= SignalDict.risk_reward sig /\ SignalDict.risk_reward sig <= 3)%Q /\
  5 <= SignalDict.pips_target sig.
Proof.
  intros Hsyn. pose proof (synthesis_probability_range _ _ _ Hsyn) as Hprob.
  destruct Hsyn as (_ & _ & _ & _ & _ & _ & _ & _ & _ & (base & _ & Hdur) & Hrr
                    & (extra & Hextra & Hpips) & _).
  split; [| split].
  - rewrite Hdur. apply signal_duration_range.
  - rewrite Hrr. apply signal_risk_reward_range. exact Hprob.
  - rewrite Hpips. apply pips_movement_lower; lia.
Qed.

(** C4: for every synthesized Signal, regardless of market data, news
    state, trading window and random draws: the duration lies in [5, 45]
    minutes, the risk/reward ratio lies in [1.0, 3.0], and the pip target
    is at least 5. *)
Theorem signal_duration_risk_reward_pips_bounds (s : Sys G) :
  exists sig s',
    analyze_signal s = (Ok sig, s') /\
    5 <= SignalDict.duration sig <= 45 /\
    (1 <= SignalDict.risk_reward sig /\ SignalDict.risk_reward sig <= 3)%Q /\
    5 <= SignalDict.pips_target sig.
Proof.
  destruct (analyze_signal_returns s) as (sig & s' & Hrun & Hsyn & _).
  exists sig, s'. split; [exact Hrun |].
  eapply synthesis_bounds. exact Hsyn.
Qed.


(** ** The indicator flags *)

(** C3 (as amended): in every synthesis call each catalog flag other than
    "Volume Confirmation" is one draw of [random.choice([0, 1])], taken in
    catalog order; "Volume Confirmation" is data-driven only when the
    market volume is positive: then no draw is made for it and it is 1 iff
    the volume exceeds 1,000,000; with a volume of zero (no volume data) or
    below, it is a coin flip like the others.  The signal a call returns
    carries the data-driven flag whenever its volume is positive. *)
Theorem volume_confirmation_is_data_driven_on_positive_volume (s : Sys G) :
  (let vol := MarketData.volume (market_data s) in
   let (draws, g) := coin_flips (if 0 <? vol then 9 else 10) (random s) in
   detect_strategies (dict_keys INDICATORS) [] s =
     (Ok (combine (dict_keys INDICATORS) (catalog_flags vol draws)),
      set_random g s)) /\
  (exists sig s',
     analyze_signal s = (Ok sig, s') /\
     (0 < SignalDict.volume sig ->
      dict_get "Volume Confirmation" (SignalDict.strategies sig)
        = Some (if 1000000 <? SignalDict.volume sig then 1 else 0))).
Proof.
  split; [apply detect_strategies_catalog |].
  destruct (analyze_signal_returns s) as (sig & s' & Hrun & Hsyn & _).
  exists sig, s'. split; [exact Hrun |].
  destruct Hsyn as (_ & _ & Hvol & _ & _ & _ & _ & (flags & Hkeys & Hflags & Hvc & Hstr) & _).
  intros Hpos. rewrite Hvol in *. rewrite Hstr.
  destruct (apply_news_impact_flags
              (EconomicNews.high_impact (economic_news s)) flags Hkeys Hflags)
    as (_ & _ & _ & Hsame & _).
  rewrite Hsame. apply Hvc. exact Hpos.
Qed.

(** ** What synthesis reads *)

Lemma reads_ret {A : Type} (a : A) : reads_only_inputs (ret a).
Proof. intros s1 s2 H. split; [reflexivity | exact H]. Qed.

Lemma reads_raise {A : Type} (e : exn) : reads_only_inputs (@raise (Sys G) A e).
Proof. intros s1 s2 H. split; [reflexivity | exact H]. Qed.

Lemma reads_bind {A B : Type} (c : Py (Sys G) A) (k : A -> Py (Sys G) B) :
  reads_only_inputs c -> (forall a, reads_only_inputs (k a)) ->
  reads_only_inputs (bind c k).
Proof.
  intros Hc Hk s1 s2 H. unfold bind.
  destruct (Hc s1 s2 H) as [Hr Hs].
  destruct (c s1) as [r1 t1], (c s2) as [r2 t2]. simpl in Hr, Hs. subst r2.
  destruct r1 as [a | e].
  - apply Hk. exact Hs.
  - split; [reflexivity | exact Hs].
Qed.

Lemma reads_gets {A : Type} (f : Sys G -> A) :
  (forall s1 s2, same_inputs s1 s2 -> f s1 = f s2) ->
  reads_only_inputs (gets f).
Proof. intros Hf s1 s2 H. split; [simpl; f_equal; auto | exact H]. Qed.

Lemma reads_modify (f : Sys G -> Sys G) :
  (forall s1 s2, same_inputs s1 s2 -> same_inputs (f s1) (f s2)) ->
  reads_only_inputs (modify f).
Proof. intros Hf s1 s2 H. split; [reflexivity | apply Hf; exact H]. Qed.

Lemma reads_if {A : Type} (b : bool) (c1 c2 : Py (Sys G) A) :
  reads_only_inputs c1 -> reads_only_inputs c2 ->
  reads_only_inputs (if b then c1 else c2).
Proof. destruct b; auto. Qed.

Ltac use_inputs H :=
  destruct H as (Hm & Hn & Ht & Hr & Hc & Hq);
  unfold news_high_impact in *.

Ltac close_inputs :=
  repeat split; unfold news_high_impact; cbn; first [assumption | reflexivity | congruence].

Lemma reads_market_data : reads_only_inputs (gets market_data).
Proof. apply reads_gets. intros s1 s2 H. use_inputs H. exact Hm. Qed.

Lemma reads_news_high_impact : reads_only_inputs (gets news_high_impact).
Proof. apply reads_gets. intros s1 s2 H. destruct H as (_ & Hn & _). exact Hn. Qed.

Lemma reads_trading_hours : reads_only_inputs (gets trading_hours).
Proof. apply reads_gets. intros s1 s2 H. use_inputs H. exact Ht. Qed.

Lemma reads_datetime_now : reads_only_inputs datetime_now.
Proof. apply reads_gets. intros s1 s2 H. use_inputs H. congruence. Qed.

Lemma reads_datetime_utcnow : reads_only_inputs datetime_utcnow.
Proof. apply reads_gets. intros s1 s2 H. use_inputs H. congruence. Qed.

Lemma reads_random_choice01 : reads_only_inputs random_choice01.
Proof.
  intros s1 s2 H. unfold random_choice01. use_inputs H. rewrite Hr.
  destruct (rand_choice01 (random s2)) as [v g]. close_inputs.
Qed.

Lemma reads_random_random : reads_only_inputs random_random.
Proof.
  intros s1 s2 H. unfold random_random. use_inputs H. rewrite Hr.
  destruct (rand_random (random s2)) as [v g]. close_inputs.
Qed.

Lemma reads_random_randint (a b : Z) : reads_only_inputs (random_randint a b).
Proof.
  intros s1 s2 H. unfold random_randint. use_inputs H. rewrite Hr.
  destruct (rand_randint a b (random s2)) as [v g]. close_inputs.
Qed.

Lemma reads_ticker_history : reads_only_inputs ticker_history.
Proof.
  intros s1 s2 H. unfold ticker_history. use_inputs H. rewrite Hq.
  destruct (quote_feed s2) as [| q rest] eqn:Hfeed; close_inputs.
Qed.

Lemma reads_set_market_data (m : MarketData.t) :
  reads_only_inputs (modify (set_market_data m)).
Proof.
  apply reads_modify. intros s1 s2 H. use_inputs H. close_inputs.
Qed.

Create HintDb reads discriminated.
#[local] Hint Resolve reads_ret reads_raise reads_market_data reads_news_high_impact
  reads_trading_hours reads_datetime_now reads_datetime_utcnow
  reads_random_choice01 reads_random_random reads_random_randint
  reads_ticker_history reads_set_market_data : reads.

Ltac reads_step :=
  match goal with
  | |- forall _, _ => intro
  | |- reads_only_inputs (bind _ _) => apply reads_bind
  | |- reads_only_inputs (if _ then _ else _) => apply reads_if
  | |- reads_only_inputs (match ?x with _ => _ end) => destruct x
  | |- reads_only_inputs _ => solve [auto with reads]
  end.

Lemma reads_fetch_market_data : reads_only_inputs fetch_market_data.
Proof.
  unfold fetch_market_data. repeat reads_step.
  apply reads_modify. intros s1 s2 H. use_inputs H.
  close_inputs.
Qed.

Lemma reads_is_trading_allowed : reads_only_inputs is_trading_allowed.
Proof. unfold is_trading_allowed. repeat reads_step. Qed.

Lemma reads_detect_strategies (names : list string) (d : dict Z) :
  reads_only_inputs (detect_strategies names d).
Proof.
  revert d. induction names as [| name rest IH]; intros d; simpl.
  - auto with reads.
  - repeat reads_step.
Qed.

Lemma reads_weighted_probability (d : dict Z) :
  reads_only_inputs (weighted_probability d).
Proof.
  unfold weighted_probability, dict_getitem. repeat reads_step.
Qed.

Lemma reads_choose_direction (md : MarketData.t) :
  reads_only_inputs (choose_direction md).
Proof. unfold choose_direction. repeat reads_step. Qed.

Lemma reads_entry_reference (md : MarketData.t) :
  reads_only_inputs (entry_reference md).
Proof. unfold entry_reference. repeat reads_step. Qed.

#[local] Hint Resolve reads_fetch_market_data reads_is_trading_allowed
  reads_detect_strategies reads_weighted_probability reads_choose_direction
  reads_entry_reference : reads.

Lemma reads_analyze_signal : reads_only_inputs analyze_signal.
Proof. unfold analyze_signal. repeat reads_step. Qed.

(** C2 (as amended): signal synthesis is a deterministic function of the
    market state, the high-impact flag of the news state, the trading
    window and the state of the process-wide random source, and besides of
    the wall clock and of the quote source: two runs from states that agree
    on these return the same Signal (or raise the same exception) and
    leave the random source in the same state, whatever else differs.  It
    writes neither the news state nor the trading window nor the history;
    it advances the random source, and it writes the market state only
    through the quote it fetches itself when the price is 0 or was never
    updated. *)
Theorem synthesis_is_a_function_of_inputs_and_clock (s1 s2 : Sys G) :
  same_inputs s1 s2 ->
  fst (analyze_signal s1) = fst (analyze_signal s2) /\
  random (snd (analyze_signal s1)) = random (snd (analyze_signal s2)) /\
  keeps_rest s1 (snd (analyze_signal s1)) /\
  (Qeq_bool (MarketData.current_price (market_data s1)) 0
   || negb (is_some (MarketData.last_update (market_data s1))) = false ->
   keeps_but_random s1 (snd (analyze_signal s1))).
Proof.
  intros Hsame.
  destruct (reads_analyze_signal s1 s2 Hsame) as (Hout & _ & _ & _ & Hrandom & _).
  destruct (analyze_signal_returns s1) as (sig & s' & Hrun & _ & Hkeeps & Hknown).
  rewrite Hrun in *. cbn [snd] in *.
  split; [exact Hout |]. split; [exact Hrandom |]. split; [exact Hkeeps | exact Hknown].
Qed.

(** ** The history buffer *)

Lemma steady_ret {A : Type} (a : A) : steady (ret a).
Proof. intros s. exists a, s. split; reflexivity. Qed.

Lemma steady_bind {A B : Type} (c : Py (Sys G) A) (k : A -> Py (Sys G) B) :
  steady c -> (forall a, steady (k a)) -> steady (bind c k).
Proof.
  intros Hc Hk s. destruct (Hc s) as (a & s1 & Hrun & Hh).
  destruct (Hk a s1) as (b & s2 & Hrun2 & Hh2).
  exists b, s2. rewrite (bind_returns _ _ _ _ _ Hrun). split; congruence.
Qed.

Lemma steady_gets {A : Type} (f : Sys G -> A) : steady (gets f).
Proof. intros s. exists (f s), s. split; reflexivity. Qed.

Lemma steady_modify (f : Sys G -> Sys G) :
  (forall s, history (f s) = history s) -> steady (modify f).
Proof. intros Hf s. exists tt, (f s). split; [reflexivity | apply Hf]. Qed.

Lemma steady_if {A : Type} (b : bool) (c1 c2 : Py (Sys G) A) :
  steady c1 -> steady c2 -> steady (if b then c1 else c2).
Proof. destruct b; auto. Qed.

Lemma steady_try_except {A : Type} (c : Py (Sys G) A) (h : exn -> Py (Sys G) A) :
  steady c -> steady (try_except c h).
Proof.
  intros Hc s. destruct (Hc s) as (a & s1 & Hrun & Hh).
  exists a, s1. unfold try_except. rewrite Hrun. split; [reflexivity | exact Hh].
Qed.

Lemma steady_fetch_market_data : steady fetch_market_data.
Proof.
  intros s. destruct (fetch_market_data_returns s) as (s1 & Hrun & K).
  exists tt, s1. split; [exact Hrun | apply K].
Qed.

Lemma steady_random_randint (a b : Z) : steady (random_randint a b).
Proof.
  intros s. unfold random_randint. destruct (rand_randint a b (random s)) as [v g].
  exists v, (set_random g s). split; reflexivity.
Qed.

Lemma steady_random_random : steady random_random.
Proof.
  intros s. unfold random_random. destruct (rand_random (random s)) as [v g].
  exists v, (set_random g s). split; reflexivity.
Qed.

Lemma steady_analyze_signal : steady analyze_signal.
Proof.
  intros s. destruct (analyze_signal_returns s) as (sig & s' & Hrun & _ & K & _).
  exists sig, s'. split; [exact Hrun | apply K].
Qed.

Lemma steady_db_call {A : Type} (c : Py DbSession A) :
  (forall db fault now, exists a session, c (open_session db fault now) = (Ok a, session)) ->
  steady (db_call c).
Proof.
  intros Hc s. unfold db_call.
  destruct (Hc (database s) (hd false (db_faults s)) (now (clock s)))
    as (a & session & Hrun).
  rewrite Hrun. eexists _, _. split; reflexivity.
Qed.

Lemma atomic_write_returns (write : Py DbSession (option Z))
    (added : Db -> Db -> Z -> Prop) :
  atomic_write write added ->
  forall db fault now, exists a session, write (open_session db fault now) = (Ok a, session).
Proof.
  intros Hw db fault now. specialize (Hw db fault now).
  destruct (write (open_session db fault now)) as [[a | e] session].
  - eauto.
  - contradiction.
Qed.

Lemma get_signal_statistics_returns (db : Db) (fault : bool) (now : Z) :
  exists a session, get_signal_statistics (open_session db fault now) = (Ok a, session).
Proof. destruct fault; eexists _, _; reflexivity. Qed.

Create HintDb steady discriminated.
#[local] Hint Resolve steady_ret steady_gets steady_fetch_market_data
  steady_random_randint steady_random_random steady_analyze_signal : steady.

Ltac steady_step :=
  match goal with
  | |- forall _, _ => intro
  | |- steady (bind _ _) => apply steady_bind
  | |- steady (if _ then _ else _) => apply steady_if
  | |- steady (try_except _ _) => apply steady_try_except
  | |- steady (modify _) => apply steady_modify; intros; reflexivity
  | |- steady (match ?x with _ => _ end) => destruct x
  | |- steady _ => solve [auto with steady]
  end.

Lemma steady_fetch_economic_news : steady fetch_economic_news.
Proof. unfold fetch_economic_news, datetime_now. repeat steady_step. Qed.

#[local] Hint Resolve steady_fetch_economic_news : steady.

Lemma steady_keeps_history {A : Type} (c : Py (Sys G) A) :
  steady c -> keeps_history c.
Proof.
  intros Hc s. destruct (Hc s) as (a & s1 & Hrun & Hh). rewrite Hrun. exact Hh.
Qed.

Lemma keeps_history_bind {A B : Type} (c : Py (Sys G) A) (k : A -> Py (Sys G) B) :
  keeps_history c -> (forall a, keeps_history (k a)) -> keeps_history (bind c k).
Proof.
  intros Hc Hk s. unfold bind. specialize (Hc s).
  destruct (c s) as [[a | e] s1]; simpl in Hc.
  - rewrite Hk. exact Hc.
  - exact Hc.
Qed.

Lemma keeps_history_py_int_of (v : json) : keeps_history (@py_int_of (Sys G) v).
Proof. intros s. destruct v; try reflexivity. simpl. destruct (int_of_string s0); reflexivity. Qed.

Lemma keeps_history_get_json (body : option json) : keeps_history (get_json body).
Proof. intros s. destruct body; reflexivity. Qed.

Ltac keeps_step :=
  match goal with
  | |- forall _, _ => intro
  | |- keeps_history (bind _ _) => apply keeps_history_bind
  | |- keeps_history (py_int_of _) => apply keeps_history_py_int_of
  | |- keeps_history (get_json _) => apply keeps_history_get_json
  | |- keeps_history (match ?x with _ => _ end) => destruct x
  | |- keeps_history _ => intro; reflexivity
  end.

Lemma keeps_history_merge_settings (body : option json) :
  keeps_history (merge_settings body).
Proof. unfold merge_settings. repeat keeps_step. Qed.

(** The handlers that append nothing: they answer, without a signal, and
    [history] is as it was. *)
Lemma update_settings_answers (body : option json) (s : Sys G) :
  exists answer s',
    update_settings body s = (Ok answer, s') /\
    history s' = history s /\
    answered_signals [answer] = [].
Proof.
  pose proof (keeps_history_merge_settings body s) as Hh.
  unfold update_settings, bind, try_except.
  destruct (merge_settings body s) as [[u | e] s1]; simpl in Hh; cbn.
  - eexists _, _. repeat split. exact Hh.
  - eexists _, _. repeat split. exact Hh.
Qed.

Lemma get_market_data_answers (s : Sys G) :
  exists answer s',
    get_market_data s = (Ok answer, s') /\
    history s' = history s /\
    answered_signals [answer] = [].
Proof.
  unfold get_market_data.
  destruct (steady_fetch_market_data s) as (u & s1 & Hrun & Hh).
  rewrite (bind_returns _ _ _ _ _ Hrun). cbn.
  eexists _, _. repeat split. exact Hh.
Qed.

Lemma get_economic_news_answers (s : Sys G) :
  exists answer s',
    get_economic_news s = (Ok answer, s') /\
    history s' = history s /\
    answered_signals [answer] = [].
Proof.
  unfold get_economic_news.
  destruct (steady_fetch_economic_news s) as (u & s1 & Hrun & Hh).
  rewrite (bind_returns _ _ _ _ _ Hrun). cbn.
  eexists _, _. repeat split. exact Hh.
Qed.

Lemma background_data_updater_runs : steady background_data_updater.
Proof. unfold background_data_updater. repeat steady_step. Qed.

Lemma count_le_10 {A : Type} (l : list A) :
  (10 <? count l) = false <-> (List.length l <= 10)%nat.
Proof. unfold count. rewrite Z.ltb_ge. lia. Qed.

Lemma update_last_snoc {A : Type} (f : A -> A) (l : list A) (x : A) :
  update_last f (l ++ [x]) = l ++ [f x].
Proof.
  unfold update_last. rewrite rev_app_distr. simpl. rewrite rev_involutive. reflexivity.
Qed.

(** The object appended last is the last one, popped head or not. *)
Lemma update_last_append_history {A : Type} (f : A -> A) (h : list A) (x : A) :
  update_last f (append_history h x) = append_history h (f x).
Proof.
  unfold append_history. unfold count. rewrite !length_app. simpl List.length.
  destruct (10 <? _).
  - destruct h as [| y h]; simpl; [reflexivity |]. apply update_last_snoc.
  - apply update_last_snoc.
Qed.

Lemma steady_db_statistics : steady (db_call get_signal_statistics).
Proof. apply steady_db_call. apply get_signal_statistics_returns. Qed.

Lemma steady_db_save_signal (sd : SignalData.t) : steady (db_call (save_signal sd)).
Proof.
  apply steady_db_call. eapply atomic_write_returns. apply save_signal_atomic.
Qed.

Lemma steady_db_save_market_snapshot (md : MarketData.t) :
  steady (db_call (save_market_snapshot md)).
Proof.
  apply steady_db_call. eapply atomic_write_returns. apply save_market_snapshot_atomic.
Qed.

#[local] Hint Resolve steady_db_statistics steady_db_save_signal
  steady_db_save_market_snapshot : steady.

(** One step of a run: the first computation of a sequence returns. *)
Ltac run_step :=
  lazymatch goal with
  | |- context [bind (gets ?f) ?k ?s0] =>
      rewrite (bind_returns (gets f) k s0 s0 (f s0)) by reflexivity
  | |- context [bind (modify ?f) ?k ?s0] =>
      rewrite (bind_returns (modify f) k s0 (f s0) tt) by reflexivity
  | |- context [bind ?c ?k ?s0] =>
      let H := fresh "Hsteady" in
      let Hrun := fresh "Hrun" in
      let Hh := fresh "Hh" in
      assert (H : steady c) by (repeat steady_step);
      destruct (H s0) as (? & ? & Hrun & Hh);
      rewrite (bind_returns _ _ _ _ _ Hrun); clear H Hrun
  end.

Lemma index_answers (s : Sys G) :
  exists signal hist md news hours stats s',
    index s = (Ok (Dashboard signal hist md news hours stats), s') /\
    history s' = append_history (history s) signal.
Proof.
  unfold index, start_background_thread, push_history.
  do 13 run_step.
  eexists _, _, _, _, _, _, _. split; [reflexivity |].
  cbn [history set_history] in *. congruence.
Qed.

Lemma persist_signal_answers (signal : SignalDict.t) (s : Sys G) :
  exists signal' s',
    persist_signal signal s = (Ok signal', s') /\
    ((signal' = signal /\ history s' = history s) \/
     (exists i, signal' = SignalDict.with_id i signal /\
                history s' = update_last (SignalDict.with_id i) (history s))).
Proof.
  unfold persist_signal, try_except.
  destruct (steady_db_save_signal (signal_data_of signal) s) as (r & s1 & Hrun & Hh).
  rewrite (bind_returns _ _ _ _ _ Hrun).
  destruct r as [i |].
  - cbn. eexists _, _. split; [reflexivity |]. right. exists i.
    split; [reflexivity |]. rewrite Hh. reflexivity.
  - cbn. eexists _, _. split; [reflexivity |]. left. split; [reflexivity | exact Hh].
Qed.

Lemma new_signal_answers (s : Sys G) :
  exists signal s',
    new_signal s = (Ok (SignalJson signal), s') /\
    history s' = append_history (history s) signal.
Proof.
  unfold new_signal, push_history.
  do 4 run_step.
  match goal with
  | |- context [bind (persist_signal ?sig) ?k ?s0] =>
      destruct (persist_signal_answers sig s0) as (sig' & s5 & Hrun & Hcase);
      rewrite (bind_returns _ _ _ _ _ Hrun)
  end.
  do 2 run_step.
  eexists _, _. split; [reflexivity |].
  cbn [history set_history] in *.
  destruct Hcase as [[-> H5] | (i & -> & H5)].
  - congruence.
  - rewrite <- update_last_append_history. congruence.
Qed.


Lemma lastn_short {A : Type} (n : nat) (l : list A) :
  (List.length l <= n)%nat -> lastn n l = l.
Proof.
  intros H. unfold lastn. replace (List.length l - n)%nat with 0%nat by lia.
  reflexivity.
Qed.

Lemma lastn_length {A : Type} (n : nat) (l : list A) :
  (List.length (lastn n l) <= n)%nat.
Proof. unfold lastn. rewrite length_skipn. lia. Qed.

Lemma skipn_succ_tl {A : Type} (k : nat) (l : list A) :
  skipn (S k) l = tl (skipn k l).
Proof.
  revert l. induction k as [| k IH]; intros l.
  - destruct l; reflexivity.
  - destruct l as [| y l]; [reflexivity |]. apply (IH l).
Qed.

(** Appending to the last ten entries gives the last ten entries. *)
Lemma append_history_lastn {A : Type} (all : list A) (x : A) :
  append_history (lastn 10 all) x = lastn 10 (all ++ [x]).
Proof.
  unfold append_history, lastn, count.
  rewrite !length_app, length_skipn. simpl List.length.
  destruct (Nat.le_gt_cases 10 (List.length all)) as [Hfull | Hshort].
  - replace (10 <? Z.of_nat (List.length all - (List.length all - 10) + 1)) with true
      by (symmetry; apply Z.ltb_lt; lia).
    replace (List.length all + 1 - 10)%nat with (S (List.length all - 10)) by lia.
    rewrite skipn_succ_tl, skipn_app.
    replace (List.length all - 10 - List.length all)%nat with 0%nat by lia.
    reflexivity.
  - replace (10 <? Z.of_nat (List.length all - (List.length all - 10) + 1)) with false
      by (symmetry; apply Z.ltb_ge; lia).
    replace (List.length all - 10)%nat with 0%nat by lia.
    replace (List.length all + 1 - 10)%nat with 0%nat by lia.
    reflexivity.
Qed.

Lemma fold_append_history {A : Type} (signals all : list A) :
  fold_left append_history signals (lastn 10 all) = lastn 10 (all ++ signals).
Proof.
  revert all. induction signals as [| x signals IH]; intros all; simpl.
  - rewrite app_nil_r. reflexivity.
  - rewrite append_history_lastn, IH, <- app_assoc. reflexivity.
Qed.

(** When the buffer is full, the oldest entry leaves and the order of the
    others is kept. *)
Lemma append_history_full {A : Type} (h : list A) (x : A) :
  List.length h = 10%nat -> append_history h x = tl h ++ [x].
Proof.
  intros H. unfold append_history, count. rewrite length_app, H. simpl.
  destruct h; [discriminate | reflexivity].
Qed.

Lemma append_history_room {A : Type} (h : list A) (x : A) :
  (List.length h < 10)%nat -> append_history h x = h ++ [x].
Proof.
  intros H. unfold append_history, count. rewrite length_app. simpl List.length.
  replace (10 <? Z.of_nat (List.length h + 1)) with false
    by (symmetry; apply Z.ltb_ge; lia).
  reflexivity.
Qed.

Lemma serve_history (e : event) (s : Sys G) :
  history (snd (serve e s))
    = fold_left append_history (answered_signals [fst (serve e s)]) (history s).
Proof.
  unfold serve. destruct e; cbn [handler].
  - destruct (index_answers s) as (sig & h & md & n & th & st & s' & Hrun & Hh).
    rewrite Hrun. exact Hh.
  - destruct (new_signal_answers s) as (sig & s' & Hrun & Hh). rewrite Hrun. exact Hh.
  - destruct (get_market_data_answers s) as (a & s' & Hrun & Hh & Hnone).
    rewrite Hrun. cbn [fst snd]. rewrite Hnone. exact Hh.
  - destruct (get_economic_news_answers s) as (a & s' & Hrun & Hh & Hnone).
    rewrite Hrun. cbn [fst snd]. rewrite Hnone. exact Hh.
  - destruct (update_settings_answers body s) as (a & s' & Hrun & Hh & Hnone).
    rewrite Hrun. cbn [fst snd]. rewrite Hnone. exact Hh.
  - destruct (background_data_updater_runs s) as (u & s' & Hrun & Hh).
    rewrite (bind_returns _ _ _ _ _ Hrun). exact Hh.
  - reflexivity.
Qed.

Lemma answered_signals_cons (a : response) (answers : list response) :
  answered_signals (a :: answers) = answered_signals [a] ++ answered_signals answers.
Proof. unfold answered_signals. simpl. rewrite app_nil_r. reflexivity. Qed.

Lemma run_history (events : list event) (s : Sys G) :
  history (snd (run events s))
    = fold_left append_history (answered_signals (fst (run events s))) (history s).
Proof.
  revert s. induction events as [| e events IH]; intros s; simpl.
  - reflexivity.
  - pose proof (serve_history e s) as Hs.
    destruct (serve e s) as [a s1]. specialize (IH s1).
    destruct (run events s1) as [answers s2]. cbn [fst snd] in *.
    rewrite answered_signals_cons, fold_left_app, <- Hs. exact IH.
Qed.

(** C6: the in-memory signal history is a ring buffer of capacity 10:
    after every operation that appends a signal (the dashboard render and
    the new-signal synthesis) the history holds at most 10 entries, and
    when an append would exceed 10 the oldest entry is the one removed,
    the order of the others being kept.  After any sequence of events,
    from the start of the process, the history is the last ten of the
    signals answered so far, in the order they were answered; and an
    append to a full history drops its head and adds the signal at the
    end. *)
Theorem history_is_a_ring_buffer_of_ten (db : Db) (g : G) (c : Clock)
    (quotes : list quote) (faults : list bool) (events : list event) :
  (let (answers, s) := run events (startup db g c quotes faults) in
   (List.length (history s) <= 10)%nat /\
   history s = lastn 10 (answered_signals answers)) /\
  (forall (h : list SignalDict.t) (signal : SignalDict.t),
     List.length h = 10%nat -> append_history h signal = tl h ++ [signal]).
Proof.
  split; [| apply append_history_full].
  pose proof (run_history events (startup db g c quotes faults)) as H.
  destruct (run events (startup db g c quotes faults)) as [answers s].
  cbn [fst snd startup history] in H.
  change (@nil SignalDict.t) with (lastn 10 (@nil SignalDict.t)) in H.
  rewrite fold_append_history in H. simpl app in H.
  rewrite H. split; [apply lastn_length | reflexivity].
Qed.

(** ** The settings *)

(** C10: the settings update is not atomic on malformed input: whatever
    the trading window is, there is a request body (a valid [enabled]
    followed by a [start] that [int] refuses) for which the endpoint
    answers with the failure response and yet the window differs from its
    value before the call, [enabled] having been applied before the error
    was raised. *)
Theorem update_settings_not_atomic (s : Sys G) :
  exists body error s',
    update_settings (Some body) s = (Ok (FailureJson error), s') /\
    trading_hours s' <> trading_hours s.
Proof.
  exists (half_valid_settings (negb (TradingHours.enabled (trading_hours s)))).
  eexists _, _. split; [reflexivity |].
  cbn. intros H. apply (f_equal TradingHours.enabled) in H. cbn in H.
  destruct (TradingHours.enabled (trading_hours s)); discriminate.
Qed.

(** ** More about a signal *)

Lemma gate_probability_closed_range (p : Z) :
  0 <= p <= 100 -> 10 <= gate_probability false p <= 50.
Proof.
  intros Hp. unfold gate_probability. simpl.
  assert (p / 2 <= 50) by (apply Z.div_le_upper_bound; lia). lia.
Qed.

Lemma calculate_signal_strength_tiers (p : Z) (class color : string) :
  (class, color) = calculate_signal_strength p ->
  (75 <= p /\ class = "strong" /\ color = "success") \/
  (50 <= p < 75 /\ class = "moderate" /\ color = "warning") \/
  (p < 50 /\ class = "weak" /\ color = "danger").
Proof.
  unfold calculate_signal_strength.
  destruct (75 <=? p) eqn:H75; [| destruct (50 <=? p) eqn:H50];
    intros H; injection H as -> ->.
  - left. apply Z.leb_le in H75. auto.
  - right. left. apply Z.leb_le in H50. apply Z.leb_gt in H75. auto.
  - right. right. apply Z.leb_gt in H50. auto.
Qed.

(** X1: every signal carries a probability between 0 and 100 and the
    strength tier of that probability: "strong"/"success" from 75,
    "moderate"/"warning" from 50, "weak"/"danger" below.  The tier is taken
    after the halving, so a signal for which trading is not allowed has a
    probability between 10 and 50 and is never "strong". *)
Theorem signal_probability_and_strength (s : Sys G) :
  exists sig s',
    analyze_signal s = (Ok sig, s') /\
    0 <= SignalDict.probability sig <= 100 /\
    ((75 <= SignalDict.probability sig /\
      SignalDict.strength_class sig = "strong" /\
      SignalDict.strength_color sig = "success") \/
     (50 <= SignalDict.probability sig < 75 /\
      SignalDict.strength_class sig = "moderate" /\
      SignalDict.strength_color sig = "warning") \/
     (SignalDict.probability sig < 50 /\
      SignalDict.strength_class sig = "weak" /\
      SignalDict.strength_color sig = "danger")) /\
    (SignalDict.trading_allowed sig = false ->
     10 <= SignalDict.probability sig <= 50 /\
     SignalDict.strength_class sig <> "strong").
Proof.
  destruct (analyze_signal_returns s) as (sig & s' & Hrun & Hsyn & _).
  exists sig, s'. split; [exact Hrun |].
  pose proof (synthesis_probability_range _ _ _ Hsyn) as Hprob.
  destruct Hsyn as (_ & _ & _ & _ & _ & _ & _ & _ & (p & _ & Hp & Hgate) & _ & _ & _ & _
                    & Hstrength).
  pose proof (calculate_signal_strength_tiers _ _ _ Hstrength) as Htier.
  split; [exact Hprob |]. split; [exact Htier |].
  intros Hno. rewrite Hno in Hgate.
  pose proof (gate_probability_closed_range p Hp) as Hclosed.
  rewrite <- Hgate in Hclosed. split; [exact Hclosed |].
  destruct Htier as [(H75 & _) | [(_ & -> & _) | (_ & -> & _)]];
    [lia | discriminate | discriminate].
Qed.

Lemma dict_combine_keys_values {V : Type} (d : dict V) :
  d = combine (dict_keys d) (dict_values d).
Proof.
  induction d as [| [k v] d IH]; simpl; [reflexivity |]. f_equal. exact IH.
Qed.

(** A dictionary over the catalog, entry by entry. *)
Lemma catalog_dict_entries (d : dict Z) :
  dict_keys d = dict_keys INDICATORS ->
  Forall flag (dict_values d) ->
  exists v1 v2 v3 v4 v5 v6 v7 v8 v9 v10,
    d = combine (dict_keys INDICATORS) [v1; v2; v3; v4; v5; v6; v7; v8; v9; v10] /\
    Forall flag [v1; v2; v3; v4; v5; v6; v7; v8; v9; v10].
Proof.
  intros Hkeys Hflags.
  assert (Hlen : List.length (dict_values d) = 10%nat).
  { unfold dict_values. rewrite length_map.
    rewrite <- (length_map fst d). fold (dict_keys d). rewrite Hkeys. reflexivity. }
  rewrite (dict_combine_keys_values d), Hkeys.
  rewrite (dict_combine_keys_values d) in Hflags.
  destruct (dict_values d) as [| v1 [| v2 [| v3 [| v4 [| v5 [| v6 [| v7 [| v8 [| v9
    [| v10 [| v11 rest]]]]]]]]]]] eqn:Hvals; try discriminate Hlen.
  exists v1, v2, v3, v4, v5, v6, v7, v8, v9, v10.
  split; [reflexivity |].
  rewrite <- Hvals. rewrite (dict_combine_keys_values d), Hkeys, Hvals in Hflags.
  rewrite Hvals. exact Hflags.
Qed.

Ltac split_flags :=
  repeat match goal with
         | H : Forall flag (_ :: _) |- _ =>
             let Hv := fresh "Hv" in
             apply Forall_cons_iff in H; destruct H as [Hv H]
         | H : Forall flag [] |- _ => clear H
         end;
  unfold flag in *.

(** The tally under high-impact news: between 1 and 13 of its 17 entries
    are set. *)
Lemma news_probability_range (flags : dict Z) (p : Z) (allowed : bool) :
  dict_keys flags = dict_keys INDICATORS ->
  Forall flag (dict_values flags) ->
  weighted_probability (apply_news_impact true flags) tt = (Ok p, tt) ->
  5 <= p <= 76 /\ 5 <= gate_probability allowed p <= 76.
Proof.
  intros Hkeys Hflags Hp.
  destruct (catalog_dict_entries flags Hkeys Hflags)
    as (v1 & v2 & v3 & v4 & v5 & v6 & v7 & v8 & v9 & v10 & -> & Hvs).
  assert (Hp' : p = 100 * (v2 + v4 + v5 + v6 + v7 + v8 + v9 + v10 + 1
                           + 2 * v2 + 2 * v8) / 17).
  { destruct (weighted_probability_returns
                (apply_news_impact true
                   (combine (dict_keys INDICATORS)
                      [v1; v2; v3; v4; v5; v6; v7; v8; v9; v10]))
                tt 0 v2 v8 eq_refl eq_refl eq_refl) as (p' & Hp'run & Hp'eq & _).
    - cbn. split_flags.
      repeat (apply Forall_cons; [first [assumption | left; reflexivity
                                        | right; reflexivity] |]).
      apply Forall_nil.
    - assert (E : p' = p) by congruence. rewrite E in Hp'eq. rewrite Hp'eq.
      cbn [apply_news_impact dict_keys INDICATORS map fst combine dict_set
             String.eqb Ascii.eqb Bool.eqb dict_values snd sum_list fold_right
             count List.length].
      f_equal. lia. }
  split_flags.
  assert (H5 : 5 <= p).
  { rewrite Hp'. apply Z.div_le_lower_bound; lia. }
  assert (H76 : p <= 76).
  { rewrite Hp'. apply Z.lt_succ_r. apply Z.div_lt_upper_bound; lia. }
  split; [lia |]. unfold gate_probability.
  destruct allowed; simpl; [lia |].
  assert (p / 2 <= 38) by (apply Z.div_le_upper_bound; lia). lia.
Qed.

(** X2: under high-impact news the signal's strategies are the ten catalog
    entries followed by "News Spike", with "News Spike" at 1 and
    "EMA Crossover" and "RSI Divergence" at 0 whatever was drawn, and its
    probability lies between 5 and 76; without such news the strategies
    are exactly the ten catalog entries. *)
Theorem news_spike_overrides_pattern_indicators (s : Sys G) :
  exists sig s',
    analyze_signal s = (Ok sig, s') /\
    (SignalDict.has_high_impact_news sig = true ->
     dict_keys (SignalDict.strategies sig) = dict_keys INDICATORS ++ ["News Spike"] /\
     dict_get "News Spike" (SignalDict.strategies sig) = Some 1 /\
     dict_get "EMA Crossover" (SignalDict.strategies sig) = Some 0 /\
     dict_get "RSI Divergence" (SignalDict.strategies sig) = Some 0 /\
     5 <= SignalDict.probability sig <= 76) /\
    (SignalDict.has_high_impact_news sig = false ->
     dict_keys (SignalDict.strategies sig) = dict_keys INDICATORS).
Proof.
  destruct (analyze_signal_returns s) as (sig & s' & Hrun & Hsyn & _).
  exists sig, s'. split; [exact Hrun |].
  destruct Hsyn as (_ & Hnews & _ & _ & _ & _ & _ & (flags & Hkeys & Hflags & _ & Hstr)
                    & (p & Hp & Hrange & Hgate) & _).
  rewrite Hnews. rewrite Hstr in *.
  split.
  - intros Hhi. rewrite Hhi in *.
    destruct (news_probability_range flags p (SignalDict.trading_allowed sig)
                Hkeys Hflags Hp) as [_ Hgated].
    rewrite <- Hgate in Hgated.
    destruct (catalog_dict_entries flags Hkeys Hflags)
      as (v1 & v2 & v3 & v4 & v5 & v6 & v7 & v8 & v9 & v10 & -> & Hvs).
    split; [reflexivity |]. split; [reflexivity |].
    split; [reflexivity |]. split; [reflexivity |]. exact Hgated.
  - intros Hhi. rewrite Hhi. exact Hkeys.
Qed.

Lemma signal_duration_below_cap (base probability : Z) (high_impact : bool) :
  5 <= base <= 15 -> 0 <= probability <= 100 ->
  signal_duration base probability high_impact <= 30 /\
  (high_impact = true -> probability <= 76 ->
   signal_duration base probability high_impact <= 11).
Proof.
  intros Hbase Hprob.
  assert (Hall : forallb (fun b =>
            forallb (fun p =>
              (signal_duration b p false <=? 30)
              && (signal_duration b p true <=? 30)
              && ((76 <? p) || (signal_duration b p true <=? 11)))
              (Zrange 0 100)) (Zrange 5 15) = true) by (vm_compute; reflexivity).
  rewrite forallb_forall in Hall.
  specialize (Hall base (Zrange_In 5 15 base Hbase)). rewrite forallb_forall in Hall.
  specialize (Hall probability (Zrange_In 0 100 probability Hprob)).
  apply andb_true_iff in Hall. destruct Hall as [Hall H11].
  apply andb_true_iff in Hall. destruct Hall as [Hf Ht].
  apply Z.leb_le in Hf, Ht. split.
  - destruct high_impact; assumption.
  - intros -> H76. apply orb_true_iff in H11. destruct H11 as [H | H].
    + apply Z.ltb_lt in H. lia.
    + apply Z.leb_le in H. exact H.
Qed.

(** X3: the duration of a signal lies between 5 and 30 minutes, so the cap
    of 45 is never reached; under high-impact news it is at most 11
    minutes. *)
Theorem signal_duration_stays_below_cap (s : Sys G) :
  exists sig s',
    analyze_signal s = (Ok sig, s') /\
    5 <= SignalDict.duration sig <= 30 /\
    (SignalDict.has_high_impact_news sig = true -> SignalDict.duration sig <= 11).
Proof.
  destruct (analyze_signal_returns s) as (sig & s' & Hrun & Hsyn & _).
  exists sig, s'. split; [exact Hrun |].
  pose proof (synthesis_probability_range _ _ _ Hsyn) as Hprob.
  destruct (synthesis_bounds _ _ _ Hsyn) as (Hdur & _).
  destruct Hsyn as (_ & Hnews & _ & _ & _ & _ & _ & (flags & Hkeys & Hflags & _ & Hstr)
                    & (p & Hp & Hrange & Hgate) & (base & Hbase & Hduration) & _).
  destruct (signal_duration_below_cap base (SignalDict.probability sig)
              (EconomicNews.high_impact (economic_news s)) Hbase Hprob) as [H30 H11].
  rewrite <- Hduration in H30, H11. split; [lia |].
  intros Hhi. rewrite Hnews in Hhi. apply H11; [exact Hhi |].
  rewrite Hstr, Hhi in Hp.
  destruct (news_probability_range flags p (SignalDict.trading_allowed sig)
              Hkeys Hflags Hp) as [_ Hgated].
  rewrite <- Hgate in Hgated. lia.
Qed.

(** X4: the pip target of a signal lies between 5 and 25. *)
Theorem signal_pips_target_range (s : Sys G) :
  exists sig s',
    analyze_signal s = (Ok sig, s') /\
    5 <= SignalDict.pips_target sig <= 25.
Proof.
  destruct (analyze_signal_returns s) as (sig & s' & Hrun & Hsyn & _).
  exists sig, s'. split; [exact Hrun |].
  pose proof (synthesis_probability_range _ _ _ Hsyn) as Hprob.
  destruct Hsyn as (_ & _ & _ & _ & _ & _ & _ & _ & _ & _ & _
                    & (extra & Hextra & Hpips) & _).
  rewrite Hpips, py_int_tenth by lia.
  assert (0 <= SignalDict.probability sig / 10) by (apply Z.div_pos; lia).
  assert (SignalDict.probability sig / 10 <= 10) by (apply Z.div_le_upper_bound; lia).
  lia.
Qed.

Lemma py_round5_between (a b : Z) (x : Q) :
  (inject_Z a / 100000 <= x)%Q -> (x <= inject_Z b / 100000)%Q ->
  (inject_Z a / 100000 <= py_round x 5 /\ py_round x 5 <= inject_Z b / 100000)%Q.
Proof.
  intros Ha Hb. unfold py_round. rewrite Qred_correct.
  change (inject_Z (10 ^ Z.of_nat 5)) with (100000 # 1)%Q.
  unfold Qdiv in *. change (/ 100000)%Q with (1 # 100000)%Q in *.
  change (/ (100000 # 1))%Q with (1 # 100000)%Q.
  assert (H1 : (inject_Z a <= x * (100000 # 1))%Q) by lra.
  assert (H2 : (x * (100000 # 1) <= inject_Z b)%Q) by lra.
  destruct (round_half_even_between a b _ H1 H2) as [R1 R2].
  apply inject_Z_le in R1. apply inject_Z_le in R2.
  split; lra.
Qed.

(** What the reference price of a signal is. *)
Lemma entry_reference_value (md : MarketData.t) (s : Sys G) :
  exists price s1,
    entry_reference md s = (Ok price, s1) /\
    keeps_but_random s s1 /\
    (if Qeq_bool (MarketData.current_price md) 0
     then (107 # 100 <= price /\ price <= 108 # 100)%Q
     else price = MarketData.current_price md).
Proof.
  unfold entry_reference.
  destruct (Qeq_bool (MarketData.current_price md) 0).
  - destruct (random_random_returns s) as (r & g & Hr & Hr0 & Hr1).
    rewrite (bind_returns _ _ _ _ _ Hr). eexists _, _. split; [reflexivity |].
    split; [apply keeps_but_random_set |].
    destruct (py_round5_between 107000 108000 ((107 # 100) + r * (1 # 100))) as [H1 H2].
    + unfold Qdiv. change (/ 100000)%Q with (1 # 100000)%Q.
      change (inject_Z 107000) with (107000 # 1)%Q. lra.
    + unfold Qdiv. change (/ 100000)%Q with (1 # 100000)%Q.
      change (inject_Z 108000) with (108000 # 1)%Q. lra.
    + unfold Qdiv in H1, H2. change (/ 100000)%Q with (1 # 100000)%Q in H1, H2.
      change (inject_Z 107000) with (107000 # 1)%Q in H1.
      change (inject_Z 108000) with (108000 # 1)%Q in H2.
      split; lra.
  - eexists _, _. split; [reflexivity |]. split; [apply keeps_but_random_refl |].
    reflexivity.
Qed.

Lemma analyze_signal_reference_price (s : Sys G) :
  exists sig s',
    analyze_signal s = (Ok sig, s') /\
    SignalDict.entry_price sig = SignalDict.current_price sig /\
    (if Qeq_bool (MarketData.current_price (market_data s')) 0
     then (107 # 100 <= SignalDict.current_price sig /\
           SignalDict.current_price sig <= 108 # 100)%Q
     else SignalDict.current_price sig = MarketData.current_price (market_data s')).
Proof.
  unfold analyze_signal.
  rewrite (bind_returns _ _ s s (market_data s)) by reflexivity.
  match goal with
  | |- context [bind (if ?b then fetch_market_data else ret tt) ?k s] =>
      assert (Hfetch : exists s1,
                (if b then fetch_market_data else ret tt) s = (Ok tt, s1))
  end.
  { destruct (_ || _).
    - destruct (fetch_market_data_returns s) as (s1 & H1 & _). eauto.
    - eexists. reflexivity. }
  destruct Hfetch as (s1 & H1).
  rewrite (bind_returns _ _ _ _ _ H1).
  rewrite (bind_returns _ _ _ _ _ (is_trading_allowed_returns s1)).
  destruct (detect_strategies_returns s1) as (d & g2 & H2 & Hkeys & Hflags & _).
  rewrite (bind_returns _ _ _ _ _ H2).
  rewrite (bind_returns _ _ (set_random g2 s1) (set_random g2 s1)
             (EconomicNews.high_impact (economic_news s1))) by reflexivity.
  destruct (apply_news_impact_flags (EconomicNews.high_impact (economic_news s1)) d
              Hkeys Hflags)
    as (Hfl' & (ema & Hema) & (macd & Hmacd) & Hvol_eq & (vol & Hvol)).
  rewrite <- Hvol_eq in Hvol.
  destruct (weighted_probability_returns _ (set_random g2 s1) _ _ _ Hema Hmacd Hvol Hfl')
    as (p & Hp & _).
  rewrite (bind_returns _ _ _ _ _ Hp).
  rewrite (bind_returns _ _ (set_random g2 s1) (set_random g2 s1) (market_data s1))
    by reflexivity.
  destruct (choose_direction_returns (market_data s1) (set_random g2 s1))
    as (dir & g3 & H3).
  rewrite (bind_returns _ _ _ _ _ H3).
  destruct (random_randint_returns 5 15 (set_random g3 (set_random g2 s1)) ltac:(lia))
    as (base & g4 & H4 & _).
  rewrite (bind_returns _ _ _ _ _ H4).
  destruct (entry_reference_value (market_data s1)
              (set_random g4 (set_random g3 (set_random g2 s1))))
    as (price & s5 & H5 & K5 & Hprice).
  rewrite (bind_returns _ _ _ _ _ H5).
  destruct (random_randint_returns 5 15 s5 ltac:(lia)) as (extra & g6 & H6 & _).
  rewrite (bind_returns _ _ _ _ _ H6).
  destruct (price_levels dir price _ _) as [[entry target] stop] eqn:Hlevels.
  destruct (calculate_signal_strength _) as [class color].
  rewrite (bind_returns _ _ (set_random g6 s5) (set_random g6 s5) (now (clock s5)))
    by reflexivity.
  eexists _, _. split; [reflexivity |].
  cbn [SignalDict.entry_price SignalDict.current_price market_data set_random].
  destruct K5 as (_ & Km & _). cbn [market_data set_random] in Km. rewrite Km.
  split; [| exact Hprice].
  unfold price_levels in Hlevels. destruct dir; congruence.
Qed.

(** X5: the entry price of a signal is its reference price, and it is never
    zero: the market price when there is one, otherwise a placeholder
    between 1.07 and 1.08. *)
Theorem signal_entry_price_is_never_zero (s : Sys G) :
  exists sig s',
    analyze_signal s = (Ok sig, s') /\
    SignalDict.entry_price sig = SignalDict.current_price sig /\
    ~ (SignalDict.entry_price sig == 0)%Q /\
    (~ (MarketData.current_price (market_data s') == 0)%Q ->
     SignalDict.entry_price sig = MarketData.current_price (market_data s')) /\
    ((MarketData.current_price (market_data s') == 0)%Q ->
     (107 # 100 <= SignalDict.entry_price sig /\
      SignalDict.entry_price sig <= 108 # 100)%Q).
Proof.
  destruct (analyze_signal_reference_price s) as (sig & s' & Hrun & Hentry & Hprice).
  exists sig, s'. split; [exact Hrun |]. split; [exact Hentry |].
  rewrite Hentry.
  destruct (Qeq_bool (MarketData.current_price (market_data s')) 0) eqn:Hzero.
  - apply Qeq_bool_iff in Hzero. split; [| split].
    + intros E. rewrite E in Hprice. lra.
    + intros Hne. contradiction.
    + intros _. exact Hprice.
  - apply Qeq_bool_neq in Hzero. split; [| split].
    + rewrite Hprice. exact Hzero.
    + intros _. exact Hprice.
    + intros E. contradiction.
Qed.




(** ** Refreshing the market data and the news *)



Lemma hours_ago_recent (h : Z) : 1 <= h -> (h * 3600 <? 7200) = (h =? 1).
Proof.
  intros Hh. destruct (Z.eqb_spec h 1) as [-> | Hne].
  - reflexivity.
  - apply Z.ltb_ge. lia.
Qed.

(** X8: a refresh of the news never raises and stores three items, stamped
    with the time of the call: the ECB decision 1 to 8 hours old, the
    payrolls 2 to 12 hours old, the PMI 4 to 24 hours old and of medium
    impact.  The high-impact flag is raised exactly when the ECB item is
    of high impact and one hour old; the payrolls never raise it. *)
Theorem only_the_ecb_item_raises_high_impact (s : Sys G) :
  exists s1 ecb nfp pmi,
    fetch_economic_news s = (Ok tt, s1) /\
    market_data s1 = market_data s /\
    keeps_rest (set_economic_news (economic_news s1) s) s1 /\
    EconomicNews.latest (economic_news s1) = [ecb; nfp; pmi] /\
    EconomicNews.last_update (economic_news s1) = Some (now (clock s)) /\
    now (clock s) - 8 * 3600 <= NewsItem.time ecb <= now (clock s) - 3600 /\
    now (clock s) - 12 * 3600 <= NewsItem.time nfp <= now (clock s) - 2 * 3600 /\
    now (clock s) - 24 * 3600 <= NewsItem.time pmi <= now (clock s) - 4 * 3600 /\
    NewsItem.impact_level pmi = medium /\
    (EconomicNews.high_impact (economic_news s1) = true <->
     NewsItem.impact_level ecb = high /\ NewsItem.time ecb = now (clock s) - 3600).
Proof.
  unfold fetch_economic_news.
  rewrite (bind_returns _ _ s s (now (clock s))) by reflexivity.
  destruct (random_randint_returns 1 8 s ltac:(lia)) as (h1 & g1 & H1 & Hh1).
  rewrite (bind_returns _ _ _ _ _ H1).
  destruct (random_random_returns (set_random g1 s)) as (r1 & g2 & H2 & _).
  rewrite (bind_returns _ _ _ _ _ H2).
  destruct (random_randint_returns 2 12 (set_random g2 (set_random g1 s)) ltac:(lia))
    as (h2 & g3 & H3 & Hh2).
  rewrite (bind_returns _ _ _ _ _ H3).
  destruct (random_random_returns (set_random g3 (set_random g2 (set_random g1 s))))
    as (r2 & g4 & H4 & _).
  rewrite (bind_returns _ _ _ _ _ H4).
  destruct (random_randint_returns 4 24
              (set_random g4 (set_random g3 (set_random g2 (set_random g1 s))))
              ltac:(lia)) as (h3 & g5 & H5 & Hh3).
  rewrite (bind_returns _ _ _ _ _ H5).
  eexists _, _, _, _. split; [reflexivity |].
  cbn [market_data economic_news set_economic_news set_random EconomicNews.latest
         EconomicNews.last_update EconomicNews.high_impact NewsItem.time
         NewsItem.impact_level existsb].
  split; [reflexivity |]. split; [repeat split |]. split; [reflexivity |].
  split; [reflexivity |].
  cbn [NewsItem.time NewsItem.impact_level].
  split; [lia |]. split; [lia |]. split; [lia |]. split; [reflexivity |].
  replace (now (clock s) - (now (clock s) - h1 * 3600)) with (h1 * 3600) by lia.
  replace (now (clock s) - (now (clock s) - h2 * 3600)) with (h2 * 3600) by lia.
  replace (now (clock s) - (now (clock s) - h3 * 3600)) with (h3 * 3600) by lia.
  rewrite (hours_ago_recent h1) by lia.
  assert (E2 : (h2 * 3600 <? 7200) = false) by (apply Z.ltb_ge; lia).
  rewrite E2. rewrite !andb_false_r. cbn [impact_eqb andb orb].
  rewrite !orb_false_r.
  destruct (Qlt_bool (7 # 10) r1); cbn [impact_eqb andb].
  - destruct (Z.eqb_spec h1 1) as [-> | Hne].
    + split; [intros _; split; reflexivity | reflexivity].
    + split; [discriminate |]. intros [_ E]. exfalso. apply Hne. lia.
  - split; [discriminate |]. intros [E _]. discriminate E.
Qed.

(** X9: the window does not wrap around midnight.  With the filter enabled
    and [start] not below [end] (22 to 6, say), trading is allowed at no
    hour: every signal is marked as not allowed and its probability is
    between 10 and 50. *)
Theorem overnight_window_never_allows_trading (s : Sys G) :
  TradingHours.enabled (trading_hours s) = true ->
  TradingHours.end_ (trading_hours s) <= TradingHours.start (trading_hours s) ->
  is_trading_allowed s = (Ok false, s) /\
  exists sig s',
    analyze_signal s = (Ok sig, s') /\
    SignalDict.trading_allowed sig = false /\
    10 <= SignalDict.probability sig <= 50.
Proof.
  intros Hen Hwin.
  assert (Hgate : window_allows (trading_hours s) (hour (utcnow (clock s)))
                    (EconomicNews.high_impact (economic_news s)) = false).
  { unfold window_allows. rewrite Hen. cbn [negb orb].
    destruct (Z.leb_spec (TradingHours.start (trading_hours s)) (hour (utcnow (clock s))));
      [| reflexivity].
    destruct (Z.ltb_spec (hour (utcnow (clock s))) (TradingHours.end_ (trading_hours s)));
      [lia | reflexivity]. }
  split.
  - rewrite is_trading_allowed_returns, Hgate. reflexivity.
  - destruct (analyze_signal_returns s) as (sig & s' & Hrun & Hsyn & _).
    exists sig, s'. split; [exact Hrun |].
    destruct Hsyn as (Hallowed & _ & _ & _ & _ & _ & _ & _ & (p & _ & Hp & Hprob) & _).
    rewrite Hgate in Hallowed. split; [exact Hallowed |].
    rewrite Hprob, Hallowed. unfold gate_probability. cbn [negb].
    assert (0 <= p / 2 <= 50) by (split; [apply Z.div_pos; lia | apply Z.div_le_upper_bound; lia]).
    lia.
Qed.


(** ** More about the settings *)

Lemma set_trading_hours_eta (s : Sys G) : set_trading_hours (trading_hours s) s = s.
Proof. destruct s. reflexivity. Qed.

Lemma py_int_of_cases (v : json) (s : Sys G) :
  (exists n, py_int_of v s = (Ok n, s)) \/
  py_int_of v s = (Raise TypeError, s) \/
  py_int_of v s = (Raise ValueError, s).
Proof.
  destruct v as [| b | n | x | str | items | members]; cbn;
    try destruct (int_of_string str); unfold ret, raise; eauto.
Qed.

(** What the [try] block of [update_settings] can do: it changes the
    trading hours and nothing else, and it raises nothing but the refusal
    of the body or of a value by [int]. *)
Lemma merge_settings_frame (body : option json) (s : Sys G) :
  exists r s',
    merge_settings body s = (r, s') /\
    s' = set_trading_hours (trading_hours s') s /\
    match r with
    | Ok _ => True
    | Raise e => e = BadRequest \/ e = TypeError \/ e = ValueError
    end.
Proof.
  assert (Hstay : forall r : result unit,
            match r with Ok _ => True | Raise e => e = BadRequest \/ e = TypeError \/ e = ValueError end ->
            exists r0 s', (r, s) = (r0, s') /\
              s' = set_trading_hours (trading_hours s') s /\
              match r0 with Ok _ => True | Raise e => e = BadRequest \/ e = TypeError \/ e = ValueError end).
  { intros r Hr. exists r, s. split; [reflexivity |].
    split; [symmetry; apply set_trading_hours_eta | exact Hr]. }
  unfold merge_settings, get_json.
  destruct body as [data |]; [| apply Hstay; left; reflexivity].
  rewrite (bind_returns _ _ s s data) by reflexivity.
  destruct (as_dict data) as [members |]; [| apply Hstay; exact I].
  destruct (dict_get "trading_hours" members) as [hours |]; [| apply Hstay; exact I].
  destruct (as_dict hours) as [fields |]; [| apply Hstay; exact I].
  assert (H1 : exists s1,
            (match dict_get "enabled" fields with
             | Some v => modify (set_enabled (py_bool v))
             | None => ret tt
             end) s = (Ok tt, s1) /\ s1 = set_trading_hours (trading_hours s1) s).
  { destruct (dict_get "enabled" fields) as [v |].
    - eexists. split; [reflexivity |]. reflexivity.
    - eexists. split; [reflexivity |]. symmetry. apply set_trading_hours_eta. }
  destruct H1 as (s1 & H1 & E1). rewrite (bind_returns _ _ _ _ _ H1).
  assert (H2 : exists r s2,
            (match dict_get "start" fields with
             | Some v => n <- py_int_of v ;; modify (set_start n)
             | None => ret tt
             end) s1 = (r, s2) /\ s2 = set_trading_hours (trading_hours s2) s /\
            match r with
            | Ok _ => True
            | Raise e => e = BadRequest \/ e = TypeError \/ e = ValueError
            end).
  { destruct (dict_get "start" fields) as [v |].
    - destruct (py_int_of_cases v s1) as [(n & Hn) | [Hn | Hn]];
        unfold bind; rewrite Hn; eexists _, _; (split; [reflexivity |]).
      + split; [| exact I]. rewrite E1. reflexivity.
      + split; [exact E1 | auto].
      + split; [exact E1 | auto].
    - eexists _, _. split; [reflexivity |]. split; [exact E1 | exact I]. }
  destruct H2 as (r2 & s2 & H2 & E2 & Hr2).
  destruct r2 as [[] | e2].
  - rewrite (bind_returns _ _ _ _ _ H2).
    destruct (dict_get "end" fields) as [v |].
    + destruct (py_int_of_cases v s2) as [(n & Hn) | [Hn | Hn]];
        unfold bind; rewrite Hn; eexists _, _; (split; [reflexivity |]).
      * split; [| exact I]. rewrite E2. reflexivity.
      * split; [exact E2 | auto].
      * split; [exact E2 | auto].
    + eexists _, _. split; [reflexivity |]. split; [exact E2 | exact I].
  - unfold bind at 1. rewrite H2. eexists _, _. split; [reflexivity |].
    split; [exact E2 | exact Hr2].
Qed.

Lemma update_settings_runs (body : option json) (s : Sys G) :
  exists answer s',
    update_settings body s = (Ok answer, s') /\
    s' = set_trading_hours (trading_hours s') s /\
    (answer = SettingsJson (trading_hours s') \/
     exists e, answer = FailureJson e /\
               (e = BadRequest \/ e = TypeError \/ e = ValueError)).
Proof.
  destruct (merge_settings_frame body s) as (r & s' & Hrun & Hframe & Hr).
  unfold update_settings, try_except, bind. cbv beta. rewrite Hrun.
  destruct r as [[] | e].
  - cbn. exists (SettingsJson (trading_hours s')), s'.
    split; [reflexivity |]. split; [exact Hframe | left; reflexivity].
  - cbn. exists (FailureJson e), s'.
    split; [reflexivity |]. split; [exact Hframe |]. right. exists e. auto.
Qed.


(** X11: the hours of a request are stored as they come.  The keys that
    are present replace the stored values, [enabled] by its truth value
    and integers for [start] and [end] unchanged, whatever they are: no
    range or order is checked.  The keys that are absent keep theirs. *)
Theorem settings_are_stored_without_validation (s : Sys G) (members hours : dict json)
    (enabled : option json) (start end_ : option Z) :
  dict_get "trading_hours" members = Some (JDict hours) ->
  dict_get "enabled" hours = enabled ->
  dict_get "start" hours = option_map JInt start ->
  dict_get "end" hours = option_map JInt end_ ->
  let stored :=
    {| TradingHours.start := get_or start (TradingHours.start (trading_hours s));
       TradingHours.end_ := get_or end_ (TradingHours.end_ (trading_hours s));
       TradingHours.enabled :=
         match enabled with
         | Some v => py_bool v
         | None => TradingHours.enabled (trading_hours s)
         end |} in
  update_settings (Some (JDict members)) s
    = (Ok (SettingsJson stored), set_trading_hours stored s).
Proof.
  intros Hhours Hen Hstart Hend stored. subst stored.
  unfold update_settings, try_except, merge_settings, get_json.
  cbn [as_dict]. unfold bind at 3. unfold ret at 1.
  cbn [as_dict]. rewrite Hhours. cbn [as_dict].
  rewrite Hen, Hstart, Hend.
  destruct s as [md news th hist started db g c feed faults].
  destruct th as [st en eb].
  destruct enabled as [v |], start as [a |], end_ as [b |]; reflexivity.
Qed.

(** X12: a body that carries no hours is ignored without a word: when it
    is no dictionary, has no [trading_hours] or has one that is no
    dictionary, the answer is a success with the settings as they were,
    and nothing changes.  A body that does not parse is answered with a
    failure, and nothing changes either. *)
Theorem update_settings_ignores_bodies_without_hours (s : Sys G) (data : json) :
  match as_dict data with
  | Some members =>
      match dict_get "trading_hours" members with
      | Some hours => as_dict hours = None
      | None => True
      end
  | None => True
  end ->
  update_settings (Some data) s = (Ok (SettingsJson (trading_hours s)), s) /\
  update_settings None s = (Ok (FailureJson BadRequest), s).
Proof.
  intros Hdata. split; [| reflexivity].
  unfold update_settings, try_except, merge_settings, get_json.
  unfold bind at 3. unfold ret at 1.
  destruct (as_dict data) as [members |]; [| reflexivity].
  destruct (dict_get "trading_hours" members) as [hours |]; [| reflexivity].
  rewrite Hdata. reflexivity.
Qed.


(** ** The handlers and the store *)

Lemma leaves_store_ret {A : Type} (a : A) : leaves_store (@ret (Sys G) A a).
Proof. intros s. exists a, s. repeat split. Qed.

Lemma leaves_store_gets {A : Type} (f : Sys G -> A) : leaves_store (gets f).
Proof. intros s. exists (f s), s. repeat split. Qed.

Lemma leaves_store_bind {A B : Type} (c : Py (Sys G) A) (k : A -> Py (Sys G) B) :
  leaves_store c -> (forall a, leaves_store (k a)) -> leaves_store (bind c k).
Proof.
  intros Hc Hk s. destruct (Hc s) as (a & s1 & Hrun & H1 & H2 & H3 & H4).
  destruct (Hk a s1) as (b & s2 & Hrun2 & K1 & K2 & K3 & K4).
  exists b, s2. rewrite (bind_returns _ _ _ _ _ Hrun).
  split; [exact Hrun2 |]. repeat split; congruence.
Qed.

Lemma leaves_store_if {A : Type} (b : bool) (c1 c2 : Py (Sys G) A) :
  leaves_store c1 -> leaves_store c2 -> leaves_store (if b then c1 else c2).
Proof. destruct b; auto. Qed.

Lemma leaves_store_modify (f : Sys G -> Sys G) :
  (forall s, database (f s) = database s /\ db_faults (f s) = db_faults s /\
             clock (f s) = clock s /\ trading_hours (f s) = trading_hours s) ->
  leaves_store (modify f).
Proof. intros Hf s. exists tt, (f s). split; [reflexivity | apply Hf]. Qed.

Lemma leaves_store_keeps_rest {A : Type} (c : Py (Sys G) A) :
  (forall s, exists a s', c s = (Ok a, s') /\ keeps_rest s s') -> leaves_store c.
Proof.
  intros Hc s. destruct (Hc s) as (a & s' & Hrun & _ & Hth & _ & _ & Hdb & Hclock & Hf).
  exists a, s'. repeat split; assumption.
Qed.

Lemma leaves_store_fetch_market_data : leaves_store fetch_market_data.
Proof. apply leaves_store_keeps_rest. intros s. exists tt. apply fetch_market_data_returns. Qed.

Lemma leaves_store_random_randint (a b : Z) : leaves_store (random_randint a b).
Proof.
  intros s. unfold random_randint. destruct (rand_randint a b (random s)) as [v g].
  eexists _, _. repeat split.
Qed.

Lemma leaves_store_random_random : leaves_store random_random.
Proof.
  intros s. unfold random_random. destruct (rand_random (random s)) as [v g].
  eexists _, _. repeat split.
Qed.

Create HintDb store discriminated.
#[local] Hint Resolve leaves_store_ret leaves_store_gets leaves_store_fetch_market_data
  leaves_store_random_randint leaves_store_random_random : store.

Ltac store_step :=
  match goal with
  | |- forall _, _ => intro
  | |- leaves_store (bind _ _) => apply leaves_store_bind
  | |- leaves_store (if _ then _ else _) => apply leaves_store_if
  | |- leaves_store (modify _) => apply leaves_store_modify; intros; repeat split
  | |- leaves_store _ => solve [auto with store]
  end.

Lemma leaves_store_fetch_economic_news : leaves_store fetch_economic_news.
Proof. unfold fetch_economic_news, datetime_now. repeat store_step. Qed.

Lemma leaves_store_analyze_signal : leaves_store analyze_signal.
Proof.
  apply leaves_store_keeps_rest. intros s.
  destruct (analyze_signal_returns s) as (sig & s' & Hrun & _ & Hrest & _).
  exists sig, s'. split; assumption.
Qed.

#[local] Hint Resolve leaves_store_fetch_economic_news leaves_store_analyze_signal : store.

(** One step of a run that tracks the store. *)
Ltac store_run :=
  lazymatch goal with
  | |- context [bind (gets ?f) ?k ?s0] =>
      rewrite (bind_returns (gets f) k s0 s0 (f s0)) by reflexivity
  | |- context [bind ?c ?k ?s0] =>
      let H := fresh "Hstore" in
      let Hrun := fresh "Hrun" in
      assert (H : leaves_store c) by (repeat store_step);
      destruct (H s0) as (? & ? & Hrun & ? & ? & ? & ?);
      rewrite (bind_returns _ _ _ _ _ Hrun); clear H Hrun
  end.

Lemma db_call_statistics (s : Sys G) :
  db_call get_signal_statistics s =
    (Ok (if hd false (db_faults s) then zero_statistics else statistics_of (database s)),
     set_db_faults (tl (db_faults s)) (set_database (database s) s)).
Proof. unfold db_call. rewrite get_signal_statistics_runs. reflexivity. Qed.

Lemma index_runs (s : Sys G) :
  exists signal hist md news hours stats s',
    index s = (Ok (Dashboard signal hist md news hours stats), s') /\
    database s' = database s /\
    SignalDict.id signal = None /\
    stats = (if hd false (db_faults s) then zero_statistics
             else statistics_of (database s)) /\
    hist = history s' /\ md = market_data s' /\ news = economic_news s' /\
    hours = trading_hours s /\ trading_hours s' = trading_hours s.
Proof.
  unfold index, start_background_thread, push_history.
  do 6 store_run.
  match goal with
  | |- context [bind analyze_signal ?k ?s0] =>
      destruct (analyze_signal_returns s0) as (sig & s4 & Hrun & Hsyn & Hrest & _);
      rewrite (bind_returns _ _ _ _ _ Hrun)
  end.
  destruct Hsyn as (_ & _ & _ & _ & _ & _ & Hid & _).
  destruct Hrest as (_ & Hth & _ & _ & Hdb & _ & Hfaults).
  rewrite (bind_returns _ _ s4 _ tt) by reflexivity.
  unfold try_except. unfold bind at 1. rewrite db_call_statistics.
  cbn [database db_faults set_history set_db_faults set_database].
  eexists _, _, _, _, _, _, _. split; [reflexivity |].
  cbn [database db_faults history market_data economic_news trading_hours
         set_history set_db_faults set_database].
  assert (Ef : db_faults s4 = db_faults s) by congruence.
  assert (Ed : database s4 = database s) by congruence.
  split; [exact Ed |]. split; [exact Hid |].
  rewrite Ef, Ed. repeat split; congruence.
Qed.

(** X20: the dashboard reads the store and never writes it.  The page
    always renders; the signal it shows is not saved and carries no id;
    the statistics are those of the store, or all zero when the engine
    fails; and the trading hours are as they were. *)
Theorem index_never_writes_the_store (s : Sys G) :
  exists signal hist md news hours stats s',
    index s = (Ok (Dashboard signal hist md news hours stats), s') /\
    database s' = database s /\
    SignalDict.id signal = None /\
    stats = (if hd false (db_faults s) then zero_statistics
             else statistics_of (database s)) /\
    hist = history s' /\ md = market_data s' /\ news = economic_news s' /\
    hours = trading_hours s /\ trading_hours s' = trading_hours s.
Proof. exact (index_runs s). Qed.

Lemma get_signal_api_runs (signal_id : Z) (s : Sys G) :
  get_signal_api signal_id s =
    (Ok (match fst (get_signal_by_id signal_id
                      (open_session (database s) (hd false (db_faults s))
                         (now (clock s)))) with
         | Ok (Some d) => (200, SignalFound d)
         | _ => (404, ApiError "Signal not found")
         end),
     set_db_faults (tl (db_faults s)) (set_database (database s) s)).
Proof.
  unfold get_signal_api, try_except, bind, db_call.
  rewrite get_signal_by_id_runs. cbn [fst committed open_session].
  destruct (hd false (db_faults s)); [reflexivity |].
  destruct (find (has_id signal_id) (signals (database s))) as [signal |];
    [| reflexivity].
  destruct (Signal_to_dict signal) as [[] | d]; reflexivity.
Qed.

(** X21: the endpoint of one signal always answers and never writes.  It
    answers 200 with the signal of the id that was asked for, or 404
    "Signal not found": a failure of the engine is answered as a missing
    signal, and the answer that reports an exception is never given. *)
Theorem get_signal_api_answers_found_or_404 (signal_id : Z) (s : Sys G) :
  exists status body s',
    get_signal_api signal_id s = (Ok (status, body), s') /\
    database s' = database s /\
    ((status = 404 /\ body = ApiError "Signal not found") \/
     (exists d, status = 200 /\ body = SignalFound d /\
                SignalRecord.id d = Some signal_id /\
                hd false (db_faults s) = false)) /\
    (hd false (db_faults s) = true \/
     ~ In (Some signal_id) (map Signal.id (signals (database s))) ->
     status = 404).
Proof.
  rewrite get_signal_api_runs. rewrite get_signal_by_id_runs. cbn [fst].
  destruct (hd false (db_faults s)) eqn:Hfault.
  - eexists _, _, _. split; [reflexivity |]. split; [reflexivity |].
    split; [left; split; reflexivity | reflexivity].
  - destruct (find (has_id signal_id) (signals (database s))) as [signal |] eqn:Hfind.
    + apply find_some in Hfind. destruct Hfind as [Hin Hhas]. unfold has_id in Hhas.
      destruct (Signal.id signal) as [j |] eqn:Hj; [| discriminate].
      apply Z.eqb_eq in Hhas. subst j.
      unfold Signal_to_dict. destruct (Signal.timestamp signal).
      * eexists _, _, _. split; [reflexivity |]. split; [reflexivity |]. split.
        -- right. eexists. repeat split. exact Hj.
        -- intros [Habs | Hnone]; [discriminate |]. exfalso. apply Hnone.
           rewrite <- Hj. apply in_map. exact Hin.
      * eexists _, _, _. split; [reflexivity |]. split; [reflexivity |].
        split; [left; split; reflexivity | reflexivity].
    + eexists _, _, _. split; [reflexivity |]. split; [reflexivity |].
      split; [left; split; reflexivity | reflexivity].
Qed.


Lemma catalog_keys_distinct :
  NoDup (dict_keys INDICATORS) /\ NoDup (dict_keys INDICATORS ++ ["News Spike"]).
Proof.
  split; cbn;
    repeat (apply NoDup_cons; [cbn; intuition discriminate |]); apply NoDup_nil.
Qed.

Lemma synthesis_strategies_distinct (s s' : Sys G) (sig : SignalDict.t) :
  synthesis s sig s' -> NoDup (dict_keys (SignalDict.strategies sig)).
Proof.
  intros (_ & _ & _ & _ & _ & _ & _ & (flags & Hkeys & Hflags & _ & Hstr) & _).
  rewrite Hstr.
  destruct (EconomicNews.high_impact (economic_news s)).
  - destruct (catalog_dict_entries flags Hkeys Hflags)
      as (v1 & v2 & v3 & v4 & v5 & v6 & v7 & v8 & v9 & v10 & -> & _).
    apply catalog_keys_distinct.
  - cbn [apply_news_impact]. rewrite Hkeys. apply catalog_keys_distinct.
Qed.

Lemma persist_signal_stores (signal : SignalDict.t) (s : Sys G) :
  NoDup (dict_keys (SignalDict.strategies signal)) ->
  exists signal' s',
    persist_signal signal s = (Ok signal', s') /\
    signal_results (database s') = signal_results (database s) /\
    trading_hours s' = trading_hours s /\
    db_faults s' = tl (db_faults s) /\
    if hd false (db_faults s)
    then signal' = signal /\ database s' = database s
    else exists i row,
        signal' = SignalDict.with_id i signal /\
        ~ In (Some i) (map Signal.id (signals (database s))) /\
        signals (database s') = signals (database s) ++ [row] /\
        Signal.id row = Some i /\
        Signal_to_dict row
          = inr (stored_record i (SignalDict.timestamp signal) (signal_data_of signal)).
Proof.
  intros Hkeys. unfold persist_signal, try_except, db_call. unfold bind at 1.
  destruct (save_signal_stores (signal_data_of signal) (database s)
              (hd false (db_faults s)) (now (clock s)) Hkeys)
    as (row & Hid & Hdict & Hrun).
  rewrite Hrun. change (has_required_keys (signal_data_of signal)) with true.
  rewrite andb_true_r.
  destruct (hd false (db_faults s)); cbn [negb].
  - eexists _, _. split; [reflexivity |]. split; [reflexivity |].
    split; [reflexivity |]. split; [reflexivity |]. split; reflexivity.
  - eexists _, _. split; [reflexivity |]. split; [reflexivity |].
    split; [reflexivity |]. split; [reflexivity |].
    eexists _, row. split; [reflexivity |]. split; [apply next_id_fresh |].
    split; [reflexivity |]. split; [exact Hid | exact Hdict].
Qed.

Lemma snapshot_keeps_signals (md : MarketData.t) (s : Sys G) :
  exists s',
    try_except (db_call (save_market_snapshot md) ;; ret tt) (fun _ => ret tt) s
      = (Ok tt, s') /\
    signals (database s') = signals (database s) /\
    signal_results (database s') = signal_results (database s) /\
    trading_hours s' = trading_hours s /\
    db_faults s' = tl (db_faults s).
Proof.
  unfold try_except, bind, db_call.
  pose proof (save_market_snapshot_atomic md (database s) (hd false (db_faults s))
                (now (clock s))) as Hw.
  destruct (save_market_snapshot md _) as [[[i |] | e] session].
  - destruct Hw as (_ & row & _ & _ & Hdb). eexists. split; [reflexivity |].
    cbn [database set_db_faults set_database]. rewrite Hdb. repeat split.
  - eexists. split; [reflexivity |].
    cbn [database set_db_faults set_database]. rewrite Hw. repeat split.
  - contradiction.
Qed.

Lemma new_signal_runs (s : Sys G) :
  exists signal s',
    new_signal s = (Ok (SignalJson signal), s') /\
    is_some (SignalDict.id signal) = negb (hd false (db_faults s)) /\
    match SignalDict.id signal with
    | Some i =>
        ~ In (Some i) (map Signal.id (signals (database s))) /\
        (exists row, signals (database s') = signals (database s) ++ [row]) /\
        forall later,
          fst (get_signal_by_id i (open_session (database s') false later))
            = Ok (Some (stored_record i (SignalDict.timestamp signal)
                          (signal_data_of signal)))
    | None => signals (database s') = signals (database s)
    end /\
    signal_results (database s') = signal_results (database s) /\
    trading_hours s' = trading_hours s /\
    db_faults s' = tl (tl (db_faults s)).
Proof.
  unfold new_signal, push_history.
  do 2 store_run.
  match goal with
  | |- context [bind analyze_signal ?k ?s0] =>
      destruct (analyze_signal_returns s0) as (sig & s3 & Hrun & Hsyn & Hrest & _);
      rewrite (bind_returns _ _ _ _ _ Hrun)
  end.
  pose proof (synthesis_strategies_distinct _ _ _ Hsyn) as Hkeys.
  destruct Hrest as (_ & Hth3 & _ & _ & Hdb & _ & Hfaults).
  rewrite (bind_returns _ _ s3 _ tt) by reflexivity.
  match goal with
  | |- context [bind (persist_signal sig) ?k ?s0] =>
      destruct (persist_signal_stores sig s0 Hkeys)
        as (sig' & s5 & Hrun5 & Hres5 & Hth5 & Hf5 & Hcase);
      rewrite (bind_returns _ _ _ _ _ Hrun5)
  end.
  rewrite (bind_returns _ _ s5 s5 (market_data s5)) by reflexivity.
  destruct (snapshot_keeps_signals (market_data s5) s5)
    as (s6 & Hrun6 & Hsig6 & Hres6 & Hth6 & Hf6).
  rewrite (bind_returns _ _ _ _ _ Hrun6).
  exists sig', s6. split; [reflexivity |].
  cbn [database db_faults trading_hours set_history] in Hcase, Hres5, Hth5, Hf5.
  assert (Ef : db_faults s3 = db_faults s) by congruence.
  assert (Ed : database s3 = database s) by congruence.
  assert (Eh : trading_hours s6 = trading_hours s) by congruence.
  assert (Ef6 : db_faults s6 = tl (tl (db_faults s))) by congruence.
  rewrite Ef, Ed in Hcase. rewrite Ed in Hres5.
  destruct (hd false (db_faults s)).
  - destruct Hcase as [-> Hdb5].
    destruct Hsyn as (_ & _ & _ & _ & _ & _ & Hid & _). rewrite Hid.
    split; [reflexivity |]. split; [congruence |]. split; [congruence |].
    split; [exact Eh | exact Ef6].
  - destruct Hcase as (i & row & -> & Hnew & Hsig5 & Hrow & Hdict).
    cbn [SignalDict.id SignalDict.with_id is_some negb].
    split; [reflexivity |]. split; [| split; [congruence | split; [exact Eh | exact Ef6]]].
    split; [exact Hnew |]. split; [exists row; congruence |]. intros later.
    rewrite get_signal_by_id_runs. cbn [fst]. rewrite Hsig6, Hsig5.
    rewrite (find_last_new i _ row Hnew Hrow). rewrite Hdict. reflexivity.
Qed.

(** X22: a new signal is answered whether it could be stored or not.  It
    carries an id exactly when the engine worked; the id is then a new one
    and [get_signal_by_id] reads the answered signal back under it from
    the store the request leaves.  Without an id no signal was added.  No
    result is ever touched. *)
Theorem new_signal_is_read_back_by_its_id (s : Sys G) :
  exists signal s',
    new_signal s = (Ok (SignalJson signal), s') /\
    is_some (SignalDict.id signal) = negb (hd false (db_faults s)) /\
    match SignalDict.id signal with
    | Some i =>
        ~ In (Some i) (map Signal.id (signals (database s))) /\
        forall later,
          fst (get_signal_by_id i (open_session (database s') false later))
            = Ok (Some (stored_record i (SignalDict.timestamp signal)
                          (signal_data_of signal)))
    | None => signals (database s') = signals (database s)
    end /\
    signal_results (database s') = signal_results (database s).
Proof.
  destruct (new_signal_runs s) as (signal & s' & Hrun & Hid & Hcase & Hres & _).
  exists signal, s'. split; [exact Hrun |]. split; [exact Hid |].
  split; [| exact Hres].
  destruct (SignalDict.id signal) as [i |]; [| exact Hcase].
  destruct Hcase as (Hnew & _ & Hread). split; assumption.
Qed.


(** ** Runs and the store *)

Lemma serve_store (e : event) (s : Sys G) :
  exists a s' added,
    serve e s = (a, s') /\
    signals (database s') = signals (database s) ++ added /\
    (List.length added <= if is_new_signal e then 1 else 0)%nat /\
    signal_results (database s') = signal_results (database s) /\
    (is_settings e = false -> trading_hours s' = trading_hours s) /\
    (forall err, a <> ServerError err).
Proof.
  assert (Hquiet : forall (c : Py (Sys G) response),
            leaves_store c ->
            (forall s0 a s1 err, c s0 = (Ok a, s1) -> a <> ServerError err) ->
            exists a s' added,
              (match c s with
               | (Ok answer, s') => (answer, s')
               | (Raise err, s') => (ServerError err, s')
               end) = (a, s') /\
              signals (database s') = signals (database s) ++ added /\
              (List.length added <= 0)%nat /\
              signal_results (database s') = signal_results (database s) /\
              trading_hours s' = trading_hours s /\
              (forall err, a <> ServerError err)).
  { intros c Hc Ha. destruct (Hc s) as (a & s' & Hrun & Hdb & _ & _ & Hth).
    exists a, s', []. rewrite Hrun. split; [reflexivity |].
    rewrite Hdb, app_nil_r. repeat split; try assumption; try (cbn; lia).
    intros err. apply (Ha s a s'). exact Hrun. }
  unfold serve. destruct e as [| | | | body | | c quotes faults]; cbn [handler].
  - destruct (index_runs s)
      as (sig & hist & md & news & hours & stats & s' & Hrun & Hdb & _ & _ & _ & _ & _
          & _ & Hth).
    rewrite Hrun. eexists _, _, []. split; [reflexivity |].
    rewrite Hdb, app_nil_r.
    repeat split; intros; try assumption; try (cbn; lia); discriminate.
  - destruct (new_signal_runs s) as (sig & s' & Hrun & _ & Hcase & Hres & Hth & _).
    rewrite Hrun. destruct (SignalDict.id sig) as [i |].
    + destruct Hcase as (_ & (row & Hrow) & _).
      eexists _, _, [row]. split; [reflexivity |].
      repeat split; intros; try assumption; try (cbn; lia); discriminate.
    + eexists _, _, []. split; [reflexivity |]. rewrite app_nil_r.
      repeat split; intros; try assumption; try (cbn; lia); discriminate.
  - destruct (Hquiet get_market_data) as (a & s' & added & H1 & H2 & H3 & H4 & H5 & H6).
    + unfold get_market_data. repeat store_step.
    + intros s0 a s1 err. unfold get_market_data, bind.
      destruct (fetch_market_data s0) as [[[] | e] s2]; cbn; [| discriminate].
      intros E. injection E as <- _. discriminate.
    + exists a, s', added. repeat split; intros; try assumption. apply H6.
  - destruct (Hquiet get_economic_news) as (a & s' & added & H1 & H2 & H3 & H4 & H5 & H6).
    + unfold get_economic_news. repeat store_step.
    + intros s0 a s1 err. unfold get_economic_news, bind.
      destruct (fetch_economic_news s0) as [[[] | e] s2]; cbn; [| discriminate].
      intros E. injection E as <- _. discriminate.
    + exists a, s', added. repeat split; intros; try assumption. apply H6.
  - destruct (update_settings_runs body s) as (a & s' & Hrun & Hframe & Ha).
    rewrite Hrun. exists a, s', []. split; [reflexivity |].
    rewrite Hframe. cbn [database set_trading_hours]. rewrite app_nil_r.
    split; [reflexivity |]. split; [cbn; lia |]. split; [reflexivity |].
    split; [discriminate |].
    intros err. destruct Ha as [-> | (e & -> & _)]; discriminate.
  - destruct (Hquiet (background_data_updater ;; ret NoResponse))
      as (a & s' & added & H1 & H2 & H3 & H4 & H5 & H6).
    + unfold background_data_updater. repeat store_step.
    + intros s0 a s1 err. unfold bind.
      destruct (background_data_updater s0) as [[[] | e] s2]; cbn; [| discriminate].
      intros E. injection E as <- _. discriminate.
    + exists a, s', added. repeat split; intros; try assumption. apply H6.
  - cbn. eexists _, _, []. split; [reflexivity |]. cbn. rewrite app_nil_r.
    repeat split; intros; try lia; discriminate.
Qed.

Lemma In_answers_cons (a b : response) (answers : list response) :
  In a (b :: answers) -> a = b \/ In a answers.
Proof. intros [E | H]; [left; symmetry; exact E | right; exact H]. Qed.

(** X24: over any run of requests, updater rounds and changes of the
    outside, the stored signals are only appended to: none is removed or
    rewritten, and at most one is added per new-signal request.  No
    request is answered with a server error, and the trading hours stay
    as they are as long as no settings are posted. *)
Theorem stored_signals_are_only_appended (events : list event) (s : Sys G) :
  exists added,
    signals (database (snd (run events s))) = signals (database s) ++ added /\
    (List.length added <= List.length (filter is_new_signal events))%nat /\
    signal_results (database (snd (run events s))) = signal_results (database s) /\
    (forall err, ~ In (ServerError err) (fst (run events s))) /\
    (forallb (fun e => negb (is_settings e)) events = true ->
     trading_hours (snd (run events s)) = trading_hours s).
Proof.
  revert s. induction events as [| e events IH]; intros s.
  - exists []. cbn. rewrite app_nil_r. repeat split; try lia; auto.
  - cbn [run].
    destruct (serve_store e s) as (a & s1 & added1 & Hrun & Hsig & Hlen & Hres & Hth & Ha).
    rewrite Hrun. specialize (IH s1).
    destruct (run events s1) as [answers s2]. cbn [fst snd] in *.
    destruct IH as (added2 & Hsig2 & Hlen2 & Hres2 & Hans2 & Hth2).
    exists (added1 ++ added2). split; [| split; [| split; [| split]]].
    + rewrite Hsig2, Hsig, app_assoc. reflexivity.
    + rewrite length_app. cbn [filter].
      destruct (is_new_signal e); cbn [List.length]; lia.
    + congruence.
    + intros err Hin. apply In_answers_cons in Hin. destruct Hin as [E | Hin].
      * apply (Ha err). symmetry. exact E.
      * apply (Hans2 err Hin).
    + cbn [forallb]. intros Hall. apply andb_true_iff in Hall.
      destruct Hall as [He Hrest]. apply negb_true_iff in He.
      rewrite (Hth2 Hrest). apply Hth. exact He.
Qed.


(** X25: a stored signal shows on the dashboard.  When the engine works
    for the save of a new signal and for the statistics of the next page,
    the page counts one signal more than the store had; the results, the
    wins and losses, the win rate and the average are as before. *)
Theorem dashboard_counts_a_stored_signal (s : Sys G) :
  hd false (db_faults s) = false ->
  hd false (tl (tl (db_faults s))) = false ->
  exists signal s1 shown hist md news hours stats s2,
    new_signal s = (Ok (SignalJson signal), s1) /\
    index s1 = (Ok (Dashboard shown hist md news hours stats), s2) /\
    Stats.total_signals stats = count (signals (database s)) + 1 /\
    Stats.signals_with_results stats
      = Stats.signals_with_results (statistics_of (database s)) /\
    Stats.wins stats = Stats.wins (statistics_of (database s)) /\
    Stats.losses stats = Stats.losses (statistics_of (database s)) /\
    Stats.win_rate stats = Stats.win_rate (statistics_of (database s)) /\
    Stats.avg_pips_gained stats = Stats.avg_pips_gained (statistics_of (database s)).
Proof.
  intros Hsave Hstats.
  destruct (new_signal_runs s) as (signal & s1 & Hrun & Hid & Hcase & Hres & _ & Hf).
  rewrite Hsave in Hid. cbn [negb] in Hid.
  destruct (SignalDict.id signal) as [i |]; [| discriminate].
  destruct Hcase as (_ & (row & Hsig) & _).
  destruct (index_runs s1)
    as (shown & hist & md & news & hours & stats & s2 & Hrun2 & _ & _ & Hst & _).
  rewrite Hf, Hstats in Hst.
  exists signal, s1, shown, hist, md, news, hours, stats, s2.
  split; [exact Hrun |]. split; [exact Hrun2 |].
  rewrite Hst. unfold statistics_of, recorded_pips.
  cbn [Stats.total_signals Stats.signals_with_results Stats.wins Stats.losses
         Stats.win_rate Stats.avg_pips_gained].
  rewrite Hres, Hsig, count_app. repeat split.
Qed.

End AppFacts.

(** ** The endpoint of the results *)

Section ApiFacts.

Context {G : Type} {RS : RandomSource G} {D : Driver}.

(** X23: the endpoint of the results always answers, and it writes only
    when it answers 200 with a result id: the store has then gained one
    result, of that id, and it references the signal of the URL, whatever
    the body says.  A body that is no dictionary or lacks [result] or
    [exit_price] is answered 400 before the store is reached, a refused
    save 500, and a body that does not parse is answered with the
    exception under status 200; in these cases nothing is stored. *)
Theorem add_signal_result_stores_under_the_url_id (signal_id : Z) (body : option json)
    (s : Sys G) :
  exists status answer s',
    add_signal_result signal_id body s = (Ok (status, answer), s') /\
    signals (database s') = signals (database s) /\
    match answer with
    | ResultSaved i =>
        status = 200 /\
        exists row,
          signal_results (database s') = signal_results (database s) ++ [row] /\
          SignalResult.id row = Some i /\
          SignalResult.signal_id row = Some signal_id
    | ApiError error =>
        database s' = database s /\
        ((status = 400 /\ s' = s /\
          (error = "Invalid data format" \/
           error = "Missing required field: result" \/
           error = "Missing required field: exit_price")) \/
         (status = 500 /\ error = "Failed to save result"))
    | ApiException e => status = 200 /\ e = BadRequest /\ body = None /\ s' = s
    | SignalFound _ => False
    end /\
    (status = 400 <->
     exists data, body = Some data /\
       match as_dict data with
       | Some members => dict_mem "result" members && dict_mem "exit_price" members = false
       | None => True
       end).
Proof.
  unfold add_signal_result, try_except, get_json.
  destruct body as [data |].
  2: { eexists _, _, _. split; [reflexivity |]. split; [reflexivity |].
       split; [repeat split |]. split; [discriminate |].
       intros (data & Habs & _). discriminate Habs. }
  unfold bind at 1. unfold ret at 1.
  destruct (as_dict data) as [members |] eqn:Hdict.
  2: { eexists _, _, _. split; [reflexivity |]. split; [reflexivity |]. split.
       - split; [reflexivity |]. left. auto.
       - split; [| reflexivity]. intros _. exists data. rewrite Hdict. auto. }
  cbn [first_missing].
  destruct (dict_mem "result" members) eqn:Hresult; cbn [negb].
  2: { eexists _, _, _. split; [reflexivity |]. split; [reflexivity |]. split.
       - split; [reflexivity |]. left. auto.
       - split; [| reflexivity]. intros _. exists data. rewrite Hdict, Hresult. auto. }
  destruct (dict_mem "exit_price" members) eqn:Hexit; cbn [negb].
  2: { eexists _, _, _. split; [reflexivity |]. split; [reflexivity |]. split.
       - split; [reflexivity |]. left. auto.
       - split; [| reflexivity]. intros _. exists data. rewrite Hdict, Hresult, Hexit.
         auto. }
  rewrite (bind_returns _ _ s s (now (clock s))) by reflexivity.
  unfold bind, db_call.
  destruct (save_signal_result_stores (result_data_of signal_id (now (clock s)) members)
              (database s) (hd false (db_faults s)) (now (clock s)))
    as (row & Hid & Href & _ & Hrun).
  rewrite Hrun.
  assert (Hnot400 : forall status : Z, status <> 400 ->
            status = 400 <->
            exists data0, Some data = Some data0 /\
              match as_dict data0 with
              | Some members0 =>
                  dict_mem "result" members0 && dict_mem "exit_price" members0 = false
              | None => True
              end).
  { intros status Hne. split; [intros E; contradiction |].
    intros (data0 & E & Hbad). injection E as <-. rewrite Hdict, Hresult, Hexit in Hbad.
    discriminate Hbad. }
  destruct (negb (hd false (db_faults s)) && reference_accepted (database s) _).
  - eexists _, _, _. split; [reflexivity |]. split; [reflexivity |]. split.
    + split; [reflexivity |]. exists row. split; [reflexivity |].
      split; [exact Hid | exact Href].
    + apply Hnot400. discriminate.
  - eexists _, _, _. split; [reflexivity |]. split; [reflexivity |]. split.
    + split; [reflexivity |]. right. auto.
    + apply Hnot400. discriminate.
Qed.


Lemma count_snoc {A : Type} (l : list A) (a : A) : count (l ++ [a]) = count l + 1.
Proof. unfold count. rewrite length_app. cbn. lia. Qed.

(** X26: a reported win is counted.  A body with a [result] that the
    driver binds to "WIN" and with an [exit_price], sent while the engine
    works and the reference is accepted, is answered 200 with a result
    id, and the statistics of the store then count one result and one win
    more, whether or not the signal had a result before; the losses and
    the signals are as they were. *)
Theorem a_reported_win_is_counted (signal_id : Z) (members : dict json) (v : json)
    (s : Sys G) :
  dict_get "result" members = Some v ->
  bind_string v = Some "WIN" ->
  dict_mem "exit_price" members = true ->
  hd false (db_faults s) = false ->
  fk_enforced (database s) = false \/ signal_exists signal_id (database s) = true ->
  exists i s',
    add_signal_result signal_id (Some (JDict members)) s
      = (Ok (200, ResultSaved i), s') /\
    forall now, exists stats,
      fst (get_signal_statistics (open_session (database s') false now)) = Ok stats /\
      Stats.wins stats = Stats.wins (statistics_of (database s)) + 1 /\
      Stats.signals_with_results stats
        = Stats.signals_with_results (statistics_of (database s)) + 1 /\
      Stats.losses stats = Stats.losses (statistics_of (database s)) /\
      Stats.total_signals stats = Stats.total_signals (statistics_of (database s)).
Proof.
  intros Hresult Hwin Hexit Hfault Href.
  unfold add_signal_result, try_except, get_json.
  unfold bind at 1. unfold ret at 1. cbn [as_dict first_missing].
  assert (Hmem : dict_mem "result" members = true).
  { unfold dict_mem. rewrite Hresult. reflexivity. }
  rewrite Hmem, Hexit. cbn [negb].
  rewrite (bind_returns _ _ s s (now (clock s))) by reflexivity.
  unfold bind, db_call.
  destruct (save_signal_result_stores (result_data_of signal_id (now (clock s)) members)
              (database s) (hd false (db_faults s)) (now (clock s)))
    as (row & Hid & _ & Hrow & Hrun).
  rewrite Hrun. rewrite Hfault. cbn [negb andb].
  assert (Hacc : reference_accepted (database s)
                   (result_data_of signal_id (now (clock s)) members) = true).
  { unfold reference_accepted. cbn [ResultData.signal_id result_data_of].
    destruct Href as [-> | ->]; [reflexivity | apply orb_true_r]. }
  rewrite Hacc. eexists _, _. split; [reflexivity |].
  intros later. rewrite get_signal_statistics_runs. eexists. split; [reflexivity |].
  cbn [committed open_session database set_db_faults set_database].
  unfold statistics_of.
  cbn [Stats.total_signals Stats.signals_with_results Stats.wins Stats.losses
         signals signal_results].
  assert (Hw : result_is "WIN" row = true).
  { unfold result_is. rewrite Hrow. cbn [ResultData.result result_data_of].
    rewrite Hresult, Hwin. reflexivity. }
  assert (Hl : result_is "LOSS" row = false).
  { unfold result_is. rewrite Hrow. cbn [ResultData.result result_data_of].
    rewrite Hresult, Hwin. reflexivity. }
  rewrite !filter_app. cbn [filter]. rewrite Hw, Hl, app_nil_r.
  rewrite !count_snoc. repeat split.
Qed.

End ApiFacts.

(** ** Runs on the replayable source *)

(** C9, at the failing input: a result is saved twice for the signal of
    id 1, on an engine that enforces the foreign key; both are stored, the
    second under a new id, and the signal has two results. *)
Lemma second_result_is_stored :
  map Signal.id (signals signal_store) = [Some 1] /\
  fst (save_signal_result (winning_result 1) (open_session signal_store false 0))
    = Ok (Some 1) /\
  fst (save_signal_result (winning_result 1) (open_session resulted_store false 0))
    = Ok (Some 2) /\
  List.length (results_of 1 resulted_store) = 1%nat /\
  List.length (results_of 1 twice_resulted_store) = 2%nat.
Proof. vm_compute. repeat split. Qed.

(** C1, the claim as stated fails: the window is enabled, it is noon, there
    is high-impact news and every coin flip gives 0.  Trading is not
    allowed, the tally gives 5 and the signal carries 10, above
    [floor(5 / 2)]. *)
Lemma halving_exceeds_half_of_a_low_tally :
  exists sig s',
    analyze_signal
      (scenario quiet_market true office_hours (clock_at 12) [] []) = (Ok sig, s') /\
    SignalDict.trading_allowed sig = false /\
    weighted_probability (SignalDict.strategies sig) tt = (Ok 5, tt) /\
    SignalDict.probability sig = 10 /\
    ~ (SignalDict.probability sig <= 5 / 2).
Proof.
  eexists _, _. split; [vm_compute; reflexivity |].
  split; [reflexivity |]. split; [vm_compute; reflexivity |].
  split; [reflexivity |]. vm_compute. intros H. apply H. reflexivity.
Qed.

(** C3, the claim as stated fails: with a volume of 0 the flag follows the
    eighth coin flip, and is 1 when that flip is 1 although the volume is
    not above 1,000,000. *)
Lemma volume_confirmation_drawn_without_volume_data :
  exists sig1 s1 sig2 s2,
    analyze_signal
      (scenario quiet_market false office_hours (clock_at 12) []
         [0; 0; 0; 0; 0; 0; 0; 1]) = (Ok sig1, s1) /\
    analyze_signal
      (scenario quiet_market false office_hours (clock_at 12) []
         [0; 0; 0; 0; 0; 0; 0; 0]) = (Ok sig2, s2) /\
    SignalDict.volume sig1 = 0 /\
    SignalDict.volume sig2 = 0 /\
    dict_get "Volume Confirmation" (SignalDict.strategies sig1) = Some 1 /\
    dict_get "Volume Confirmation" (SignalDict.strategies sig2) = Some 0.
Proof.
  eexists _, _, _, _.
  split; [vm_compute; reflexivity |]. split; [vm_compute; reflexivity |].
  repeat split.
Qed.

(** C2, the claim as stated fails: two runs with the same market state,
    news state, trading window and random state, one at noon and one at
    eight in the evening, return different signals; and a run that finds
    no price writes the quote it fetches into the market state. *)
Lemma synthesis_reads_clock_and_refreshes_market :
  (let s1 := scenario quiet_market false office_hours (clock_at 12) [] [] in
   let s2 := scenario quiet_market false office_hours (clock_at 20) [] [] in
   market_data s1 = market_data s2 /\
   economic_news s1 = economic_news s2 /\
   trading_hours s1 = trading_hours s2 /\
   random s1 = random s2 /\
   fst (analyze_signal s1) <> fst (analyze_signal s2)) /\
  (let s3 := scenario no_market false office_hours (clock_at 12)
               [QuoteRows (1085 # 1000) None (109 # 100) (108 # 100)] [] in
   market_data (snd (analyze_signal s3)) <> market_data s3).
Proof.
  split.
  - cbv zeta. repeat split. vm_compute. intros H. discriminate H.
  - cbv zeta. vm_compute. intros H. discriminate H.
Qed.

(** C2, a run: two processes that differ in the news list, the history,
    the thread flag, the store and the engine's faults return the same
    signal. *)
Lemma synthesis_is_a_function_of_inputs_and_clock_witness :
  let s := scenario quiet_market false office_hours (clock_at 12) [] [1; 0; 1; 1] in
  same_inputs s (elsewhere s) /\
  fst (analyze_signal s) = fst (analyze_signal (elsewhere s)).
Proof.
  cbv zeta. split; [repeat split |].
  apply (synthesis_is_a_function_of_inputs_and_clock _ (elsewhere _)).
  repeat split.
Defined.

(** ** The further properties at work *)

Lemma overnight_window_never_allows_trading_witness :
  let s := scenario quiet_market false overnight_hours (clock_at 23) [] [1; 0; 1; 1] in
  TradingHours.enabled (trading_hours s) = true /\
  TradingHours.end_ (trading_hours s) <= TradingHours.start (trading_hours s) /\
  is_trading_allowed s = (Ok false, s).
Proof.
  cbv zeta. split; [reflexivity |]. split; [discriminate |].
  refine (proj1 (overnight_window_never_allows_trading _ _ _)).
  - reflexivity.
  - discriminate.
Defined.

Lemma settings_are_stored_without_validation_witness :
  dict_get "trading_hours" overnight_settings = Some (JDict overnight_fields) /\
  update_settings (Some (JDict overnight_settings)) at_noon
    = (Ok (SettingsJson overnight_hours), set_trading_hours overnight_hours at_noon).
Proof.
  split; [reflexivity |].
  exact (settings_are_stored_without_validation at_noon overnight_settings
           overnight_fields (Some (JBool true)) (Some 22) (Some 6)
           eq_refl eq_refl eq_refl eq_refl).
Defined.

Lemma update_settings_ignores_bodies_without_hours_witness :
  update_settings (Some (JDict [("hours", JNull)])) at_noon
    = (Ok (SettingsJson (trading_hours at_noon)), at_noon).
Proof.
  refine (proj1 (update_settings_ignores_bodies_without_hours at_noon
                   (JDict [("hours", JNull)]) _)).
  exact I.
Defined.

Lemma saved_signal_is_read_back_witness :
  let signal_data := signal_data_of sample_signal in
  let session := snd (save_signal signal_data (open_session (empty_db false) false 0)) in
  save_signal signal_data (open_session (empty_db false) false 0)
    = (Ok (Some 1), session) /\
  get_signal_by_id 1 (open_session (committed session) false 5)
    = (Ok (Some (stored_record 1 0 signal_data)),
       open_session (committed session) false 5).
Proof.
  cbv zeta. split; [reflexivity |].
  apply (saved_signal_is_read_back (signal_data_of sample_signal) (empty_db false) false).
  - cbn. repeat (apply NoDup_cons; [cbn; intuition discriminate |]). apply NoDup_nil.
  - reflexivity.
Defined.

Lemma dashboard_counts_a_stored_signal_witness :
  hd false (db_faults at_noon) = false /\
  exists signal s1 shown hist md news hours stats s2,
    new_signal at_noon = (Ok (SignalJson signal), s1) /\
    index s1 = (Ok (Dashboard shown hist md news hours stats), s2) /\
    Stats.total_signals stats = count (signals (database at_noon)) + 1 /\
    Stats.signals_with_results stats
      = Stats.signals_with_results (statistics_of (database at_noon)) /\
    Stats.wins stats = Stats.wins (statistics_of (database at_noon)) /\
    Stats.losses stats = Stats.losses (statistics_of (database at_noon)) /\
    Stats.win_rate stats = Stats.win_rate (statistics_of (database at_noon)) /\
    Stats.avg_pips_gained stats
      = Stats.avg_pips_gained (statistics_of (database at_noon)).
Proof.
  split; [reflexivity |].
  apply (dashboard_counts_a_stored_signal at_noon); reflexivity.
Defined.

Lemma a_reported_win_is_counted_witness :
  dict_get "result" win_report = Some (JString "WIN") /\
  exists i s',
    add_signal_result 7 (Some (JDict win_report)) at_noon
      = (Ok (200, ResultSaved i), s') /\
    forall now, exists stats,
      fst (get_signal_statistics (open_session (database s') false now)) = Ok stats /\
      Stats.wins stats = Stats.wins (statistics_of (database at_noon)) + 1 /\
      Stats.signals_with_results stats
        = Stats.signals_with_results (statistics_of (database at_noon)) + 1 /\
      Stats.losses stats = Stats.losses (statistics_of (database at_noon)) /\
      Stats.total_signals stats = Stats.total_signals (statistics_of (database at_noon)).
Proof.
  split; [reflexivity |].
  apply (a_reported_win_is_counted 7 win_report (JString "WIN") at_noon).
  - reflexivity.
  - reflexivity.
  - reflexivity.
  - reflexivity.
  - left. reflexivity.
Defined.
